(** * Houdini submitter: render-graph to job-plan compiler

    A shallow embedding of
    [src/deadline/houdini_submitter/python/deadline_cloud_for_houdini/submitter.py].

    Python strings are modelled as [string] (the bytes of the UTF-8
    encoding of the text; white space is recognised by its encoding),
    Python [int] as [Z] (the interpreter's limit on the digits [int()]
    accepts, which never applies to a text of at most 640 digits, is left
    out), raised
    exceptions as the [Err] branch of [Result],
    dictionaries used as maps as [gmap], and the host application ([hou]),
    the operating system ([os.path], [open]) and the farm client helpers as
    explicit interface records that every function receives. The callbacks
    [p_parse_files], [p_save_bundle] and [p_submit] return, besides the
    state they leave, what the user can observe and the exception that
    escapes them, if any. *)

From Stdlib Require Import ZArith Ascii String List Bool Lia.
From stdpp Require Import base option list gmap strings pretty sorting.

Open Scope string_scope.
Open Scope Z_scope.
Open Scope list_scope.

(** ** Exceptions and the error monad *)

Inductive PyExc : Type :=
| IndexError
| KeyError (key : string)
| ValueError
| AttributeError
| TypeError
| FileNotFoundError
| Exception (msg : string).

Inductive Result (A : Type) : Type :=
| Ok (a : A)
| Err (e : PyExc).
Arguments Ok {A} a.
Arguments Err {A} e.

#[global] Instance Result_ret : MRet Result := λ A a, Ok a.

#[global] Instance Result_bind : MBind Result := λ A B k r,
  match r with
  | Ok a => k a
  | Err e => Err e
  end.

#[global] Instance Result_fmap : FMap Result := λ A B f r,
  match r with
  | Ok a => Ok (f a)
  | Err e => Err e
  end.

(** [for x in l: ...] collecting results, stopping at the first exception. *)
Fixpoint mapM {A B : Type} (f : A → Result B) (l : list A) : Result (list B) :=
  match l with
  | [] => Ok []
  | x :: xs => y ← f x; ys ← mapM f xs; Ok (y :: ys)
  end.

(** ** Python built-ins used by the submitter *)

Definition TAB : ascii := ascii_of_nat 9.
Definition LF : ascii := ascii_of_nat 10.
Definition NL : string := String LF EmptyString.

Module Py.

(** [l[i]] for a non-negative index. *)
Definition index {A : Type} (l : list A) (i : nat) : Result A :=
  match l !! i with
  | Some x => Ok x
  | None => Err IndexError
  end.

(** [l[-k]] for [k >= 1]. *)
Definition index_neg {A : Type} (l : list A) (k : nat) : Result A :=
  if decide (k ≤ length l)%nat then index l (length l - k) else Err IndexError.

(** [l[1:-2]]. *)
Definition slice_1_m2 {A : Type} (l : list A) : list A :=
  take (length l - 3) (drop 1 l).

(** [s.split(sep)] for a one-character separator. *)
Fixpoint split (sep : ascii) (s : string) : list string :=
  match s with
  | EmptyString => [EmptyString]
  | String c s' =>
      if Ascii.eqb c sep then EmptyString :: split sep s'
      else match split sep s' with
           | [] => [String c EmptyString]
           | w :: ws => String c w :: ws
           end
  end.

(** Characters for which [str.isspace] holds, among those of one byte. *)
Definition is_space (c : ascii) : bool :=
  let n := nat_of_ascii c in
  ((9 <=? n) && (n <=? 13) || (28 <=? n) && (n <=? 32))%nat.

(** The white space [int()] skips among the characters of one byte: the
    separators U+001C to U+001F are not part of it. *)
Definition is_int_space (c : ascii) : bool :=
  let n := nat_of_ascii c in
  ((9 <=? n) && (n <=? 13) || (n =? 32))%nat.

(** The other characters for which [str.isspace] holds, by the bytes of
    their UTF-8 encoding: U+0085 and U+00A0 take two bytes, ... *)
Definition is_space2 (c1 c2 : ascii) : bool :=
  let n1 := nat_of_ascii c1 in
  let n2 := nat_of_ascii c2 in
  ((n1 =? 194) && ((n2 =? 133) || (n2 =? 160)))%nat.

(** ... and U+1680, U+2000 to U+200A, U+2028, U+2029, U+202F, U+205F and
    U+3000 take three. *)
Definition is_space3 (c1 c2 c3 : ascii) : bool :=
  let n1 := nat_of_ascii c1 in
  let n2 := nat_of_ascii c2 in
  let n3 := nat_of_ascii c3 in
  ((n1 =? 225) && (n2 =? 154) && (n3 =? 128)
   || (n1 =? 226) && (n2 =? 128)
      && ((128 <=? n3) && (n3 <=? 138) || (n3 =? 168) || (n3 =? 169) || (n3 =? 175))
   || (n1 =? 226) && (n2 =? 129) && (n3 =? 159)
   || (n1 =? 227) && (n2 =? 128) && (n3 =? 128))%nat.

(** Drops the leading white space of [s]: the characters of one byte that
    [one] accepts and the longer ones above. With [backwards] the text is
    read from its end, so the bytes of a character arrive last one first. *)
Fixpoint lstrip_with (one : ascii → bool) (backwards : bool) (s : string) : string :=
  match s with
  | EmptyString => EmptyString
  | String c1 s1 =>
      if one c1 then lstrip_with one backwards s1
      else
        match s1 with
        | EmptyString => s
        | String c2 s2 =>
            if (if backwards then is_space2 c2 c1 else is_space2 c1 c2)
            then lstrip_with one backwards s2
            else
              match s2 with
              | EmptyString => s
              | String c3 s3 =>
                  if (if backwards then is_space3 c3 c2 c1 else is_space3 c1 c2 c3)
                  then lstrip_with one backwards s3
                  else s
              end
        end
  end.

Definition strip_with (one : ascii → bool) (s : string) : string :=
  String.rev (lstrip_with one true (String.rev (lstrip_with one false s))).

Definition lstrip (s : string) : string := lstrip_with is_space false s.

Definition rstrip (s : string) : string :=
  String.rev (lstrip_with is_space true (String.rev s)).

(** [s.strip()]. *)
Definition strip (s : string) : string := rstrip (lstrip s).

(** Truth value of a string: non-empty. *)
Definition truthy (s : string) : bool :=
  match s with EmptyString => false | _ => true end.

(** [s.replace(old, new)] for a non-empty [old]: leftmost, non-overlapping
    occurrences; [skip] counts the characters of a matched occurrence still
    to be dropped. *)
Fixpoint replace_go (old new : string) (skip : nat) (s : string) : string :=
  match s with
  | EmptyString => EmptyString
  | String c s' =>
      match skip with
      | S k => replace_go old new k s'
      | O =>
          if String.prefix old s
          then new +:+ replace_go old new (String.length old - 1) s'
          else String c (replace_go old new O s')
      end
  end.

Definition replace (old new s : string) : string := replace_go old new O s.

(** [s.startswith(prefixes)] with a tuple of prefixes. *)
Definition startswith (prefixes : list string) (s : string) : bool :=
  existsb (λ p, String.prefix p s) prefixes.

(** [x in (a, b, ...)] on strings. *)
Definition str_in (x : string) (l : list string) : bool :=
  existsb (String.eqb x) l.

Definition digit_val (c : ascii) : option Z :=
  let n := nat_of_ascii c in
  if ((48 <=? n) && (n <=? 57))%nat then Some (Z.of_nat n - 48) else None.

(** Decimal digits with single underscores between digits. *)
Fixpoint digits_go (acc : Z) (after_digit : bool) (s : string) : option Z :=
  match s with
  | EmptyString => if after_digit then Some acc else None
  | String c s' =>
      match digit_val c with
      | Some d => digits_go (10 * acc + d) true s'
      | None =>
          if Ascii.eqb c "_" && after_digit then digits_go acc false s'
          else None
      end
  end.

(** [int(s)] on a string: surrounding white space (that of [str.strip]
    without U+001C to U+001F), an optional sign, then the digits [0] to [9]
    with single underscores between them; anything else raises
    [ValueError]. The decimal digits of other scripts, which [int()] reads
    as well, are not modelled: a text holding one is rejected here. *)
Definition int (s : string) : Result Z :=
  let t := strip_with is_int_space s in
  let '(neg, body) :=
    match t with
    | String "+" r => (false, r)
    | String "-" r => (true, r)
    | _ => (false, t)
    end in
  match digits_go 0 false body with
  | Some n => Ok (if neg : bool then - n else n)
  | None => Err ValueError
  end.

(** The interpreter's limit on the number of digits that [int()] reads can
    be configured and is not modelled; no setting applies it to a text of
    at most this many digits. *)
Definition MAX_STR_DIGITS_THRESHOLD : nat := 640.

(** [str(n)] / ["%s" % n] / ["{}".format(n)] for an [int]. *)
Definition str_of_int (n : Z) : string := pretty n.

End Py.


(** Values a parameter's [eval()] returns: toggles, integers and menus give an
    [int], string parameters a [str]. *)
Inductive PyVal : Type :=
| PInt (n : Z)
| PStr (s : string).

Definition val_truthy (v : PyVal) : bool :=
  match v with
  | PInt n => negb (n =? 0)
  | PStr s => Py.truthy s
  end.

(** Opaque structured values read from JSON or YAML documents. *)
#[local] Unset Elimination Schemes.
Inductive Json : Type :=
| JNull
| JBool (b : bool)
| JInt (n : Z)
| JStr (s : string)
| JList (l : list Json)
| JObj (l : list (string * Json)).
#[local] Set Elimination Schemes.

(** ** Data model *)

(** The dictionary built for each step at lines 126-134 of the source. *)
Record RenderStep : Type := {
  rs_id : string;
  rs_name : string;
  rs_deps : list string;
  rs_rop : string;
  rs_start : Z;
  rs_stop : Z;
  rs_step : Z;
}.

(** [deadline.client.job_bundle.submission.AssetReferences]: three sets of
    path strings. *)
Record AssetReferences : Type := {
  input_filenames : gset string;
  input_directories : gset string;
  output_directories : gset string;
}.

(** [AssetReferences()]: the library's constructor starts every set empty. *)
Definition AssetReferences_new : AssetReferences :=
  {| input_filenames := ∅; input_directories := ∅; output_directories := ∅ |}.

(** One parameter definition: a dictionary from field name to value. *)
Abbreviation ParamDef := (gmap string Json).

Record EmbeddedFile : Type := {
  ef_name : string;
  ef_filename : string;
  ef_type : string;
  ef_data : string;
}.

Record Action : Type := {
  act_command : string;
  act_args : list string;
  act_cancelation_mode : string;
}.

Record Environment : Type := {
  env_name : string;
  env_description : string;
  env_embeddedFiles : list EmbeddedFile;
  env_onEnter : Action;
  env_onExit : Action;
}.

Record TaskParameter : Type := {
  tp_name : string;
  tp_range : list Z;
  tp_type : string;
}.

Record Dependency : Type := { dependsOn : string }.

Record StepDocument : Type := {
  sd_name : string;
  sd_taskParameterDefinitions : list TaskParameter;
  sd_stepEnvironments : list Environment;
  sd_embeddedFiles : list EmbeddedFile;
  sd_onRun : Action;
  sd_dependencies : option (list Dependency);
}.

Record JobTemplate : Type := {
  jt_specificationVersion : string;
  jt_name : string;
  jt_parameterDefinitions : list ParamDef;
  jt_steps : list StepDocument;
  jt_description : option string;
  jt_jobEnvironments : option (list Json);
}.

Record ParameterValue : Type := { pv_name : string; pv_value : PyVal }.

(** The content of the bundled [adaptor_override_environment.yaml]: its
    [parameterDefinitions] and its [environment]. *)
Record OverrideEnvironment : Type := {
  ov_parameterDefinitions : list ParamDef;
  ov_environment : Json;
}.

(** What [deadline_yaml_dump] is asked to serialise. *)
Inductive Document : Type :=
| DocTemplate (t : JobTemplate)
| DocParameterValues (v : list ParameterValue)
| DocAssetReferences (a : AssetReferences).

(** ** The host application and the other collaborators *)

(** A [hou.Parm]: its node (named by its path), its name and its values. *)
Record Parm : Type := {
  parm_node : string;
  parm_name : string;
  parm_eval : PyVal;
  parm_evalAsString : string;
}.

(** A [hou.Node]. Two nodes are the same node exactly when their paths are
    equal. *)
Record Node : Type := {
  node_path : string;
  node_type_name : string;
  node_type_nameWithCategory : string;
  node_parms : gmap string Parm;
  node_userData : gmap string string;
}.

(** Everything the submitter reads from outside: the scene ([hou]), the
    operating system ([os.path]), the farm client library
    ([parse_frame_range], [deadline_yaml_dump]), [json.loads], the bundled
    override file and the sibling module [queue_parameters]. *)
Record Host : Type := {
  hou_hipFile_path : string;
  hou_applicationVersionString : string;
  hou_fileReferences : list (option Parm * string);
  hou_hscript : string → string * string;
  hou_node : string → option Node;
  os_path_isdir : string → bool;
  os_path_exists : string → bool;
  os_path_dirname : string → string;
  parse_frame_range : string → Result (list Z);
  json_loads : string → Result (list ParamDef);
  load_override_environment : Result OverrideEnvironment;
  get_queue_parameter_values_as_openjd : Node → Result (list ParameterValue);
  deadline_yaml_dump : Document → string;
}.

(** [x.attr] when [x] may be [None]. *)
Definition deref {A : Type} (o : option A) : Result A :=
  match o with
  | Some a => Ok a
  | None => Err AttributeError
  end.

(** [node.parm(name)] followed by a method call on the result. *)
Definition parm (nd : Node) (name : string) : Result Parm :=
  deref (node_parms nd !! name).

Definition IGNORE_REF_VALUES : list string := ["opdef:"; "oplib:"; "temp:"].
Definition IGNORE_REF_PARMS : list string :=
  ["taskgraphfile"; "pdg_workingdir"; "soho_program"].

Definition _get_hip_file (h : Host) : string := hou_hipFile_path h.

Definition _get_houdini_version (h : Host) : string := hou_applicationVersionString h.

(** ** Step-graph extractor: [_get_rop_steps] *)

(** Operator types that submit to a farm; steps on them are skipped. *)
Definition FARM_ROP_TYPES : list string := ["deadline"; "deadline_cloud"].

(** Lines 103-110: the frame part of a line, as a list of integers. *)
Definition range_parts (frange_part : string) : list string :=
  let frange := Py.replace "( " "" frange_part in
  let frange := Py.replace " )" "" frange in
  Py.split " " frange.

Definition single_frame (range_ints : list Z) : list Z :=
  match range_ints with
  | [frame] => [frame; frame; 1]
  | _ => range_ints
  end.

(** Lines 117-122: the tokens between the id and the path, without the
    brackets. *)
Definition deps_of (rop_parts : list string) : list string :=
  List.filter (λ d, negb (Py.str_in d ["["; "]"])) (Py.slice_1_m2 rop_parts).

(** Lines 98-135, the body of the loop for one non-blank line [n]:
    [Ok None] is [continue], [Ok (Some s)] appends [s]. *)
Definition rop_step_of_line (h : Host) (n : string) : Result (option RenderStep) :=
  let parts := Py.split TAB n in
  rop_str ← Py.index parts 0;
  frange_part ← Py.index parts 1;
  range_ints ← mapM Py.int (range_parts frange_part);
  let range_ints := single_frame range_ints in
  let rop_parts := Py.split " " rop_str in
  _id ← Py.index rop_parts 0;
  path ← Py.index_neg rop_parts 2;
  let deps := deps_of rop_parts in
  nd ← deref (hou_node h path);
  if Py.str_in (node_type_name nd) FARM_ROP_TYPES then Ok None
  else
    start ← Py.index range_ints 0;
    stop ← Py.index range_ints 1;
    step ← Py.index range_ints 2;
    Ok (Some {| rs_id := _id;
                rs_name := path +:+ "-" +:+ _id;
                rs_deps := deps;
                rs_rop := path;
                rs_start := start;
                rs_stop := stop;
                rs_step := step |}).

(** Lines 94-135: the loop over the lines of the command's output. *)
Fixpoint rop_steps_of_lines (h : Host) (lines : list string) : Result (list RenderStep) :=
  match lines with
  | [] => Ok []
  | n :: rest =>
      if negb (Py.truthy (Py.strip n)) then rop_steps_of_lines h rest
      else
        r ← rop_step_of_line h n;
        rop_steps ← rop_steps_of_lines h rest;
        Ok (match r with
            | Some step_dict => step_dict :: rop_steps
            | None => rop_steps
            end)
  end.

Definition _get_rop_steps (h : Host) (rop : Node) : Result (list RenderStep) :=
  let cmd := "render -p -c -F " +:+ node_path rop in
  let '(out, err) := hou_hscript h cmd in
  if Py.truthy err
  then Err (Exception ("hscript render: failed to list steps" +:+ NL +:+ NL +:+ err))
  else rop_steps_of_lines h (Py.split LF out).

(** ** Asset reference collector *)

(** Lines 45-54: whether the file reference [n] is added to the input files. *)
Definition keeps_reference (h : Host) (rop_node : Node) (n : option Parm * string) : bool :=
  match n.1 with
  | Some p =>
      if String.eqb (parm_node p) (node_path rop_node) then false
      else if Py.startswith IGNORE_REF_VALUES n.2 then false
      else if Py.str_in (parm_name p) IGNORE_REF_PARMS then false
      else negb (os_path_isdir h n.2)
  | None => negb (os_path_isdir h n.2)
  end.

Definition rop_dir_map : gmap string string :=
  list_to_map [ ("Driver/ifd", "vm_picture");
                ("Driver/karma", "picture");
                ("Driver/geometry", "sopoutput");
                ("Driver/alembic", "filename");
                ("Sop/filecache", "file");
                ("Sop/rop_geometry", "sopoutput");
                ("Sop/rop_alembic", "filename") ].

(** Lines 67-73: the output directory a step contributes, if any. *)
Definition output_directory_of (h : Host) (n : RenderStep) : Result (option string) :=
  nd ← deref (hou_node h (rs_rop n));
  let type_name := node_type_nameWithCategory nd in
  match rop_dir_map !! type_name with
  | Some out_parm =>
      p ← parm nd out_parm;
      match parm_eval p with
      | PStr path =>
          if Py.truthy path then Ok (Some (os_path_dirname h path)) else Ok None
      | PInt k => if negb (k =? 0) then Err TypeError else Ok None
      end
  | None => Ok None
  end.

Fixpoint output_directories_of (h : Host) (rop_steps : list RenderStep) : Result (gset string) :=
  match rop_steps with
  | [] => Ok ∅
  | n :: rest =>
      o ← output_directory_of h n;
      ds ← output_directories_of h rest;
      Ok (match o with Some d => {[ d ]} ∪ ds | None => ds end)
  end.

Definition _get_scene_asset_references (h : Host) (rop_node : Node) : Result AssetReferences :=
  let asset_references := AssetReferences_new in
  let input_filenames : gset string :=
    {[ _get_hip_file h ]}
    ∪ list_to_set (List.map snd (List.filter (keeps_reference h rop_node) (hou_fileReferences h))) in
  rop_steps ← _get_rop_steps h rop_node;
  output_directories ← output_directories_of h rop_steps;
  Ok {| input_filenames := input_filenames;
        input_directories := input_directories asset_references;
        output_directories := output_directories |}.

(** ** Job template compiler *)

Definition NOTIFY_THEN_TERMINATE : string := "NOTIFY_THEN_TERMINATE".

(** [get_houdini_environments]: the environment shared by the steps. *)
Definition get_houdini_environments (init_data_attachment : EmbeddedFile) : list Environment :=
  [ {| env_name := "Houdini";
       env_description := "Runs Houdini in the background.";
       env_embeddedFiles := [init_data_attachment];
       env_onEnter :=
         {| act_command := "HoudiniAdaptor";
            act_args := [ "daemon"; "start";
                          "--path-mapping-rules";
                          "file://{{Session.PathMappingRulesFile}}";
                          "--connection-file";
                          "{{ Session.WorkingDirectory }}/connection.json";
                          "--init-data";
                          "file://{{ Env.File.initData }}" ];
            act_cancelation_mode := NOTIFY_THEN_TERMINATE |};
       env_onExit :=
         {| act_command := "HoudiniAdaptor";
            act_args := [ "daemon"; "stop";
                          "--connection-file";
                          "{{ Session.WorkingDirectory }}/connection.json" ];
            act_cancelation_mode := NOTIFY_THEN_TERMINATE |} |} ].

(** [id_steps = {n["id"]: n for n in rop_steps}]: a later step with the same
    id replaces an earlier one. *)
Definition id_steps_of (rop_steps : list RenderStep) : gmap string RenderStep :=
  foldl (λ m n, <[rs_id n := n]> m) ∅ rop_steps.

(** [id_steps[d]["name"]]. *)
Definition dependency_of (id_steps : gmap string RenderStep) (d : string) : Result Dependency :=
  match id_steps !! d with
  | Some n => Ok {| dependsOn := rs_name n |}
  | None => Err (KeyError d)
  end.

(** Lines 183-193: the init data attached to a step's environment. *)
Definition init_data_contents (h : Host) (ignore_input_nodes : string) (n : RenderStep) : list string :=
  [ "scene_file: '{{Param.HipFile}}'" +:+ NL;
    "render_node: '" +:+ rs_rop n +:+ "'" +:+ NL;
    "version: " +:+ _get_houdini_version h +:+ NL;
    "ignore_input_nodes: " +:+ ignore_input_nodes +:+ NL ].

Definition init_data_attachment (h : Host) (ignore_input_nodes : string) (n : RenderStep) : EmbeddedFile :=
  {| ef_name := "initData";
     ef_filename := "init-data.yaml";
     ef_type := "TEXT";
     ef_data := String.concat "" (init_data_contents h ignore_input_nodes n) |}.

(** Lines 197-200: the run data embedded in a step's script. *)
Definition task_data_contents (n : RenderStep) : list string :=
  [ "render_node: " +:+ rs_rop n +:+ NL;
    "frame: {{Task.Param.Frame}}" +:+ NL;
    "ignore_input_nodes: true" +:+ NL ].

Definition frame_list (n : RenderStep) : string :=
  Py.str_of_int (rs_start n) +:+ "-" +:+ Py.str_of_int (rs_stop n)
  +:+ ":" +:+ Py.str_of_int (rs_step n).

(** Lines 182-241, the body of the loop over the steps. *)
Definition step_document (h : Host) (id_steps : gmap string RenderStep)
    (ignore_input_nodes : string) (n : RenderStep) : Result StepDocument :=
  let environments :=
    get_houdini_environments (init_data_attachment h ignore_input_nodes n) in
  range ← parse_frame_range h (frame_list n);
  let step :=
    {| sd_name := rs_name n;
       sd_taskParameterDefinitions :=
         [ {| tp_name := "Frame"; tp_range := range; tp_type := "INT" |} ];
       sd_stepEnvironments := environments;
       sd_embeddedFiles :=
         [ {| ef_name := "runData";
              ef_filename := "run-data.yaml";
              ef_type := "TEXT";
              ef_data := String.concat "" (task_data_contents n) |} ];
       sd_onRun :=
         {| act_command := "HoudiniAdaptor";
            act_args := [ "daemon"; "run";
                          "--connection-file";
                          "{{ Session.WorkingDirectory }}/connection.json";
                          "--run-data";
                          "file://{{ Task.File.runData }}" ];
            act_cancelation_mode := NOTIFY_THEN_TERMINATE |};
       sd_dependencies := None |} in
  match rs_deps n with
  | [] => Ok step
  | _ :: _ =>
      deps ← mapM (dependency_of id_steps) (rs_deps n);
      Ok {| sd_name := sd_name step;
            sd_taskParameterDefinitions := sd_taskParameterDefinitions step;
            sd_stepEnvironments := sd_stepEnvironments step;
            sd_embeddedFiles := sd_embeddedFiles step;
            sd_onRun := sd_onRun step;
            sd_dependencies := Some deps |}
  end.

Definition hip_file_definition (h : Host) : ParamDef :=
  list_to_map [ ("name", JStr "HipFile");
                ("type", JStr "PATH");
                ("objectType", JStr "FILE");
                ("dataFlow", JStr "IN");
                ("default", JStr (_get_hip_file h)) ].

(** Lines 161-166: the definitions stored on the operator, none by default. *)
Definition queue_parameter_definitions (h : Host) (rop : Node) : Result (list ParamDef) :=
  match node_userData rop !! "queue_parameter_definitions" with
  | Some queue_parameter_definitions_json => json_loads h queue_parameter_definitions_json
  | None => Ok []
  end.

(** Lines 156-249: the template before the adaptor override is looked at. *)
Definition job_template_core (h : Host) (rop : Node) : Result JobTemplate :=
  job_name ← parm_evalAsString <$> parm rop "name";
  job_description ← parm_evalAsString <$> parm rop "description";
  separate_steps ← parm_eval <$> parm rop "separate_steps";
  rop_steps ← _get_rop_steps h rop;
  let id_steps := id_steps_of rop_steps in
  parameter_definitions ← queue_parameter_definitions h rop;
  let parameter_definitions := parameter_definitions ++ [hip_file_definition h] in
  '(rop_steps, ignore_input_nodes) ←
    (if negb (val_truthy separate_steps)
     then first ← Py.index rop_steps 0; Ok ([first], "false")
     else Ok (rop_steps, "true"));
  steps ← mapM (step_document h id_steps ignore_input_nodes) rop_steps;
  Ok {| jt_specificationVersion := "jobtemplate-2023-09";
        jt_name := job_name;
        jt_parameterDefinitions := parameter_definitions;
        jt_steps := steps;
        jt_description :=
          if Py.truthy job_description then Some job_description else None;
        jt_jobEnvironments := None |}.

(** Lines 250-265: the optional adaptor override. *)
Definition adaptor_override (h : Host) (rop : Node) (job_template : JobTemplate) : Result JobTemplate :=
  include_adaptor_wheels ← parm_eval <$> parm rop "include_adaptor_wheels";
  if val_truthy include_adaptor_wheels then
    adaptor_wheels ← parm_evalAsString <$> parm rop "adaptor_wheels";
    if os_path_exists h adaptor_wheels then
      override_environment ← load_override_environment h;
      match ov_parameterDefinitions override_environment with
      | [] => Err IndexError
      | first :: others =>
          let definitions := <["default" := JStr adaptor_wheels]> first :: others in
          Ok {| jt_specificationVersion := jt_specificationVersion job_template;
                jt_name := jt_name job_template;
                jt_parameterDefinitions :=
                  jt_parameterDefinitions job_template ++ definitions;
                jt_steps := jt_steps job_template;
                jt_description := jt_description job_template;
                jt_jobEnvironments :=
                  Some (default [] (jt_jobEnvironments job_template)
                        ++ [ov_environment override_environment]) |}
      end
    else Ok job_template
  else Ok job_template.

Definition _get_job_template (h : Host) (rop : Node) : Result JobTemplate :=
  job_template ← job_template_core h rop;
  adaptor_override h rop job_template.

(** ** Parameter values and node-list asset references *)

Definition _get_parameter_values (h : Host) (nd : Node) : Result (list ParameterValue) :=
  priority ← parm_eval <$> parm nd "priority";
  initial_status ← parm_evalAsString <$> parm nd "initial_status";
  failed_tasks_limit ← parm_eval <$> parm nd "failed_tasks_limit";
  task_retry_limit ← parm_eval <$> parm nd "task_retry_limit";
  queue_values ← get_queue_parameter_values_as_openjd h nd;
  Ok ([ {| pv_name := "deadline:priority"; pv_value := priority |};
        {| pv_name := "deadline:targetTaskRunStatus"; pv_value := PStr initial_status |};
        {| pv_name := "deadline:maxFailedTasksCount"; pv_value := failed_tasks_limit |};
        {| pv_name := "deadline:maxRetriesPerTask"; pv_value := task_retry_limit |} ]
      ++ queue_values).

(** ** Job bundle writer *)

(** The part of the file system the writer touches: the directories that
    exist, and the content of each file, named by its directory and its file
    name. A directory that exists can be written to. *)
Record FileSystem : Type := {
  fs_dirs : gset string;
  fs_files : gmap (string * string) string;
}.

(** [with open(dir / name, "w") as f: f.write(content)]: opening fails when
    the directory is missing; nothing creates it. The other ways a write
    can fail (a file that may not be written, a full disk) are not
    modelled. *)
Definition write_file (fs : FileSystem) (dir name content : string) : Result FileSystem :=
  if decide (dir ∈ fs_dirs fs)
  then Ok {| fs_dirs := fs_dirs fs; fs_files := <[(dir, name) := content]> (fs_files fs) |}
  else Err FileNotFoundError.

(** [_create_job_bundle]: the file system it leaves, and [None] on a normal
    return or the exception it raises. Files already written stay when a
    later step raises. *)
Definition _create_job_bundle (h : Host) (fs : FileSystem) (rop_node : Node)
    (job_bundle_dir : string) (asset_references : AssetReferences)
    : FileSystem * option PyExc :=
  match _get_job_template h rop_node with
  | Err e => (fs, Some e)
  | Ok job_template =>
      match _get_parameter_values h rop_node with
      | Err e => (fs, Some e)
      | Ok parameter_values =>
          match write_file fs job_bundle_dir "template.yaml"
                  (deadline_yaml_dump h (DocTemplate job_template)) with
          | Err e => (fs, Some e)
          | Ok fs1 =>
              match write_file fs1 job_bundle_dir "parameter_values.yaml"
                      (deadline_yaml_dump h (DocParameterValues parameter_values)) with
              | Err e => (fs1, Some e)
              | Ok fs2 =>
                  match write_file fs2 job_bundle_dir "asset_references.yaml"
                          (deadline_yaml_dump h (DocAssetReferences asset_references)) with
                  | Err e => (fs2, Some e)
                  | Ok fs3 => (fs3, None)
                  end
              end
          end
      end
  end.

(** ** Node-list mode and the callbacks of the operator *)

(** The multi-parameters of the submitting operator that hold its path
    lists: for each one, by name, the text stored in its instances, in
    order. A name that is missing is a parameter the operator does not
    have. Each instance holds one string parameter. *)
Abbreviation MultiParms := (gmap string (list string)).

(** What the callbacks use beyond [Host]: [eval()] of a string parameter
    holding a given text (the host expands variables and expressions), the
    text a new multi-parameter instance starts with, the job-history helper
    of the client library, which returns the directory it made, and
    [sys.platform]. *)
Record Session : Type := {
  parm_eval_string : string → string;
  multiparm_default : string;
  create_job_history_bundle_dir : FileSystem → string → string → FileSystem * Result string;
  sys_platform : string;
}.

(** What the callbacks do that can be observed: [print] of a text and of
    [str(exc)], [hou.ui.displayMessage] without a severity and with
    [severity=hou.severityType.Warning] and [str(exc)] as text,
    [os.startfile], and the calls to the farm: [deadline.get_queue],
    [api.get_queue_user_boto3_session] and the progress dialog's
    [start_submission]. *)
Inductive Event : Type :=
| Print (text : string)
| PrintException (exc : PyExc)
| DisplayMessage (text title : string)
| DisplayWarning (exc : PyExc) (title : string)
| StartFile (path : string)
| GetQueue (farm_id queue_id : string)
| GetQueueSession (farm_id queue_id : string) (queue_display_name : Json)
| StartSubmission (farm_id queue_id storage_profile_id job_bundle_dir : string)
    (queue_parameters : list Json) (auto_accept : bool).

Definition DIALOG_TITLE : string := "Houdini Job Submission".

(** [n.eval() for n in rop_node.parm(name).multiParmInstances()]. *)
Definition multiparm_values (s : Session) (mp : MultiParms) (name : string) : Result (list string) :=
  match mp !! name with
  | Some instances => Ok (parm_eval_string s <$> instances)
  | None => Err AttributeError
  end.

Definition _get_asset_references (s : Session) (mp : MultiParms) : Result AssetReferences :=
  let asset_references := AssetReferences_new in
  files ← multiparm_values s mp "input_filenames";
  directories ← multiparm_values s mp "input_directories";
  outputs ← multiparm_values s mp "output_directories";
  Ok {| input_filenames := input_filenames asset_references ∪ list_to_set files;
        input_directories := input_directories asset_references ∪ list_to_set directories;
        output_directories := output_directories asset_references ∪ list_to_set outputs |}.

(** [while p.multiParmInstancesCount(): p.removeMultiParmInstance(0)]. *)
Fixpoint remove_instances (instances : list string) : list string :=
  match instances with
  | [] => []
  | _ :: rest => remove_instances rest
  end.

(** [sorted(list(paths))]: strings in the order of their characters. *)
Definition sorted_paths (paths : gset string) : list string :=
  merge_sort String.le (elements paths).

(** [for i, n in enumerate(instances): n.set(paths[i])], from instance [i]
    on, with [todo] instances left: the instances as they are at the end,
    and the exception that ended the loop, if any. *)
Fixpoint set_instances (paths : list string) (i todo : nat) (instances : list string)
    : list string * option PyExc :=
  match todo with
  | O => (instances, None)
  | S todo' =>
      match Py.index paths i with
      | Ok path => set_instances paths (S i) todo' (<[i := path]> instances)
      | Err e => (instances, Some e)
      end
  end.

(** Lines 299-304: one multi-parameter is emptied, resized to the number of
    paths and filled with them. *)
Definition fill_multiparm (s : Session) (paths : gset string) (instances : list string)
    : list string * option PyExc :=
  let cleared := remove_instances instances in
  let paths := sorted_paths paths in
  let resized := resize (length paths) (multiparm_default s) cleared in
  set_instances paths 0 (length resized) resized.

(** Lines 297-304: the loop over the three lists. *)
Fixpoint parse_refs (s : Session) (refs : list (string * gset string)) (mp : MultiParms)
    : MultiParms * option PyExc :=
  match refs with
  | [] => (mp, None)
  | (ref, paths) :: rest =>
      match mp !! ref with
      | None => (mp, Some AttributeError)
      | Some instances =>
          match fill_multiparm s paths instances with
          | (filled, None) => parse_refs s rest (<[ref := filled]> mp)
          | (filled, Some e) => (<[ref := filled]> mp, Some e)
          end
      end
  end.

(** [p_parse_files]: the multi-parameters it leaves and the exception it
    raises, if any. *)
Definition p_parse_files (h : Host) (s : Session) (node : Node) (mp : MultiParms)
    : MultiParms * option PyExc :=
  match _get_scene_asset_references h node with
  | Err e => (mp, Some e)
  | Ok asset_references =>
      parse_refs s
        [ ("input_filenames", input_filenames asset_references);
          ("input_directories", input_directories asset_references);
          ("output_directories", output_directories asset_references) ]
        mp
  end.

(** [p_save_bundle]: the file system it leaves, what the user sees, and the
    exception that escapes, if any. *)
Definition p_save_bundle (h : Host) (s : Session) (mp : MultiParms) (fs : FileSystem)
    (node : Node) : FileSystem * list Event * option PyExc :=
  match parm_evalAsString <$> parm node "name" with
  | Err e => (fs, [], Some e)
  | Ok name =>
      match _get_asset_references s mp with
      | Err e => (fs, [], Some e)
      | Ok asset_references =>
          let failed (fs' : FileSystem) (exc : PyExc) :=
            (fs', [ Print "Error saving bundle"; DisplayWarning exc DIALOG_TITLE ], None) in
          match create_job_history_bundle_dir s fs "houdini" name with
          | (fs1, Err exc) => failed fs1 exc
          | (fs1, Ok job_bundle_dir) =>
              match _create_job_bundle h fs1 node job_bundle_dir asset_references with
              | (fs2, Some exc) => failed fs2 exc
              | (fs2, None) =>
                  (fs2,
                   [ Print "Saved the submission as a job bundle:";
                     Print job_bundle_dir ]
                   ++ (if String.eqb (sys_platform s) "win32"
                       then [ StartFile job_bundle_dir ] else [])
                   ++ [ DisplayMessage
                          ("Saved the submission as a job bundle: " +:+ job_bundle_dir)
                          DIALOG_TITLE ],
                   None)
              end
          end
      end
  end.

(** The farm client library, as [p_submit] uses it. The handles it passes
    around (client, session, settings, asset manager, dialog) are opaque
    names. *)
Record Farm : Type := {
  get_boto3_client : string → Result string;
  get_setting : string → string;
  get_queue : string → string → string → Result (gmap string Json);
  get_queue_user_boto3_session : string → string → string → Json → Result string;
  JobAttachmentS3Settings : Json → Result string;
  S3AssetManager : string → string → string → string → Result string;
  SubmitJobProgressDialog : Result string;
  str2bool : string → Result bool;
  start_submission :
    string → string → string → string → string → list Json → string → string → bool
    → Result unit;
}.

(** [d[key]] on the response of a farm call. *)
Definition getitem (d : gmap string Json) (key : string) : Result Json :=
  match d !! key with
  | Some v => Ok v
  | None => Err (KeyError key)
  end.

(** A computation that logs the farm calls it makes. *)
Definition Traced (A : Type) : Type := list Event * Result A.

Definition traced_bind {A B : Type} (c : Traced A) (k : A → Traced B) : Traced B :=
  match c with
  | (events, Ok a) => let '(events', r) := k a in (events ++ events', r)
  | (events, Err e) => (events, Err e)
  end.

Definition quiet {A : Type} (r : Result A) : Traced A := ([], r).
Definition logged {A : Type} (e : Event) (r : Result A) : Traced A := ([e], r).

(** Lines 341-371 of [p_submit]: what follows the writing of the bundle. *)
Definition submit_bundle (farm : Farm) (deadline job_bundle_dir : string)
    (queue_parameters : list Json) : Traced unit :=
  let farm_id := get_setting farm "defaults.farm_id" in
  let queue_id := get_setting farm "defaults.queue_id" in
  let storage_profile_id := get_setting farm "settings.storage_profile_id" in
  traced_bind (logged (GetQueue farm_id queue_id) (get_queue farm deadline farm_id queue_id))
    (λ queue,
  traced_bind (quiet (getitem queue "displayName")) (λ display_name,
  traced_bind (logged (GetQueueSession farm_id queue_id display_name)
                 (get_queue_user_boto3_session farm deadline farm_id queue_id display_name))
    (λ queue_role_session,
  traced_bind (quiet (getitem queue "jobAttachmentSettings")) (λ settings,
  traced_bind (quiet (JobAttachmentS3Settings farm settings)) (λ job_attachment_settings,
  traced_bind (quiet (S3AssetManager farm farm_id queue_id job_attachment_settings
                        queue_role_session)) (λ asset_manager,
  traced_bind (quiet (SubmitJobProgressDialog farm)) (λ job_progress_dialog,
  traced_bind (quiet (str2bool farm (get_setting farm "settings.auto_accept")))
    (λ auto_accept,
  logged (StartSubmission farm_id queue_id storage_profile_id job_bundle_dir
            queue_parameters auto_accept)
    (start_submission farm job_progress_dialog farm_id queue_id storage_profile_id
       job_bundle_dir queue_parameters asset_manager deadline auto_accept))))))))).

(** [p_submit]: the file system it leaves, what can be observed, and the
    exception that escapes, if any. The files the progress dialog may touch
    are outside the model. *)
Definition p_submit (h : Host) (s : Session) (farm : Farm) (mp : MultiParms)
    (fs : FileSystem) (node : Node) : FileSystem * list Event * option PyExc :=
  match parm_evalAsString <$> parm node "name" with
  | Err e => (fs, [], Some e)
  | Ok name =>
      let queue_parameters : list Json := [] in
      match _get_asset_references s mp with
      | Err e => (fs, [], Some e)
      | Ok asset_references =>
          let failed (fs' : FileSystem) (events : list Event) (exc : PyExc) :=
            (fs', events ++ [ PrintException exc; DisplayWarning exc DIALOG_TITLE ], None) in
          match get_boto3_client farm "deadline" with
          | Err exc => failed fs [] exc
          | Ok deadline =>
              match create_job_history_bundle_dir s fs "houdini" name with
              | (fs1, Err exc) => failed fs1 [] exc
              | (fs1, Ok job_bundle_dir) =>
                  match _create_job_bundle h fs1 node job_bundle_dir asset_references with
                  | (fs2, Some exc) => failed fs2 [] exc
                  | (fs2, None) =>
                      match submit_bundle farm deadline job_bundle_dir queue_parameters with
                      | (events, Err exc) => failed fs2 events exc
                      | (events, Ok _) => (fs2, events, None)
                      end
                  end
              end
          end
      end
  end.

(** A dialog, as opposed to printed text and calls. *)
Definition is_dialog (e : Event) : bool :=
  match e with
  | DisplayMessage _ _ | DisplayWarning _ _ => true
  | _ => false
  end.

(** A call to the farm. *)
Definition is_farm_call (e : Event) : bool :=
  match e with
  | GetQueue _ _ | GetQueueSession _ _ _ | StartSubmission _ _ _ _ _ _ => true
  | _ => false
  end.

(** ** Vocabulary of the properties *)

(** A render step with a non-empty [deps] list. *)
Definition has_deps (n : RenderStep) : bool :=
  match rs_deps n with [] => false | _ :: _ => true end.

(** A step document that carries a [dependencies] field. *)
Definition has_dependencies (sd : StepDocument) : bool :=
  match sd_dependencies sd with Some _ => true | None => false end.

(** The entry [dep] made for the dependency id [d] names the step of
    [steps] whose id is [d], the last such step when several share the id,
    and the document at the position of that step in [jt] has that name. *)
Definition depends_on_sibling (steps : list RenderStep) (jt : JobTemplate)
    (d : string) (dep : Dependency) : Prop :=
  ∃ i m sd',
    steps !! i = Some m
    ∧ rs_id m = d
    ∧ (∀ j m', (i < j)%nat → steps !! j = Some m' → rs_id m' ≠ d)
    ∧ dependsOn dep = rs_name m
    ∧ jt_steps jt !! i = Some sd'
    ∧ sd_name sd' = dependsOn dep.

(** The text of every file embedded in the environments of a step. *)
Definition embedded_init_data (sd : StepDocument) : list string :=
  concat (List.map (λ env, List.map ef_data (env_embeddedFiles env)) (sd_stepEnvironments sd)).

(** The init-data file of a step on [render_node] whose
    [ignore_input_nodes] entry is [flag]. *)
Definition init_data_with_flag (h : Host) (render_node flag : string) : string :=
  ("scene_file: '{{Param.HipFile}}'" +:+ NL)
  +:+ ("render_node: '" +:+ render_node +:+ "'" +:+ NL)
  +:+ ("version: " +:+ hou_applicationVersionString h +:+ NL)
  +:+ ("ignore_input_nodes: " +:+ flag +:+ NL).

(** The three files of a job bundle. *)
Definition BUNDLE_FILES : list string :=
  ["template.yaml"; "parameter_values.yaml"; "asset_references.yaml"].

(** Whether the character [c] occurs in [s]. *)
Fixpoint contains (c : ascii) (s : string) : bool :=
  match s with
  | EmptyString => false
  | String a s' => Ascii.eqb a c || contains c s'
  end.

(** A string without a space, a tab or a line feed. *)
Definition is_token (t : string) : Prop :=
  contains " " t = false ∧ contains TAB t = false ∧ contains LF t = false.

(** The lines of the render command's output that are not blank. *)
Definition non_blank_lines (out : string) : list string :=
  List.filter (λ n, Py.truthy (Py.strip n)) (Py.split LF out).

(** The steps of the graph that the template compiler makes documents of:
    all of them with "separate steps" on, the first one otherwise. *)
Definition compiled_steps (separate_steps : PyVal) (steps : list RenderStep) : list RenderStep :=
  if val_truthy separate_steps then steps else take 1 steps.

(** The run-data file of a step on [render_node]. *)
Definition run_data_text (render_node : string) : string :=
  ("render_node: " +:+ render_node +:+ NL)
  +:+ ("frame: {{Task.Param.Frame}}" +:+ NL)
  +:+ ("ignore_input_nodes: true" +:+ NL).

(** The message of the exception raised for a render command that reports
    [err]. *)
Definition hscript_failure (err : string) : PyExc :=
  Exception ("hscript render: failed to list steps" +:+ NL +:+ NL +:+ err).




(** ** A small scene used to run the functions *)

Module Scene.

Definition toggle (nd name : string) (v : Z) : Parm :=
  {| parm_node := nd; parm_name := name; parm_eval := PInt v;
     parm_evalAsString := Py.str_of_int v |}.

Definition text (nd name v : string) : Parm :=
  {| parm_node := nd; parm_name := name; parm_eval := PStr v;
     parm_evalAsString := v |}.

(** The submitting operator, with its two toggles as arguments. *)
Definition submitter (separate_steps include_adaptor_wheels : Z) : Node :=
  let me := "/out/deadline_cloud1" in
  {| node_path := me;
     node_type_name := "deadline_cloud";
     node_type_nameWithCategory := "Driver/deadline_cloud";
     node_parms :=
       list_to_map
         [ ("name", text me "name" "shot");
           ("description", text me "description" "");
           ("separate_steps", toggle me "separate_steps" separate_steps);
           ("include_adaptor_wheels",
            toggle me "include_adaptor_wheels" include_adaptor_wheels);
           ("adaptor_wheels", text me "adaptor_wheels" "/w");
           ("priority", toggle me "priority" 50);
           ("initial_status", text me "initial_status" "READY");
           ("failed_tasks_limit", toggle me "failed_tasks_limit" 20);
           ("task_retry_limit", toggle me "task_retry_limit" 5) ];
     node_userData := ∅ |}.

Definition geo1 : Node :=
  {| node_path := "/out/geo1";
     node_type_name := "geometry";
     node_type_nameWithCategory := "Driver/geometry";
     node_parms :=
       list_to_map [ ("sopoutput", text "/out/geo1" "sopoutput" "/proj/geo/out.bgeo") ];
     node_userData := ∅ |}.

Definition mantra1 : Node :=
  {| node_path := "/out/mantra1";
     node_type_name := "ifd";
     node_type_nameWithCategory := "Driver/ifd";
     node_parms :=
       list_to_map [ ("vm_picture", text "/out/mantra1" "vm_picture" "/proj/render/img.exr") ];
     node_userData := ∅ |}.

(** One line of the render command's output. *)
Definition line (rop_str frames : string) : string :=
  rop_str +:+ String TAB frames +:+ NL.

Definition two_steps : string :=
  line "1 [ ] /out/geo1 " "( 1 10 1 )"
  +:+ line "2 [ 1 ] /out/mantra1 " "( 5 )"
  +:+ line "3 [ 2 ] /out/deadline_cloud1 " "( 1 10 1 )".

Definition override_wheels : ParamDef :=
  list_to_map [ ("name", JStr "OverrideAdaptorWheels"); ("type", JStr "PATH") ].
Definition override_name : ParamDef :=
  list_to_map [ ("name", JStr "OverrideAdaptorName"); ("type", JStr "STRING") ].

Definition override : OverrideEnvironment :=
  {| ov_parameterDefinitions := [override_wheels; override_name];
     ov_environment := JObj [ ("name", JStr "OverrideAdaptor") ] |}.

(** A scene whose render command prints [out], with the file references
    [refs] and the paths [existing] on disk. *)
Definition host (rop : Node) (out : string) (refs : list (option Parm * string))
    (existing : list string) : Host :=
  {| hou_hipFile_path := "/proj/shot.hip";
     hou_applicationVersionString := "19.5.435";
     hou_fileReferences := refs;
     hou_hscript := λ cmd,
       if String.eqb cmd ("render -p -c -F " +:+ node_path rop)
       then (out, "") else ("", "render: unknown operator");
     hou_node := λ p,
       if String.eqb p (node_path rop) then Some rop
       else if String.eqb p "/out/geo1" then Some geo1
       else if String.eqb p "/out/mantra1" then Some mantra1
       else None;
     os_path_isdir := λ p, String.eqb p "/proj/tex";
     os_path_exists := λ p, Py.str_in p existing;
     os_path_dirname := λ p,
       if String.eqb p "/proj/geo/out.bgeo" then "/proj/geo"
       else if String.eqb p "/proj/render/img.exr" then "/proj/render"
       else "";
     parse_frame_range := λ s,
       if String.eqb s "1-10:1" then Ok [1; 2; 3; 4; 5; 6; 7; 8; 9; 10]
       else if String.eqb s "5-5:1" then Ok [5]
       else Err ValueError;
     json_loads := λ _, Err ValueError;
     load_override_environment := Ok override;
     get_queue_parameter_values_as_openjd := λ _, Ok [];
     deadline_yaml_dump := λ d,
       match d with
       | DocTemplate t => "template: " +:+ jt_name t
       | DocParameterValues v => "parameterValues"
       | DocAssetReferences a => "assetReferences"
       end |}.

(** The submitting operator with "separate steps" on, and off. *)
Definition rop_separate : Node := submitter 1 0.
Definition rop_single : Node := submitter 0 0.

Definition host_separate : Host := host rop_separate two_steps [] [].
Definition host_single : Host := host rop_single two_steps [] [].

(** The step graph of [two_steps]: its third line, for the submitting
    operator itself, gives no step. *)
Definition graph : list RenderStep :=
  [ {| rs_id := "1"; rs_name := "/out/geo1-1"; rs_deps := [];
       rs_rop := "/out/geo1"; rs_start := 1; rs_stop := 10; rs_step := 1 |};
    {| rs_id := "2"; rs_name := "/out/mantra1-2"; rs_deps := ["1"];
       rs_rop := "/out/mantra1"; rs_start := 5; rs_stop := 5; rs_step := 1 |} ].

Definition single_frame_line : string := "2 [ 1 ] /out/mantra1 " +:+ String TAB "( 5 )".
Definition two_frames_line : string := "1 [ ] /out/geo1 " +:+ String TAB "( 1 10 )".
Definition four_frames_line : string := "1 [ ] /out/geo1 " +:+ String TAB "( 1 10 2 99 )".

(** The step document expected for a step, written out. *)
Definition step_doc (name render_node flag : string) (range : list Z)
    (deps : option (list Dependency)) : StepDocument :=
  {| sd_name := name;
     sd_taskParameterDefinitions :=
       [ {| tp_name := "Frame"; tp_range := range; tp_type := "INT" |} ];
     sd_stepEnvironments :=
       get_houdini_environments
         {| ef_name := "initData";
            ef_filename := "init-data.yaml";
            ef_type := "TEXT";
            ef_data :=
              "scene_file: '{{Param.HipFile}}'" +:+ NL
              +:+ "render_node: '" +:+ render_node +:+ "'" +:+ NL
              +:+ "version: 19.5.435" +:+ NL
              +:+ "ignore_input_nodes: " +:+ flag +:+ NL |};
     sd_embeddedFiles :=
       [ {| ef_name := "runData";
            ef_filename := "run-data.yaml";
            ef_type := "TEXT";
            ef_data :=
              "render_node: " +:+ render_node +:+ NL
              +:+ "frame: {{Task.Param.Frame}}" +:+ NL
              +:+ "ignore_input_nodes: true" +:+ NL |} ];
     sd_onRun :=
       {| act_command := "HoudiniAdaptor";
          act_args := [ "daemon"; "run"; "--connection-file";
                        "{{ Session.WorkingDirectory }}/connection.json";
                        "--run-data"; "file://{{ Task.File.runData }}" ];
          act_cancelation_mode := "NOTIFY_THEN_TERMINATE" |};
     sd_dependencies := deps |}.

Definition geo1_doc (flag : string) : StepDocument :=
  step_doc "/out/geo1-1" "/out/geo1" flag [1; 2; 3; 4; 5; 6; 7; 8; 9; 10] None.

Definition mantra1_doc (flag : string) : StepDocument :=
  step_doc "/out/mantra1-2" "/out/mantra1" flag [5]
    (Some [ {| dependsOn := "/out/geo1-1" |} ]).

(** The template expected in this scene, for given steps and extensions. *)
Definition template (steps : list StepDocument) (extension : list ParamDef)
    (environments : option (list Json)) : JobTemplate :=
  {| jt_specificationVersion := "jobtemplate-2023-09";
     jt_name := "shot";
     jt_parameterDefinitions :=
       list_to_map [ ("name", JStr "HipFile"); ("type", JStr "PATH");
                     ("objectType", JStr "FILE"); ("dataFlow", JStr "IN");
                     ("default", JStr "/proj/shot.hip") ]
       :: extension;
     jt_steps := steps;
     jt_description := None;
     jt_jobEnvironments := environments |}.

Definition template_separate : JobTemplate :=
  template [geo1_doc "true"; mantra1_doc "true"] [] None.

Definition template_single : JobTemplate :=
  template [geo1_doc "false"] [] None.

(** A render command that prints only blank lines. *)
Definition blank_output : string := "  " +:+ NL +:+ NL.
Definition host_blank : Host := host rop_separate blank_output [] [].
Definition host_blank_single : Host := host rop_single blank_output [] [].

Definition template_no_steps : JobTemplate := template [] [] None.

(** The operator with "include adaptor wheels" on; the wheels path [/w]
    exists in [host_wheels] and is missing in [host_no_wheels]. *)
Definition rop_wheels : Node := submitter 1 1.
Definition host_wheels : Host := host rop_wheels two_steps [] ["/w"].
Definition host_no_wheels : Host := host rop_wheels two_steps [] [].

Definition template_wheels : JobTemplate :=
  template [geo1_doc "true"; mantra1_doc "true"]
    [ list_to_map [ ("name", JStr "OverrideAdaptorWheels"); ("type", JStr "PATH");
                    ("default", JStr "/w") ];
      override_name ]
    (Some [ JObj [ ("name", JStr "OverrideAdaptor") ] ]).

(** A scene whose render command knows no operator but [/out/geo1]: asked
    about the submitting operator it reports an error. *)
Definition host_failing : Host := host geo1 two_steps [] [].

(** A chain in which a farm operator sits between two render operators:
    its line gives no step, and the step after it depends on its id. *)
Definition chain_through_farm : string :=
  line "1 [ ] /out/geo1 " "( 1 10 1 )"
  +:+ line "2 [ 1 ] /out/deadline_cloud1 " "( 1 10 1 )"
  +:+ line "3 [ 2 ] /out/mantra1 " "( 5 )".
Definition host_chain : Host := host rop_separate chain_through_farm [] [].

(** An output whose first line is a step with a dependency. *)
Definition dependent_first : string :=
  line "2 [ 1 ] /out/mantra1 " "( 5 )"
  +:+ line "1 [ ] /out/geo1 " "( 1 10 1 )".
Definition host_dependent_first : Host := host rop_single dependent_first [] [].

(** A session in which parameters evaluate to their text and the
    job-history helper makes the directory [/history/<name>]. *)
Definition session : Session :=
  {| parm_eval_string := λ text, text;
     multiparm_default := "";
     create_job_history_bundle_dir := λ fs dcc name,
       let dir := "/history/" +:+ name in
       ({| fs_dirs := {[ dir ]} ∪ fs_dirs fs; fs_files := fs_files fs |}, Ok dir);
     sys_platform := "linux" |}.

(** The path lists of the operator before any scan. *)
Definition lists : MultiParms :=
  list_to_map [ ("input_filenames", ["old.hip"]);
                ("input_directories", ["/proj/cache"]);
                ("output_directories", []) ].

(** A farm that answers every call; and one whose queue lookup fails. *)
Definition farm (queue_known : bool) : Farm :=
  {| get_boto3_client := λ service, Ok service;
     get_setting := λ key,
       if String.eqb key "defaults.farm_id" then "farm-1"
       else if String.eqb key "defaults.queue_id" then "queue-1"
       else if String.eqb key "settings.storage_profile_id" then "sp-1"
       else "true";
     get_queue := λ client farm_id queue_id,
       if queue_known
       then Ok (list_to_map [ ("displayName", JStr "Render");
                              ("jobAttachmentSettings", JObj []) ])
       else Err (Exception "ResourceNotFoundException");
     get_queue_user_boto3_session := λ client farm_id queue_id display, Ok "session";
     JobAttachmentS3Settings := λ settings, Ok "settings";
     S3AssetManager := λ farm_id queue_id settings session, Ok "manager";
     SubmitJobProgressDialog := Ok "dialog";
     str2bool := λ text, Ok (String.eqb text "true");
     start_submission := λ dialog farm_id queue_id profile dir parameters manager client
                           auto_accept, Ok () |}.

(** Path lists of an operator that lacks the list of input directories. *)
Definition lists_without_directories : MultiParms :=
  list_to_map [ ("input_filenames", ["old.hip"]); ("output_directories", []) ].

(** Two file systems: one without the bundle directory, one with it. *)
Definition fs_without_dir : FileSystem := {| fs_dirs := ∅; fs_files := ∅ |}.
Definition fs_with_dir : FileSystem := {| fs_dirs := {[ "/bundle" ]}; fs_files := ∅ |}.

(** File references: a texture, a directory, a reference of the submitting
    operator, one of a denylisted parameter, and an operator-definition
    pseudo-path that no parameter owns. *)
Definition references : list (option Parm * string) :=
  [ (Some (text "/obj/geo1/file1" "file" "/proj/tex/wood.png"), "/proj/tex/wood.png");
    (Some (text "/obj/geo1/file2" "file" "/proj/tex"), "/proj/tex");
    (Some (text "/out/deadline_cloud1" "adaptor_wheels" "/w"), "/w");
    (Some (text "/obj/topnet1" "pdg_workingdir" "/proj/pdg"), "/proj/pdg");
    (None, "opdef:/Object/geo?icon.svg") ].

Definition host_references : Host := host rop_separate two_steps references [].

(** What scene-scan mode collects in that scene. *)
Definition scanned : AssetReferences :=
  {| input_filenames :=
       {[ "/proj/shot.hip"; "/proj/tex/wood.png"; "opdef:/Object/geo?icon.svg" ]};
     input_directories := ∅;
     output_directories := {[ "/proj/geo"; "/proj/render" ]} |}.

End Scene.

(** * Properties *)

(** ** The built-ins on the text of the render command *)

Example split_line :
  Py.split TAB Scene.single_frame_line = ["2 [ 1 ] /out/mantra1 "; "( 5 )"].
Proof. reflexivity. Qed.

Example split_tokens :
  Py.split " " "2 [ 1 ] /out/mantra1 " = ["2"; "["; "1"; "]"; "/out/mantra1"; ""].
Proof. reflexivity. Qed.

Example range_parts_three : range_parts "( 1 10 2 )" = ["1"; "10"; "2"].
Proof. reflexivity. Qed.

Example int_signed : Py.int " -1_0 " = Ok (-10).
Proof. reflexivity. Qed.

Example int_empty : Py.int "" = Err ValueError.
Proof. reflexivity. Qed.

(** A no-break space (U+00A0, the bytes 194 and 160) is white space for
    [str.strip] and for [int()]; the separator U+001C is white space for
    [str.strip] only. *)
Example strip_no_break_space :
  Py.strip (String (ascii_of_nat 194) (String (ascii_of_nat 160) " ")) = "".
Proof. reflexivity. Qed.

Example int_no_break_space :
  Py.int (String "5" (String (ascii_of_nat 194) (String (ascii_of_nat 160) ""))) = Ok 5.
Proof. reflexivity. Qed.

Example strip_separator : Py.strip (String "5" (String (ascii_of_nat 28) "")) = "5".
Proof. reflexivity. Qed.

Example int_separator :
  Py.int (String "5" (String (ascii_of_nat 28) "")) = Err ValueError.
Proof. reflexivity. Qed.

Example frame_list_negative :
  frame_list {| rs_id := "1"; rs_name := "n"; rs_deps := []; rs_rop := "r";
                rs_start := -5; rs_stop := 10; rs_step := 2 |} = "-5-10:2".
Proof. reflexivity. Qed.

(** ** The error monad *)

Section Monad.
Context {A B : Type}.

Lemma bind_Ok_inv (r : Result A) (k : A → Result B) (b : B) :
  r ≫= k = Ok b → ∃ a, r = Ok a ∧ k a = Ok b.
Proof. destruct r as [a|e]; simpl; [eauto | discriminate]. Qed.

Lemma bind_Ok (a : A) (k : A → Result B) : Ok a ≫= k = k a.
Proof. reflexivity. Qed.

Lemma fmap_Ok (f : A → B) (a : A) : f <$> Ok a = Ok (f a).
Proof. reflexivity. Qed.

Lemma fmap_Ok_inv (f : A → B) (r : Result A) (b : B) :
  f <$> r = Ok b → ∃ a, r = Ok a ∧ b = f a.
Proof. destruct r as [a|e]; simpl; [|discriminate]. intros [= <-]. eauto. Qed.
End Monad.

Section MapM.
Context {A B : Type}.

Lemma mapM_Forall2 (f : A → Result B) (l : list A) (l' : list B) :
  mapM f l = Ok l' → Forall2 (λ x y, f x = Ok y) l l'.
Proof.
  revert l'. induction l as [|x xs IH]; simpl; intros l' H.
  - injection H as <-. constructor.
  - apply bind_Ok_inv in H as (y & Hy & H).
    apply bind_Ok_inv in H as (ys & Hys & H).
    injection H as <-. constructor; auto.
Qed.

End MapM.

Lemma deref_Ok_inv {A : Type} (o : option A) (a : A) : deref o = Ok a → o = Some a.
Proof. destruct o; simpl; congruence. Qed.

Lemma index_Ok_inv {A : Type} (l : list A) (i : nat) (a : A) :
  Py.index l i = Ok a → l !! i = Some a.
Proof. unfold Py.index. destruct (l !! i); congruence. Qed.

Lemma index_lookup {A : Type} (l : list A) (i : nat) (a : A) :
  l !! i = Some a → Py.index l i = Ok a.
Proof. unfold Py.index. by intros ->. Qed.

(** ** Step-graph extractor *)

(** What a line that yields a step looks like. *)
Lemma rop_step_of_line_Some (h : Host) (n : string) (st : RenderStep) :
  rop_step_of_line h n = Ok (Some st) →
  ∃ rop_str frange_part ints nd,
    Py.split TAB n !! 0%nat = Some rop_str
    ∧ Py.split TAB n !! 1%nat = Some frange_part
    ∧ mapM Py.int (range_parts frange_part) = Ok ints
    ∧ Py.index_neg (Py.split " " rop_str) 2 = Ok (rs_rop st)
    ∧ Py.split " " rop_str !! 0%nat = Some (rs_id st)
    ∧ rs_name st = rs_rop st +:+ "-" +:+ rs_id st
    ∧ rs_deps st = deps_of (Py.split " " rop_str)
    ∧ hou_node h (rs_rop st) = Some nd
    ∧ Py.str_in (node_type_name nd) FARM_ROP_TYPES = false
    ∧ single_frame ints !! 0%nat = Some (rs_start st)
    ∧ single_frame ints !! 1%nat = Some (rs_stop st)
    ∧ single_frame ints !! 2%nat = Some (rs_step st).
Proof.
  unfold rop_step_of_line. intros H.
  apply bind_Ok_inv in H as (rop_str & Hrop & H).
  apply bind_Ok_inv in H as (frange_part & Hfr & H).
  apply bind_Ok_inv in H as (ints & Hints & H).
  apply bind_Ok_inv in H as (_id & Hid & H).
  apply bind_Ok_inv in H as (path & Hpath & H).
  apply bind_Ok_inv in H as (nd & Hnd & H).
  destruct (Py.str_in (node_type_name nd) FARM_ROP_TYPES) eqn:Hty; [discriminate|].
  apply bind_Ok_inv in H as (start & Hstart & H).
  apply bind_Ok_inv in H as (stop & Hstop & H).
  apply bind_Ok_inv in H as (step & Hstep & H).
  injection H as <-. simpl.
  exists rop_str, frange_part, ints, nd.
  repeat split; auto using index_Ok_inv, deref_Ok_inv.
Qed.

(** Every extracted step comes from a line of the output. *)
Lemma rop_steps_of_lines_from (h : Host) (lines : list string) (steps : list RenderStep) :
  rop_steps_of_lines h lines = Ok steps →
  Forall (λ st, ∃ n, n ∈ lines ∧ rop_step_of_line h n = Ok (Some st)) steps.
Proof.
  revert steps. induction lines as [|n rest IH]; simpl; intros steps H.
  - injection H as <-. constructor.
  - destruct (negb (Py.truthy (Py.strip n))).
    + eapply Forall_impl; [apply IH, H|].
      intros st (m & Hm & Hst). exists m. split; [by right | done].
    + apply bind_Ok_inv in H as (r & Hr & H).
      apply bind_Ok_inv in H as (tl & Htl & H).
      injection H as <-.
      assert (Forall (λ st, ∃ m, m ∈ n :: rest ∧ rop_step_of_line h m = Ok (Some st)) tl) as Hrest.
      { eapply Forall_impl; [apply IH, Htl|].
        intros st (m & Hm & Hst). exists m. split; [by right | done]. }
      destruct r as [st|]; [|done].
      constructor; [|done]. exists n. split; [by left | done].
Qed.

Lemma get_rop_steps_from (h : Host) (rop : Node) (steps : list RenderStep) :
  _get_rop_steps h rop = Ok steps →
  ∃ out, hou_hscript h ("render -p -c -F " +:+ node_path rop) = (out, "")
    ∧ rop_steps_of_lines h (Py.split LF out) = Ok steps.
Proof.
  unfold _get_rop_steps.
  destruct (hou_hscript h _) as [out err]. destruct err; simpl; [|discriminate].
  eauto.
Qed.

(** Every extracted step resolves to a node whose type is not a
    farm-submission type: lines 124-125 skipped the others. *)
Lemma get_rop_steps_not_farm (h : Host) (rop : Node) (steps : list RenderStep) :
  _get_rop_steps h rop = Ok steps →
  Forall (λ st, ∃ nd, hou_node h (rs_rop st) = Some nd
                 ∧ Py.str_in (node_type_name nd) FARM_ROP_TYPES = false) steps.
Proof.
  intros H. apply get_rop_steps_from in H as (out & _ & H).
  eapply Forall_impl; [apply rop_steps_of_lines_from, H|].
  intros st (n & _ & Hst). simpl.
  apply rop_step_of_line_Some in Hst
    as (rop_str & fp & ints & nd & ? & ? & ? & ? & ? & ? & ? & Hnd & Hty & ?).
  eauto.
Qed.

(** C6: the submitting operator, a node of the scene whose type is one of
    the farm-submission types ("deadline", "deadline_cloud"), never has its
    own path as the [rop] of a step of the extracted step graph. *)
Theorem submitter_path_not_a_rop (h : Host) (rop : Node) (steps : list RenderStep) :
  hou_node h (node_path rop) = Some rop →
  Py.str_in (node_type_name rop) FARM_ROP_TYPES = true →
  _get_rop_steps h rop = Ok steps →
  Forall (λ st, rs_rop st ≠ node_path rop) steps.
Proof.
  intros Hself Hfarm H.
  eapply Forall_impl; [apply (get_rop_steps_not_farm h rop), H|].
  intros st (nd & Hnd & Hty) Heq. simpl in *.
  rewrite Heq, Hself in Hnd. congruence.
Qed.

Lemma submitter_path_not_a_rop_witness :
  hou_node Scene.host_separate (node_path Scene.rop_separate) = Some Scene.rop_separate
  ∧ Py.str_in (node_type_name Scene.rop_separate) FARM_ROP_TYPES = true
  ∧ _get_rop_steps Scene.host_separate Scene.rop_separate = Ok Scene.graph
  ∧ Forall (λ st, rs_rop st ≠ node_path Scene.rop_separate) Scene.graph.
Proof.
  split; [reflexivity|]. split; [reflexivity|]. split; [vm_compute; reflexivity|].
  apply (submitter_path_not_a_rop Scene.host_separate Scene.rop_separate); reflexivity.
Defined.

(** ** Asset reference collector, scene-scan mode *)

Lemma scene_asset_references_Ok (h : Host) (rop : Node) (refs : AssetReferences) :
  _get_scene_asset_references h rop = Ok refs →
  input_filenames refs =
    {[ _get_hip_file h ]}
    ∪ list_to_set (List.map snd (List.filter (keeps_reference h rop) (hou_fileReferences h)))
  ∧ input_directories refs = ∅.
Proof.
  unfold _get_scene_asset_references. intros H.
  apply bind_Ok_inv in H as (steps & _ & H).
  apply bind_Ok_inv in H as (dirs & _ & H).
  injection H as H. subst refs. simpl. done.
Qed.

(** A reference that is kept is not a directory and, when a parameter owns
    it, passed the three checks of lines 46-51. *)
Lemma keeps_reference_true (h : Host) (rop : Node) (n : option Parm * string) :
  keeps_reference h rop n = true →
  os_path_isdir h n.2 = false
  ∧ ∀ p, n.1 = Some p →
      parm_node p ≠ node_path rop
      ∧ Py.startswith IGNORE_REF_VALUES n.2 = false
      ∧ Py.str_in (parm_name p) IGNORE_REF_PARMS = false.
Proof.
  unfold keeps_reference. destruct n as [[p|] f]; cbn [fst snd].
  - destruct (String.eqb (parm_node p) (node_path rop)) eqn:Hnode; [discriminate|].
    destruct (Py.startswith IGNORE_REF_VALUES f) eqn:Hpre; [discriminate|].
    destruct (Py.str_in (parm_name p) IGNORE_REF_PARMS) eqn:Hden; [discriminate|].
    intros Hdir. apply negb_true_iff in Hdir. split; [done|].
    intros q [= <-]. apply String.eqb_neq in Hnode. done.
  - intros Hdir. apply negb_true_iff in Hdir. split; [done|]. intros q [=].
Qed.

(** C10: scene-scan mode leaves [input_directories] empty. *)
Theorem scene_scan_no_input_directories (h : Host) (rop : Node) (refs : AssetReferences) :
  _get_scene_asset_references h rop = Ok refs →
  input_directories refs = ∅.
Proof. intros H. by apply scene_asset_references_Ok in H as [_ ?]. Qed.

(** C7, as the code has it: the scene file is always among the input files,
    and every other input file is the value of a file reference that is not
    a directory and that, when a parameter owns it, is not owned by the
    submitting operator, does not start with an ignored prefix and is not
    owned by a denylisted parameter. A reference that no parameter owns is
    only checked for being a directory. *)
Theorem scene_scan_input_filenames (h : Host) (rop : Node) (refs : AssetReferences) :
  _get_scene_asset_references h rop = Ok refs →
  _get_hip_file h ∈ input_filenames refs
  ∧ ∀ f, f ∈ input_filenames refs →
      f = _get_hip_file h
      ∨ ∃ n, n ∈ hou_fileReferences h
          ∧ n.2 = f
          ∧ os_path_isdir h f = false
          ∧ ∀ p, n.1 = Some p →
              parm_node p ≠ node_path rop
              ∧ Py.startswith IGNORE_REF_VALUES f = false
              ∧ Py.str_in (parm_name p) IGNORE_REF_PARMS = false.
Proof.
  intros H. apply scene_asset_references_Ok in H as [-> _]. split.
  - apply elem_of_union_l, elem_of_singleton. done.
  - intros f [Hf|Hf]%elem_of_union.
    + left. by apply elem_of_singleton in Hf.
    + right. apply elem_of_list_to_set, list_elem_of_In, in_map_iff in Hf
        as (n & <- & Hn).
      apply filter_In in Hn as [Hn Hkeep].
      apply keeps_reference_true in Hkeep as [Hdir Hown].
      exists n. split; [by apply list_elem_of_In|]. auto.
Qed.

Lemma scene_scan_no_input_directories_witness :
  _get_scene_asset_references Scene.host_references Scene.rop_separate = Ok Scene.scanned
  ∧ input_directories Scene.scanned = ∅.
Proof.
  split; [vm_compute; reflexivity|].
  apply (scene_scan_no_input_directories Scene.host_references Scene.rop_separate).
  vm_compute; reflexivity.
Defined.

Lemma scene_scan_input_filenames_witness :
  _get_scene_asset_references Scene.host_references Scene.rop_separate = Ok Scene.scanned
  ∧ _get_hip_file Scene.host_references ∈ input_filenames Scene.scanned.
Proof.
  split; [vm_compute; reflexivity|].
  apply (scene_scan_input_filenames Scene.host_references Scene.rop_separate).
  vm_compute; reflexivity.
Defined.

(** C7 as stated fails: a file reference that no parameter owns is kept even
    when its value starts with an ignored prefix. *)
Lemma scene_scan_keeps_unowned_opdef :
  _get_scene_asset_references Scene.host_references Scene.rop_separate = Ok Scene.scanned
  ∧ "opdef:/Object/geo?icon.svg" ∈ input_filenames Scene.scanned
  ∧ Py.startswith IGNORE_REF_VALUES "opdef:/Object/geo?icon.svg" = true.
Proof.
  split; [vm_compute; reflexivity|]. split; [|reflexivity].
  unfold Scene.scanned. simpl. set_solver.
Qed.

(** ** Frame ranges *)

(** C4, as the code has it. On a line whose operator part names a node that
    is not a farm-submission operator and whose frame tokens are all
    integers, none longer than the length below which the interpreter reads
    every integer: one token [f] gives the range [(f, f, 1)]; three or more
    tokens give the first three as [(start, stop, step)], the others being
    dropped without notice; any other count raises the [IndexError] of
    reading a missing element. *)
Theorem rop_step_of_line_frames (h : Host) (n rop_str frange_part : string)
    (more : list string) (ints : list Z) (_id path : string) (nd : Node) :
  Py.split TAB n = rop_str :: frange_part :: more →
  Forall (λ f, (String.length f ≤ Py.MAX_STR_DIGITS_THRESHOLD)%nat)
    (range_parts frange_part) →
  mapM Py.int (range_parts frange_part) = Ok ints →
  Py.split " " rop_str !! 0%nat = Some _id →
  Py.index_neg (Py.split " " rop_str) 2 = Ok path →
  hou_node h path = Some nd →
  Py.str_in (node_type_name nd) FARM_ROP_TYPES = false →
  let step_with (start stop step : Z) :=
    {| rs_id := _id;
       rs_name := path +:+ "-" +:+ _id;
       rs_deps := deps_of (Py.split " " rop_str);
       rs_rop := path;
       rs_start := start;
       rs_stop := stop;
       rs_step := step |} in
  rop_step_of_line h n =
    match ints with
    | [f] => Ok (Some (step_with f f 1))
    | a :: b :: c :: _ => Ok (Some (step_with a b c))
    | _ => Err IndexError
    end.
Proof.
  intros Hparts _ Hints Hid Hpath Hnd Hty. unfold rop_step_of_line.
  rewrite Hparts.
  change (Py.index (rop_str :: frange_part :: more) 0) with (Ok rop_str).
  change (Py.index (rop_str :: frange_part :: more) 1) with (Ok frange_part).
  rewrite !bind_Ok, Hints, bind_Ok.
  rewrite (index_lookup _ _ _ Hid), bind_Ok, Hpath, bind_Ok, Hnd.
  unfold deref. rewrite bind_Ok, Hty.
  destruct ints as [|a [|b [|c rest]]]; reflexivity.
Qed.

Lemma rop_step_of_line_frames_witness :
  Py.split TAB Scene.single_frame_line = ["2 [ 1 ] /out/mantra1 "; "( 5 )"]
  ∧ Forall (λ f, (String.length f ≤ Py.MAX_STR_DIGITS_THRESHOLD)%nat)
      (range_parts "( 5 )")
  ∧ mapM Py.int (range_parts "( 5 )") = Ok [5]
  ∧ Py.split " " "2 [ 1 ] /out/mantra1 " !! 0%nat = Some "2"
  ∧ Py.index_neg (Py.split " " "2 [ 1 ] /out/mantra1 ") 2 = Ok "/out/mantra1"
  ∧ hou_node Scene.host_separate "/out/mantra1" = Some Scene.mantra1
  ∧ Py.str_in (node_type_name Scene.mantra1) FARM_ROP_TYPES = false
  ∧ rop_step_of_line Scene.host_separate Scene.single_frame_line =
      Ok (Some {| rs_id := "2"; rs_name := "/out/mantra1-2"; rs_deps := ["1"];
                  rs_rop := "/out/mantra1";
                  rs_start := 5; rs_stop := 5; rs_step := 1 |}).
Proof.
  assert (Forall (λ f, (String.length f ≤ Py.MAX_STR_DIGITS_THRESHOLD)%nat)
            (range_parts "( 5 )")) as Hshort.
  { constructor; [vm_compute; lia | constructor]. }
  split; [reflexivity|]. split; [exact Hshort|].
  repeat (split; [reflexivity|]).
  apply (rop_step_of_line_frames Scene.host_separate Scene.single_frame_line
           "2 [ 1 ] /out/mantra1 " "( 5 )" [] [5] "2" "/out/mantra1" Scene.mantra1);
    first [exact Hshort | reflexivity].
Defined.

(** C4 as stated fails: a frame part of four integers is not refused, the
    fourth is dropped and a step is produced; and a frame part of two
    integers raises the bare [IndexError], with no message of the parser's
    own. *)
Lemma frame_token_count_not_checked :
  rop_step_of_line Scene.host_separate Scene.four_frames_line =
    Ok (Some {| rs_id := "1"; rs_name := "/out/geo1-1"; rs_deps := [];
                rs_rop := "/out/geo1";
                rs_start := 1; rs_stop := 10; rs_step := 2 |})
  ∧ rop_step_of_line Scene.host_separate Scene.two_frames_line = Err IndexError.
Proof. split; reflexivity. Qed.

(** ** Job template compiler *)

Lemma parm_Ok_inv (nd : Node) (name : string) (p : Parm) :
  parm nd name = Ok p → node_parms nd !! name = Some p.
Proof. apply deref_Ok_inv. Qed.

Lemma parm_lookup (nd : Node) (name : string) (p : Parm) :
  node_parms nd !! name = Some p → parm nd name = Ok p.
Proof. unfold parm. by intros ->. Qed.

(** The dictionary of steps only holds steps of the graph, under their id. *)
Lemma id_steps_of_lookup (steps : list RenderStep) (d : string) (m : RenderStep) :
  id_steps_of steps !! d = Some m → m ∈ steps ∧ rs_id m = d.
Proof.
  unfold id_steps_of.
  assert (∀ acc : gmap string RenderStep,
            foldl (λ m n, <[rs_id n := n]> m) acc steps !! d = Some m →
            (m ∈ steps ∧ rs_id m = d) ∨ acc !! d = Some m) as Hgen.
  { induction steps as [|n rest IH]; simpl; intros acc H; [by right|].
    destruct (IH _ H) as [[Hin Hid]|Hacc].
    - left. split; [by right | done].
    - destruct (decide (rs_id n = d)) as [Heq|Hne].
      + rewrite Heq, lookup_insert_eq in Hacc. injection Hacc as ->.
        left. split; [by left | done].
      + rewrite lookup_insert_ne in Hacc by done. by right. }
  intros H. destruct (Hgen ∅ H) as [?|Hemp]; [done|].
  by rewrite lookup_empty in Hemp.
Qed.

(** Under an id the dictionary of steps holds the last step of the graph
    with that id. *)
Lemma id_steps_of_last (steps : list RenderStep) (d : string) (m : RenderStep) :
  id_steps_of steps !! d = Some m →
  ∃ i, steps !! i = Some m
    ∧ rs_id m = d
    ∧ ∀ j m', (i < j)%nat → steps !! j = Some m' → rs_id m' ≠ d.
Proof.
  unfold id_steps_of. induction steps as [|n rest IH] using rev_ind.
  - simpl. by rewrite lookup_empty.
  - rewrite foldl_app. simpl. intros H.
    destruct (decide (rs_id n = d)) as [Heq|Hne].
    + rewrite Heq, lookup_insert_eq in H. injection H as <-.
      exists (length rest). split; [by rewrite list_lookup_middle|].
      split; [done|]. intros j m' Hj Hm'.
      apply lookup_lt_Some in Hm'. rewrite length_app in Hm'. simpl in Hm'. lia.
    + rewrite lookup_insert_ne in H by done.
      destruct (IH H) as (i & Hi & Hid & Hlast).
      exists i. split; [by apply lookup_app_l_Some|]. split; [done|].
      intros j m' Hj Hm'. apply lookup_app_Some in Hm' as [Hm'|[Hlen Hm']].
      * by eapply Hlast.
      * apply list_lookup_singleton_Some in Hm' as [_ <-]. done.
Qed.

(** The override leaves the steps of the template alone. *)
Lemma adaptor_override_steps (h : Host) (rop : Node) (jt jt' : JobTemplate) :
  adaptor_override h rop jt = Ok jt' → jt_steps jt' = jt_steps jt.
Proof.
  unfold adaptor_override. intros H.
  apply bind_Ok_inv in H as (flag & _ & H).
  destruct (val_truthy flag); [|by injection H as <-].
  apply bind_Ok_inv in H as (wheels & _ & H).
  destruct (os_path_exists h wheels); [|by injection H as <-].
  apply bind_Ok_inv in H as (ov & _ & H).
  destruct (ov_parameterDefinitions ov); [discriminate|].
  by injection H as <-.
Qed.

(** What a step document is made of. *)
Lemma step_document_Ok (h : Host) (ids : gmap string RenderStep) (flag : string)
    (n : RenderStep) (sd : StepDocument) :
  step_document h ids flag n = Ok sd →
  sd_name sd = rs_name n
  ∧ embedded_init_data sd = [init_data_with_flag h (rs_rop n) flag]
  ∧ match rs_deps n with
    | [] => sd_dependencies sd = None
    | _ :: _ =>
        ∃ deps, sd_dependencies sd = Some deps
          ∧ mapM (dependency_of ids) (rs_deps n) = Ok deps
    end.
Proof.
  unfold step_document. intros H.
  apply bind_Ok_inv in H as (range & _ & H).
  destruct (rs_deps n) as [|d ds] eqn:Hdeps.
  - injection H as <-. done.
  - apply bind_Ok_inv in H as (deps & Hmap & H). injection H as <-.
    repeat split; eauto.
Qed.

(** What the steps of a compiled template are, in each mode. *)
Lemma job_template_core_Ok (h : Host) (rop : Node) (jt : JobTemplate) :
  job_template_core h rop = Ok jt →
  ∃ ps steps,
    node_parms rop !! "separate_steps" = Some ps
    ∧ _get_rop_steps h rop = Ok steps
    ∧ jt_jobEnvironments jt = None
    ∧ if val_truthy (parm_eval ps)
      then mapM (step_document h (id_steps_of steps) "true") steps = Ok (jt_steps jt)
      else ∃ first sd,
             steps !! 0%nat = Some first
             ∧ step_document h (id_steps_of steps) "false" first = Ok sd
             ∧ jt_steps jt = [sd].
Proof.
  unfold job_template_core. intros H.
  apply bind_Ok_inv in H as (job_name & _ & H).
  apply bind_Ok_inv in H as (job_description & _ & H).
  apply bind_Ok_inv in H as (sep & Hsep & H).
  apply fmap_Ok_inv in Hsep as (ps & Hps%parm_Ok_inv & ->).
  apply bind_Ok_inv in H as (steps & Hsteps & H).
  apply bind_Ok_inv in H as (defs & _ & H).
  apply bind_Ok_inv in H as ([steps' flag] & Hmode & H).
  apply bind_Ok_inv in H as (sds & Hsds & H).
  injection H as <-. cbn [jt_steps jt_jobEnvironments].
  exists ps, steps. repeat split; [done..|].
  destruct (val_truthy (parm_eval ps)); cbn [negb] in Hmode.
  - injection Hmode as <- <-. done.
  - apply bind_Ok_inv in Hmode as (first & Hfirst%index_Ok_inv & Hmode).
    injection Hmode as <- <-.
    cbn [mapM] in Hsds.
    apply bind_Ok_inv in Hsds as (sd & Hsd & Hsds). injection Hsds as <-.
    eauto.
Qed.

Lemma get_job_template_Ok (h : Host) (rop : Node) (jt : JobTemplate) :
  _get_job_template h rop = Ok jt →
  ∃ core, job_template_core h rop = Ok core ∧ adaptor_override h rop core = Ok jt.
Proof. apply bind_Ok_inv. Qed.

Lemma Forall2_filter_length {A B : Type} (f : A → bool) (g : B → bool)
    (l : list A) (l' : list B) :
  Forall2 (λ x y, g y = f x) l l' →
  length (List.filter g l') = length (List.filter f l).
Proof.
  induction 1 as [|x y xs ys Hxy _ IH]; simpl; [done|].
  rewrite Hxy. destruct (f x); simpl; congruence.
Qed.

(** C1: with "separate steps" on, a graph of N steps of which M have
    dependencies compiles to a template of N step documents of which M carry
    a [dependencies] field; the documents follow the steps in order, and
    each [dependsOn] is the name of the step of the full graph whose id is
    the dependency id (the last one, should several steps share the id),
    which is the name of the document that the same template holds for that
    step. *)
Theorem separate_steps_template (h : Host) (rop : Node) (ps : Parm)
    (steps : list RenderStep) (jt : JobTemplate) :
  node_parms rop !! "separate_steps" = Some ps →
  val_truthy (parm_eval ps) = true →
  _get_rop_steps h rop = Ok steps →
  _get_job_template h rop = Ok jt →
  length (jt_steps jt) = length steps
  ∧ length (List.filter has_dependencies (jt_steps jt))
    = length (List.filter has_deps steps)
  ∧ Forall2 (λ n sd,
       sd_name sd = rs_name n
       ∧ has_dependencies sd = has_deps n
       ∧ ∀ deps, sd_dependencies sd = Some deps →
           Forall2 (depends_on_sibling steps jt) (rs_deps n) deps)
      steps (jt_steps jt).
Proof.
  intros Hps Hsep Hsteps Hjt.
  apply get_job_template_Ok in Hjt as (core & Hcore & Hov).
  apply adaptor_override_steps in Hov. unfold depends_on_sibling. rewrite Hov. clear Hov jt.
  apply job_template_core_Ok in Hcore as (ps' & steps' & Hps' & Hsteps' & _ & Hmode).
  rewrite Hps in Hps'. injection Hps' as <-.
  rewrite Hsteps in Hsteps'. injection Hsteps' as <-.
  rewrite Hsep in Hmode. apply mapM_Forall2 in Hmode.
  assert (Forall2 (λ n sd, has_dependencies sd = has_deps n) steps (jt_steps core)) as Hflags.
  { eapply Forall2_impl; [exact Hmode|].
    intros n sd Hdoc. apply step_document_Ok in Hdoc as (_ & _ & Hdeps).
    unfold has_dependencies, has_deps.
    destruct (rs_deps n); [by rewrite Hdeps | by destruct Hdeps as (deps & -> & _)]. }
  split; [symmetry; by eapply Forall2_length|].
  split; [by apply Forall2_filter_length|].
  apply Forall2_same_length_lookup. split; [by eapply Forall2_length|].
  intros i n sd Hn Hsd.
  pose proof (Forall2_lookup_lr _ _ _ _ _ _ Hflags Hn Hsd) as Hflag.
  pose proof (Forall2_lookup_lr _ _ _ _ _ _ Hmode Hn Hsd) as Hdoc.
  apply step_document_Ok in Hdoc as (Hname & _ & Hdeps).
  split; [done|]. split; [done|]. intros deps Hsome.
  destruct (rs_deps n) as [|d ds]; [congruence|].
  destruct Hdeps as (deps' & Hsome' & Hmap).
  rewrite Hsome in Hsome'. injection Hsome' as <-.
  apply mapM_Forall2 in Hmap. eapply Forall2_impl; [exact Hmap|].
  intros d' dep Hdep. unfold dependency_of in Hdep.
  destruct (id_steps_of steps !! d') as [m|] eqn:Hm; [|discriminate].
  injection Hdep as <-. cbn [dependsOn].
  destruct (id_steps_of_last _ _ _ Hm) as (k & Hk & Hid & Hlast).
  destruct (Forall2_lookup_l _ _ _ _ _ Hmode Hk) as (sd' & Hsd' & Hdoc').
  apply step_document_Ok in Hdoc' as [Hname' _].
  exists k, m, sd'. done.
Qed.

Lemma separate_steps_template_witness :
  node_parms Scene.rop_separate !! "separate_steps"
    = Some (Scene.toggle "/out/deadline_cloud1" "separate_steps" 1)
  ∧ val_truthy (parm_eval (Scene.toggle "/out/deadline_cloud1" "separate_steps" 1)) = true
  ∧ _get_rop_steps Scene.host_separate Scene.rop_separate = Ok Scene.graph
  ∧ _get_job_template Scene.host_separate Scene.rop_separate = Ok Scene.template_separate
  ∧ length (jt_steps Scene.template_separate) = length Scene.graph
  ∧ length (List.filter has_dependencies (jt_steps Scene.template_separate))
    = length (List.filter has_deps Scene.graph)
  ∧ Forall2 (λ n sd,
       sd_name sd = rs_name n
       ∧ has_dependencies sd = has_deps n
       ∧ ∀ deps, sd_dependencies sd = Some deps →
           Forall2 (depends_on_sibling Scene.graph Scene.template_separate) (rs_deps n) deps)
      Scene.graph (jt_steps Scene.template_separate).
Proof.
  split; [vm_compute; reflexivity|]. split; [reflexivity|].
  split; [vm_compute; reflexivity|]. split; [vm_compute; reflexivity|].
  apply (separate_steps_template Scene.host_separate Scene.rop_separate
           (Scene.toggle "/out/deadline_cloud1" "separate_steps" 1));
    vm_compute; reflexivity.
Defined.

(** With "separate steps" off, the template has one step document, made
    from the first step of the graph with the flag text "false". *)
Lemma single_mode_steps (h : Host) (rop : Node) (ps : Parm)
    (steps : list RenderStep) (jt : JobTemplate) :
  node_parms rop !! "separate_steps" = Some ps →
  val_truthy (parm_eval ps) = false →
  _get_rop_steps h rop = Ok steps →
  _get_job_template h rop = Ok jt →
  ∃ first sd,
    head steps = Some first
    ∧ jt_steps jt = [sd]
    ∧ sd_name sd = rs_name first
    ∧ embedded_init_data sd = [init_data_with_flag h (rs_rop first) "false"].
Proof.
  intros Hps Hsep Hsteps Hjt.
  apply get_job_template_Ok in Hjt as (core & Hcore & Hov).
  apply adaptor_override_steps in Hov. rewrite Hov. clear Hov jt.
  apply job_template_core_Ok in Hcore as (ps' & steps' & Hps' & Hsteps' & _ & Hmode).
  rewrite Hps in Hps'. injection Hps' as <-.
  rewrite Hsteps in Hsteps'. injection Hsteps' as <-.
  rewrite Hsep in Hmode. destruct Hmode as (first & sd & Hfirst & Hdoc & Hone).
  apply step_document_Ok in Hdoc as (Hname & Hdata & _).
  exists first, sd. split; [by destruct steps|]. done.
Qed.

(** With "separate steps" on, the documents follow the steps of the graph,
    each with the flag text "true". *)
Lemma separate_mode_steps (h : Host) (rop : Node) (ps : Parm)
    (steps : list RenderStep) (jt : JobTemplate) :
  node_parms rop !! "separate_steps" = Some ps →
  val_truthy (parm_eval ps) = true →
  _get_rop_steps h rop = Ok steps →
  _get_job_template h rop = Ok jt →
  Forall2 (λ n sd,
     sd_name sd = rs_name n
     ∧ embedded_init_data sd = [init_data_with_flag h (rs_rop n) "true"])
    steps (jt_steps jt).
Proof.
  intros Hps Hsep Hsteps Hjt.
  apply get_job_template_Ok in Hjt as (core & Hcore & Hov).
  apply adaptor_override_steps in Hov. rewrite Hov. clear Hov jt.
  apply job_template_core_Ok in Hcore as (ps' & steps' & Hps' & Hsteps' & _ & Hmode).
  rewrite Hps in Hps'. injection Hps' as <-.
  rewrite Hsteps in Hsteps'. injection Hsteps' as <-.
  rewrite Hsep in Hmode. apply mapM_Forall2 in Hmode.
  eapply Forall2_impl; [exact Hmode|].
  intros n sd Hdoc. by apply step_document_Ok in Hdoc as (? & ? & _).
Qed.

(** C3: with "separate steps" off, an emitted template has exactly one step
    document, and the [ignore_input_nodes] entry of its init-data file is
    "false". The step graph is then not empty: the document is made from
    its first step. *)
Theorem single_step_ignore_flag_false (h : Host) (rop : Node) (ps : Parm)
    (steps : list RenderStep) (jt : JobTemplate) :
  node_parms rop !! "separate_steps" = Some ps →
  val_truthy (parm_eval ps) = false →
  _get_rop_steps h rop = Ok steps →
  _get_job_template h rop = Ok jt →
  ∃ first sd,
    head steps = Some first
    ∧ jt_steps jt = [sd]
    ∧ embedded_init_data sd = [init_data_with_flag h (rs_rop first) "false"].
Proof.
  intros Hps Hsep Hsteps Hjt.
  destruct (single_mode_steps h rop ps steps jt Hps Hsep Hsteps Hjt)
    as (first & sd & ? & ? & _ & ?).
  eauto.
Qed.

Lemma single_step_ignore_flag_false_witness :
  node_parms Scene.rop_single !! "separate_steps"
    = Some (Scene.toggle "/out/deadline_cloud1" "separate_steps" 0)
  ∧ val_truthy (parm_eval (Scene.toggle "/out/deadline_cloud1" "separate_steps" 0)) = false
  ∧ _get_rop_steps Scene.host_single Scene.rop_single = Ok Scene.graph
  ∧ _get_job_template Scene.host_single Scene.rop_single = Ok Scene.template_single
  ∧ ∃ first sd,
      head Scene.graph = Some first
      ∧ jt_steps Scene.template_single = [sd]
      ∧ embedded_init_data sd = [init_data_with_flag Scene.host_single (rs_rop first) "false"].
Proof.
  split; [vm_compute; reflexivity|]. split; [reflexivity|].
  split; [vm_compute; reflexivity|]. split; [vm_compute; reflexivity|].
  apply (single_step_ignore_flag_false Scene.host_single Scene.rop_single
           (Scene.toggle "/out/deadline_cloud1" "separate_steps" 0));
    vm_compute; reflexivity.
Defined.

(** C2, as the code has it: with "separate steps" off the template has one
    step document, made from the first step of the graph, and the
    [ignore_input_nodes] entry of its init data is "false"; with it on there
    is one document per step, in order, and the entry is "true". *)
Theorem ignore_flag_by_mode (h : Host) (rop : Node) (ps : Parm)
    (steps : list RenderStep) (jt : JobTemplate) :
  node_parms rop !! "separate_steps" = Some ps →
  _get_rop_steps h rop = Ok steps →
  _get_job_template h rop = Ok jt →
  if val_truthy (parm_eval ps)
  then Forall2 (λ n sd,
          sd_name sd = rs_name n
          ∧ embedded_init_data sd = [init_data_with_flag h (rs_rop n) "true"])
         steps (jt_steps jt)
  else ∃ first sd,
         head steps = Some first
         ∧ jt_steps jt = [sd]
         ∧ sd_name sd = rs_name first
         ∧ embedded_init_data sd = [init_data_with_flag h (rs_rop first) "false"].
Proof.
  intros Hps Hsteps Hjt. destruct (val_truthy (parm_eval ps)) eqn:Hsep.
  - by eapply separate_mode_steps.
  - by eapply single_mode_steps.
Qed.

Lemma ignore_flag_by_mode_witness :
  node_parms Scene.rop_separate !! "separate_steps"
    = Some (Scene.toggle "/out/deadline_cloud1" "separate_steps" 1)
  ∧ _get_rop_steps Scene.host_separate Scene.rop_separate = Ok Scene.graph
  ∧ _get_job_template Scene.host_separate Scene.rop_separate = Ok Scene.template_separate
  ∧ Forall2 (λ n sd,
       sd_name sd = rs_name n
       ∧ embedded_init_data sd
         = [init_data_with_flag Scene.host_separate (rs_rop n) "true"])
      Scene.graph (jt_steps Scene.template_separate).
Proof.
  split; [vm_compute; reflexivity|].
  split; [vm_compute; reflexivity|]. split; [vm_compute; reflexivity|].
  apply (ignore_flag_by_mode Scene.host_separate Scene.rop_separate
           (Scene.toggle "/out/deadline_cloud1" "separate_steps" 1));
    vm_compute; reflexivity.
Defined.

(** C2 as stated fails: with "separate steps" off the init data says
    "ignore_input_nodes: false", not "true"; with it on, "true", not "false". *)
Lemma ignore_flag_is_not_inverted :
  (_get_job_template Scene.host_single Scene.rop_single = Ok Scene.template_single
   ∧ List.map embedded_init_data (jt_steps Scene.template_single)
     = [[init_data_with_flag Scene.host_single "/out/geo1" "false"]]
   ∧ init_data_with_flag Scene.host_single "/out/geo1" "false"
     ≠ init_data_with_flag Scene.host_single "/out/geo1" "true")
  ∧ (_get_job_template Scene.host_separate Scene.rop_separate = Ok Scene.template_separate
     ∧ List.map embedded_init_data (jt_steps Scene.template_separate)
       = [[init_data_with_flag Scene.host_separate "/out/geo1" "true"];
          [init_data_with_flag Scene.host_separate "/out/mantra1" "true"]]).
Proof.
  repeat split; try (vm_compute; reflexivity).
  vm_compute. discriminate.
Qed.

(** ** Empty output *)

Lemma blank_lines_no_steps (h : Host) (lines : list string) :
  Forall (λ l, Py.strip l = "") lines → rop_steps_of_lines h lines = Ok [].
Proof.
  induction 1 as [|l ls Hl _ IH]; simpl; [done|]. by rewrite Hl.
Qed.

(** C5, as the code has it: when the render command prints only blank lines
    and reports no error, the extractor returns the empty step graph. The
    template compiler does not check for it: a template is returned only
    with "separate steps" on, and it has no steps. For an operator that has
    its name, description and "separate steps" parameters and whose queue
    parameter definitions load: with "separate steps" on the template
    without steps is compiled, and only the adaptor override can still
    change or fail it; with "separate steps" off, taking the first step
    raises [IndexError]. *)
Theorem blank_output_template (h : Host) (rop : Node) (out : string) :
  hou_hscript h ("render -p -c -F " +:+ node_path rop) = (out, "") →
  Forall (λ l, Py.strip l = "") (Py.split LF out) →
  _get_rop_steps h rop = Ok []
  ∧ (∀ jt, _get_job_template h rop = Ok jt →
       jt_steps jt = []
       ∧ ∃ ps, node_parms rop !! "separate_steps" = Some ps
            ∧ val_truthy (parm_eval ps) = true)
  ∧ (∀ (pn pd ps : Parm) (defs : list ParamDef),
       node_parms rop !! "name" = Some pn →
       node_parms rop !! "description" = Some pd →
       node_parms rop !! "separate_steps" = Some ps →
       queue_parameter_definitions h rop = Ok defs →
       if val_truthy (parm_eval ps)
       then ∃ core,
              jt_steps core = []
              ∧ job_template_core h rop = Ok core
              ∧ _get_job_template h rop = adaptor_override h rop core
       else _get_job_template h rop = Err IndexError).
Proof.
  intros Hout Hblank.
  assert (_get_rop_steps h rop = Ok []) as Hsteps.
  { unfold _get_rop_steps. rewrite Hout. by apply blank_lines_no_steps. }
  split; [done|]. split.
  - intros jt Hjt.
    destruct (get_job_template_Ok _ _ _ Hjt) as (core & Hcore & _).
    apply job_template_core_Ok in Hcore as (ps & steps & Hps & Hsteps' & _ & Hmode).
    rewrite Hsteps in Hsteps'. injection Hsteps' as <-.
    destruct (val_truthy (parm_eval ps)) eqn:Hsep.
    + pose proof (separate_mode_steps h rop ps [] jt Hps Hsep Hsteps Hjt) as Hall.
      apply Forall2_nil_inv_l in Hall. eauto.
    + by destruct Hmode as (first & sd & Hfirst & _).
  - intros pn pd ps defs Hpn Hpd Hps Hdefs.
    unfold _get_job_template, job_template_core.
    rewrite (parm_lookup _ _ _ Hpn), (parm_lookup _ _ _ Hpd), (parm_lookup _ _ _ Hps).
    rewrite !fmap_Ok, !bind_Ok, Hsteps, bind_Ok, Hdefs, bind_Ok.
    destruct (val_truthy (parm_eval ps)) eqn:Hsep.
    + eexists. split; [|split; reflexivity]. reflexivity.
    + reflexivity.
Qed.

Lemma blank_output_template_witness :
  hou_hscript Scene.host_blank_single ("render -p -c -F " +:+ node_path Scene.rop_single)
    = (Scene.blank_output, "")
  ∧ Forall (λ l, Py.strip l = "") (Py.split LF Scene.blank_output)
  ∧ _get_rop_steps Scene.host_blank_single Scene.rop_single = Ok []
  ∧ (∀ jt, _get_job_template Scene.host_blank_single Scene.rop_single ≠ Ok jt)
  ∧ _get_job_template Scene.host_blank_single Scene.rop_single = Err IndexError.
Proof.
  split; [vm_compute; reflexivity|].
  split; [repeat constructor|].
  destruct (blank_output_template Scene.host_blank_single Scene.rop_single
              Scene.blank_output) as (Hsteps & Hany & Hmode);
    [vm_compute; reflexivity | repeat constructor |].
  split; [exact Hsteps|]. split.
  - intros jt Hjt. destruct (Hany jt Hjt) as (_ & ps & Hps & Hsep).
    vm_compute in Hps. injection Hps as <-. discriminate Hsep.
  - apply (Hmode (Scene.text "/out/deadline_cloud1" "name" "shot")
             (Scene.text "/out/deadline_cloud1" "description" "")
             (Scene.toggle "/out/deadline_cloud1" "separate_steps" 0) []);
      vm_compute; reflexivity.
Defined.

(** C5 as stated fails: with "separate steps" on, blank output gives the
    empty step graph and still a job template, one without steps. *)
Lemma blank_output_still_compiles :
  Forall (λ l, Py.strip l = "") (Py.split LF Scene.blank_output)
  ∧ _get_rop_steps Scene.host_blank Scene.rop_separate = Ok []
  ∧ _get_job_template Scene.host_blank Scene.rop_separate = Ok Scene.template_no_steps
  ∧ jt_steps Scene.template_no_steps = []
  ∧ (_create_job_bundle Scene.host_blank Scene.fs_with_dir Scene.rop_separate
       "/bundle" AssetReferences_new).2 = None.
Proof.
  split; [repeat constructor|]. repeat split; vm_compute; reflexivity.
Qed.

(** ** Adaptor override *)

Lemma job_template_core_no_environments (h : Host) (rop : Node) (core : JobTemplate) :
  job_template_core h rop = Ok core → jt_jobEnvironments core = None.
Proof. intros H. by apply job_template_core_Ok in H as (? & ? & ? & ? & ? & ?). Qed.

(** C8: with "include adaptor wheels" on. When the wheels path does not
    exist the template is the one compiled without the override, and
    nothing is raised. When it exists, and the bundled override file loads
    with at least one parameter definition, the template gains the
    override's definitions after its own, the first of them with [default]
    set to the wheels path, and its [jobEnvironments] is the override's
    environment. *)
Theorem adaptor_wheels_override (h : Host) (rop : Node) (core : JobTemplate)
    (pi pw : Parm) :
  job_template_core h rop = Ok core →
  node_parms rop !! "include_adaptor_wheels" = Some pi →
  val_truthy (parm_eval pi) = true →
  node_parms rop !! "adaptor_wheels" = Some pw →
  let adaptor_wheels := parm_evalAsString pw in
  (os_path_exists h adaptor_wheels = false → _get_job_template h rop = Ok core)
  ∧ (os_path_exists h adaptor_wheels = true →
     ∀ ov first others,
       load_override_environment h = Ok ov →
       ov_parameterDefinitions ov = first :: others →
       _get_job_template h rop =
         Ok {| jt_specificationVersion := jt_specificationVersion core;
               jt_name := jt_name core;
               jt_parameterDefinitions :=
                 jt_parameterDefinitions core
                 ++ <["default" := JStr adaptor_wheels]> first :: others;
               jt_steps := jt_steps core;
               jt_description := jt_description core;
               jt_jobEnvironments := Some [ov_environment ov] |}
       ∧ (<["default" := JStr adaptor_wheels]> first : ParamDef) !! "default"
         = Some (JStr adaptor_wheels)).
Proof.
  intros Hcore Hpi Hflag Hpw adaptor_wheels.
  unfold _get_job_template, adaptor_override.
  rewrite Hcore, bind_Ok.
  rewrite (parm_lookup _ _ _ Hpi), (parm_lookup _ _ _ Hpw), !fmap_Ok, bind_Ok, Hflag, bind_Ok.
  fold adaptor_wheels. split.
  - intros ->. reflexivity.
  - intros -> ov first others -> Hdefs. rewrite bind_Ok, Hdefs.
    rewrite (job_template_core_no_environments _ _ _ Hcore).
    split; [reflexivity | apply lookup_insert_eq].
Qed.

Lemma adaptor_wheels_override_witness :
  (job_template_core Scene.host_wheels Scene.rop_wheels = Ok Scene.template_separate
   ∧ node_parms Scene.rop_wheels !! "include_adaptor_wheels"
     = Some (Scene.toggle "/out/deadline_cloud1" "include_adaptor_wheels" 1)
   ∧ node_parms Scene.rop_wheels !! "adaptor_wheels"
     = Some (Scene.text "/out/deadline_cloud1" "adaptor_wheels" "/w")
   ∧ os_path_exists Scene.host_wheels "/w" = true
   ∧ load_override_environment Scene.host_wheels = Ok Scene.override
   ∧ _get_job_template Scene.host_wheels Scene.rop_wheels = Ok Scene.template_wheels)
  ∧ (job_template_core Scene.host_no_wheels Scene.rop_wheels = Ok Scene.template_separate
     ∧ os_path_exists Scene.host_no_wheels "/w" = false
     ∧ _get_job_template Scene.host_no_wheels Scene.rop_wheels = Ok Scene.template_separate).
Proof.
  split.
  - do 5 (split; [vm_compute; reflexivity|]).
    refine (proj1 (proj2 (adaptor_wheels_override Scene.host_wheels Scene.rop_wheels
                      Scene.template_separate
                      (Scene.toggle "/out/deadline_cloud1" "include_adaptor_wheels" 1)
                      (Scene.text "/out/deadline_cloud1" "adaptor_wheels" "/w")
                      _ _ _ _) _ Scene.override Scene.override_wheels [Scene.override_name] _ _));
      vm_compute; reflexivity.
  - do 2 (split; [vm_compute; reflexivity|]).
    refine (proj1 (adaptor_wheels_override Scene.host_no_wheels Scene.rop_wheels
                      Scene.template_separate
                      (Scene.toggle "/out/deadline_cloud1" "include_adaptor_wheels" 1)
                      (Scene.text "/out/deadline_cloud1" "adaptor_wheels" "/w")
                      _ _ _ _) _);
      vm_compute; reflexivity.
Defined.

(** ** Job bundle writer *)

Lemma write_file_in (fs : FileSystem) (dir name content : string) :
  dir ∈ fs_dirs fs →
  write_file fs dir name content =
    Ok {| fs_dirs := fs_dirs fs; fs_files := <[(dir, name) := content]> (fs_files fs) |}.
Proof. unfold write_file. intros H. by rewrite decide_True. Qed.

Lemma write_file_not_in (fs : FileSystem) (dir name content : string) :
  dir ∉ fs_dirs fs → write_file fs dir name content = Err FileNotFoundError.
Proof. unfold write_file. intros H. by rewrite decide_False. Qed.

(** C9, as the code has it: once the template and the parameter values are
    compiled, the writer writes the three files of the bundle, and nothing
    else, into a destination directory that exists; it never creates a
    directory, and when the destination is missing it raises
    [FileNotFoundError] and leaves the file system as it was. *)
Theorem create_job_bundle_files (h : Host) (fs : FileSystem) (rop : Node)
    (dir : string) (refs : AssetReferences)
    (jt : JobTemplate) (values : list ParameterValue) :
  _get_job_template h rop = Ok jt →
  _get_parameter_values h rop = Ok values →
  (dir ∈ fs_dirs fs →
   ∃ fs',
     _create_job_bundle h fs rop dir refs = (fs', None)
     ∧ fs_dirs fs' = fs_dirs fs
     ∧ fs_files fs' !! (dir, "template.yaml")
       = Some (deadline_yaml_dump h (DocTemplate jt))
     ∧ fs_files fs' !! (dir, "parameter_values.yaml")
       = Some (deadline_yaml_dump h (DocParameterValues values))
     ∧ fs_files fs' !! (dir, "asset_references.yaml")
       = Some (deadline_yaml_dump h (DocAssetReferences refs))
     ∧ ∀ d name, ¬ (d = dir ∧ name ∈ BUNDLE_FILES) →
         fs_files fs' !! (d, name) = fs_files fs !! (d, name))
  ∧ (dir ∉ fs_dirs fs →
     _create_job_bundle h fs rop dir refs = (fs, Some FileNotFoundError)).
Proof.
  intros Hjt Hvalues. unfold _create_job_bundle. rewrite Hjt, Hvalues. split.
  - intros Hdir. rewrite write_file_in by done.
    rewrite write_file_in by done. rewrite write_file_in by done.
    eexists. split; [reflexivity|]. cbn [fs_dirs fs_files].
    split; [done|].
    split; [by rewrite !lookup_insert_ne, lookup_insert_eq by congruence|].
    split; [by rewrite lookup_insert_ne, lookup_insert_eq by congruence|].
    split; [by rewrite lookup_insert_eq|].
    intros d name Hother. unfold BUNDLE_FILES in Hother.
    rewrite !lookup_insert_ne; [done|..];
      intros [= <- <-]; apply Hother; (split; [done|]); set_solver.
  - intros Hdir. by rewrite write_file_not_in.
Qed.

Lemma create_job_bundle_files_witness :
  _get_job_template Scene.host_separate Scene.rop_separate = Ok Scene.template_separate
  ∧ _get_parameter_values Scene.host_separate Scene.rop_separate
    = Ok [ {| pv_name := "deadline:priority"; pv_value := PInt 50 |};
           {| pv_name := "deadline:targetTaskRunStatus"; pv_value := PStr "READY" |};
           {| pv_name := "deadline:maxFailedTasksCount"; pv_value := PInt 20 |};
           {| pv_name := "deadline:maxRetriesPerTask"; pv_value := PInt 5 |} ]
  ∧ "/bundle" ∈ fs_dirs Scene.fs_with_dir
  ∧ ∃ fs',
      _create_job_bundle Scene.host_separate Scene.fs_with_dir Scene.rop_separate
        "/bundle" AssetReferences_new = (fs', None)
      ∧ fs_dirs fs' = fs_dirs Scene.fs_with_dir
      ∧ fs_files fs' !! ("/bundle", "template.yaml") = Some "template: shot"
      ∧ fs_files fs' !! ("/bundle", "parameter_values.yaml") = Some "parameterValues"
      ∧ fs_files fs' !! ("/bundle", "asset_references.yaml") = Some "assetReferences"
      ∧ ∀ d name, ¬ (d = "/bundle" ∧ name ∈ BUNDLE_FILES) →
          fs_files fs' !! (d, name) = fs_files Scene.fs_with_dir !! (d, name).
Proof.
  split; [vm_compute; reflexivity|]. split; [vm_compute; reflexivity|].
  split; [vm_compute; reflexivity|].
  refine (proj1 (create_job_bundle_files Scene.host_separate Scene.fs_with_dir
                   Scene.rop_separate "/bundle" AssetReferences_new
                   Scene.template_separate _ _ _) _).
  - vm_compute; reflexivity.
  - vm_compute; reflexivity.
  - vm_compute; reflexivity.
Defined.

(** C9 as stated fails: the writer does not create a missing destination
    directory; it raises, and no directory or file appears. *)
Lemma missing_directory_not_created :
  ("/bundle" ∉ fs_dirs Scene.fs_without_dir)
  ∧ _create_job_bundle Scene.host_separate Scene.fs_without_dir Scene.rop_separate
      "/bundle" AssetReferences_new
    = (Scene.fs_without_dir, Some FileNotFoundError).
Proof.
  split; [unfold Scene.fs_without_dir; cbn [fs_dirs]; apply not_elem_of_empty|].
  unfold _create_job_bundle.
  replace (_get_job_template Scene.host_separate Scene.rop_separate)
    with (Ok Scene.template_separate) by (vm_compute; reflexivity).
  destruct (_get_parameter_values Scene.host_separate Scene.rop_separate) eqn:Hv;
    [|vm_compute in Hv; discriminate].
  rewrite write_file_not_in;
    [done | unfold Scene.fs_without_dir; cbn [fs_dirs]; apply not_elem_of_empty].
Qed.


(** * Further properties of the module *)

(** ** Tokens of [str.split] *)

Lemma split_not_nil (c : ascii) (s : string) : Py.split c s ≠ [].
Proof. destruct s as [|a s]; simpl; [done|]. destruct (Ascii.eqb a c); [done|]. by destruct (Py.split c s). Qed.

(** No token of a split holds the separator. *)
Lemma split_no_sep (c : ascii) (s t : string) :
  t ∈ Py.split c s → contains c t = false.
Proof.
  revert t. induction s as [|a s IH]; simpl; intros t Ht.
  - apply list_elem_of_singleton in Ht as ->. done.
  - destruct (Ascii.eqb a c) eqn:Hac.
    + apply elem_of_cons in Ht as [->|Ht]; [done | by apply IH].
    + destruct (Py.split c s) as [|w ws] eqn:Hsplit; [by destruct (split_not_nil c s)|].
      apply elem_of_cons in Ht as [->|Ht].
      * simpl. rewrite Hac. apply IH. by left.
      * apply IH. by right.
Qed.

(** A character missing from a string is missing from its tokens. *)
Lemma split_keeps_absent (c c' : ascii) (s t : string) :
  contains c' s = false → t ∈ Py.split c s → contains c' t = false.
Proof.
  revert t. induction s as [|a s IH]; simpl; intros t Hs Ht.
  - apply list_elem_of_singleton in Ht as ->. done.
  - apply orb_false_iff in Hs as [Ha Hs].
    destruct (Ascii.eqb a c) eqn:Hac.
    + apply elem_of_cons in Ht as [->|Ht]; [done | by apply IH].
    + destruct (Py.split c s) as [|w ws] eqn:Hsplit; [by destruct (split_not_nil c s)|].
      apply elem_of_cons in Ht as [->|Ht].
      * simpl. rewrite Ha. apply IH; [done | by left].
      * apply IH; [done | by right].
Qed.

(** A string without the separator is its own single token. *)
Lemma split_without_sep (c : ascii) (s : string) :
  contains c s = false → Py.split c s = [s].
Proof.
  induction s as [|a s IH]; simpl; [done|]. intros [Ha Hs]%orb_false_iff.
  rewrite Ha, IH by done. done.
Qed.

Lemma index_neg_elem {A : Type} (l : list A) (k : nat) (a : A) :
  Py.index_neg l k = Ok a → a ∈ l.
Proof.
  unfold Py.index_neg. destruct (decide _); [|discriminate].
  intros H%index_Ok_inv. by eapply list_elem_of_lookup_2.
Qed.

Lemma deps_of_elem (rop_parts : list string) (d : string) :
  d ∈ deps_of rop_parts → d ∈ rop_parts ∧ d ≠ "[" ∧ d ≠ "]".
Proof.
  unfold deps_of, Py.slice_1_m2.
  intros [Hin Hkeep]%list_elem_of_In%filter_In. split.
  - apply list_elem_of_In in Hin.
    by apply (subseteq_drop 1%nat), (subseteq_take (length rop_parts - 3)).
  - apply negb_true_iff in Hkeep. simpl in Hkeep.
    apply orb_false_iff in Hkeep as [H1 H2].
    apply orb_false_iff in H2 as [H2 _].
    split; intros ->; discriminate.
Qed.

(** ** More on the step-graph extractor *)

(** X1: every extracted step is named [<rop>-<id>]; its id and its operator
    path hold no space, tab or line feed; and its dependency ids are tokens
    of the line other than the brackets. *)
Theorem extracted_step_tokens (h : Host) (rop : Node) (steps : list RenderStep) :
  _get_rop_steps h rop = Ok steps →
  Forall (λ st,
     rs_name st = rs_rop st +:+ "-" +:+ rs_id st
     ∧ is_token (rs_id st)
     ∧ is_token (rs_rop st)
     ∧ Forall (λ d, d ≠ "[" ∧ d ≠ "]" ∧ is_token d) (rs_deps st)) steps.
Proof.
  intros H. apply get_rop_steps_from in H as (out & _ & H).
  eapply Forall_impl; [apply rop_steps_of_lines_from, H|].
  intros st (n & Hn & Hst). cbn beta.
  apply rop_step_of_line_Some in Hst
    as (rop_str & fp & ints & nd & Hrop & ? & ? & Hpath & Hid & Hname & Hdeps & ?).
  assert (contains LF n = false) as HnLF by (by eapply split_no_sep).
  assert (rop_str ∈ Py.split TAB n) as Hin by (by eapply list_elem_of_lookup_2).
  assert (contains TAB rop_str = false) as HrTAB by (by eapply split_no_sep).
  assert (contains LF rop_str = false) as HrLF by (by eapply split_keeps_absent).
  assert (∀ t, t ∈ Py.split " " rop_str → is_token t) as Htok.
  { intros t Ht. repeat split;
      [by eapply split_no_sep | by eapply split_keeps_absent..]. }
  split; [done|].
  split; [by eapply Htok, list_elem_of_lookup_2|].
  split; [by eapply Htok, index_neg_elem|].
  rewrite Hdeps. apply Forall_forall. intros d Hd.
  apply deps_of_elem in Hd as (Hd & ? & ?). auto.
Qed.

Lemma extracted_step_tokens_witness :
  _get_rop_steps Scene.host_separate Scene.rop_separate = Ok Scene.graph
  ∧ Forall (λ st,
       rs_name st = rs_rop st +:+ "-" +:+ rs_id st
       ∧ is_token (rs_id st)
       ∧ is_token (rs_rop st)
       ∧ Forall (λ d, d ≠ "[" ∧ d ≠ "]" ∧ is_token d) (rs_deps st)) Scene.graph.
Proof.
  split; [vm_compute; reflexivity|].
  apply (extracted_step_tokens Scene.host_separate Scene.rop_separate).
  vm_compute; reflexivity.
Defined.

(** A line without a tab has no frame part: reading it raises. *)
Lemma rop_step_of_line_needs_tab (h : Host) (n : string) (r : option RenderStep) :
  rop_step_of_line h n = Ok r → contains TAB n = true.
Proof.
  intros H. destruct (contains TAB n) eqn:Htab; [done|].
  unfold rop_step_of_line in H. rewrite (split_without_sep _ _ Htab) in H.
  discriminate.
Qed.

Lemma rop_steps_of_lines_all (h : Host) (lines : list string) (steps : list RenderStep) :
  rop_steps_of_lines h lines = Ok steps →
  Forall (λ n, Py.strip n = "" ∨ ∃ r, rop_step_of_line h n = Ok r) lines
  ∧ (length steps ≤ length (List.filter (λ n, Py.truthy (Py.strip n)) lines))%nat.
Proof.
  revert steps. induction lines as [|n rest IH]; simpl; intros steps H.
  - injection H as <-. split; [constructor | done].
  - destruct (Py.truthy (Py.strip n)) eqn:Hblank; cbn [negb] in H.
    + apply bind_Ok_inv in H as (r & Hr & H).
      apply bind_Ok_inv in H as (tl & Htl & H). injection H as <-.
      destruct (IH _ Htl) as [Hall Hlen]. split.
      * constructor; [right; eauto | done].
      * destruct r; simpl; lia.
    + destruct (IH _ H) as [Hall Hlen]. split; [|done].
      constructor; [|done]. left. by destruct (Py.strip n).
Qed.

(** X2: the extraction is all or nothing. When it returns, the render
    command reported no error, every line of its output that is not blank
    holds a tab and was read without an exception, and there are at most as
    many steps as such lines. *)
Theorem extraction_reads_every_line (h : Host) (rop : Node) (steps : list RenderStep) :
  _get_rop_steps h rop = Ok steps →
  ∃ out,
    hou_hscript h ("render -p -c -F " +:+ node_path rop) = (out, "")
    ∧ Forall (λ n, contains TAB n = true ∧ ∃ r, rop_step_of_line h n = Ok r)
        (non_blank_lines out)
    ∧ (length steps ≤ length (non_blank_lines out))%nat.
Proof.
  intros H. apply get_rop_steps_from in H as (out & Hout & H).
  exists out. split; [done|].
  apply rop_steps_of_lines_all in H as [Hall Hlen]. split; [|done].
  unfold non_blank_lines. apply Forall_forall. intros n Hn.
  apply list_elem_of_In, filter_In in Hn as [Hn Hnb].
  apply list_elem_of_In in Hn.
  rewrite Forall_forall in Hall. destruct (Hall n Hn) as [Hblank|[r Hr]].
  - rewrite Hblank in Hnb. discriminate.
  - split; [by eapply rop_step_of_line_needs_tab | eauto].
Qed.

Lemma extraction_reads_every_line_witness :
  _get_rop_steps Scene.host_separate Scene.rop_separate = Ok Scene.graph
  ∧ ∃ out,
      hou_hscript Scene.host_separate ("render -p -c -F " +:+ node_path Scene.rop_separate)
        = (out, "")
      ∧ Forall (λ n, contains TAB n = true
                     ∧ ∃ r, rop_step_of_line Scene.host_separate n = Ok r)
          (non_blank_lines out)
      ∧ (length Scene.graph ≤ length (non_blank_lines out))%nat.
Proof.
  split; [vm_compute; reflexivity|].
  apply (extraction_reads_every_line Scene.host_separate Scene.rop_separate).
  vm_compute; reflexivity.
Defined.

(** X3: when the render command reports an error, whatever it printed, the
    extraction raises an exception whose message ends with that error
    text, and so do scene-scan mode, the template compiler and the bundle
    writer, which then writes nothing. *)
Theorem hscript_error_aborts (h : Host) (rop : Node) (out err : string)
    (pn pd ps : Parm) :
  hou_hscript h ("render -p -c -F " +:+ node_path rop) = (out, err) →
  err ≠ "" →
  node_parms rop !! "name" = Some pn →
  node_parms rop !! "description" = Some pd →
  node_parms rop !! "separate_steps" = Some ps →
  _get_rop_steps h rop = Err (hscript_failure err)
  ∧ _get_scene_asset_references h rop = Err (hscript_failure err)
  ∧ _get_job_template h rop = Err (hscript_failure err)
  ∧ ∀ fs dir refs,
      _create_job_bundle h fs rop dir refs = (fs, Some (hscript_failure err)).
Proof.
  intros Hout Herr Hpn Hpd Hps.
  assert (_get_rop_steps h rop = Err (hscript_failure err)) as Hsteps.
  { unfold _get_rop_steps. rewrite Hout. by destruct err. }
  assert (_get_job_template h rop = Err (hscript_failure err)) as Hjt.
  { unfold _get_job_template, job_template_core.
    rewrite (parm_lookup _ _ _ Hpn), (parm_lookup _ _ _ Hpd), (parm_lookup _ _ _ Hps).
    rewrite !fmap_Ok, !bind_Ok, Hsteps. reflexivity. }
  split; [done|]. split; [|split; [done|]].
  - unfold _get_scene_asset_references. rewrite Hsteps. reflexivity.
  - intros fs dir refs. unfold _create_job_bundle. by rewrite Hjt.
Qed.

Lemma hscript_error_aborts_witness :
  hou_hscript Scene.host_failing ("render -p -c -F " +:+ node_path Scene.rop_separate)
    = ("", "render: unknown operator")
  ∧ "render: unknown operator" ≠ ""
  ∧ node_parms Scene.rop_separate !! "name"
    = Some (Scene.text "/out/deadline_cloud1" "name" "shot")
  ∧ node_parms Scene.rop_separate !! "description"
    = Some (Scene.text "/out/deadline_cloud1" "description" "")
  ∧ node_parms Scene.rop_separate !! "separate_steps"
    = Some (Scene.toggle "/out/deadline_cloud1" "separate_steps" 1)
  ∧ _get_rop_steps Scene.host_failing Scene.rop_separate
    = Err (hscript_failure "render: unknown operator")
  ∧ _get_scene_asset_references Scene.host_failing Scene.rop_separate
    = Err (hscript_failure "render: unknown operator")
  ∧ _get_job_template Scene.host_failing Scene.rop_separate
    = Err (hscript_failure "render: unknown operator")
  ∧ ∀ fs dir refs,
      _create_job_bundle Scene.host_failing fs Scene.rop_separate dir refs
      = (fs, Some (hscript_failure "render: unknown operator")).
Proof.
  split; [vm_compute; reflexivity|]. split; [discriminate|].
  do 3 (split; [vm_compute; reflexivity|]).
  apply (hscript_error_aborts Scene.host_failing Scene.rop_separate ""
           "render: unknown operator"
           (Scene.text "/out/deadline_cloud1" "name" "shot")
           (Scene.text "/out/deadline_cloud1" "description" "")
           (Scene.toggle "/out/deadline_cloud1" "separate_steps" 1));
    first [discriminate | vm_compute; reflexivity].
Defined.

(** ** Decimal text *)

Lemma string_app_cons (x : ascii) (a b : string) :
  String x a +:+ b = String x (a +:+ b).
Proof. reflexivity. Qed.


Lemma string_app_empty_r (a : string) : a +:+ "" = a.
Proof. induction a as [|x a IH]; [done|]. rewrite string_app_cons. by f_equal. Qed.



























(** ** The frame part of a line *)














(** ** More on the job template compiler *)

Lemma mapM_is_Ok {A B : Type} (f : A → Result B) (l : list A) :
  Forall (λ x, ∃ y, f x = Ok y) l → ∃ l', mapM f l = Ok l'.
Proof.
  induction 1 as [|x xs [y Hy] _ [ys Hys]]; simpl; [by eexists|].
  rewrite Hy, bind_Ok, Hys, bind_Ok. by eexists.
Qed.

(** An id that some step of the graph carries is in the dictionary. *)
Lemma id_steps_of_is_Some (steps : list RenderStep) (m : RenderStep) :
  m ∈ steps → is_Some (id_steps_of steps !! rs_id m).
Proof.
  unfold id_steps_of.
  assert (∀ (acc : gmap string RenderStep) (d : string),
            is_Some (acc !! d) ∨ (∃ n, n ∈ steps ∧ rs_id n = d) →
            is_Some (foldl (λ m n, <[rs_id n := n]> m) acc steps !! d)) as Hgen.
  { induction steps as [|n rest IH]; simpl; intros acc d [Hacc|(k & Hk & Hid)].
    - done.
    - by apply elem_of_nil in Hk.
    - apply IH. left. destruct (decide (rs_id n = d)) as [->|Hne].
      + rewrite lookup_insert_eq. by eexists.
      + by rewrite lookup_insert_ne.
    - apply IH. apply elem_of_cons in Hk as [->|Hk].
      + left. rewrite <- Hid, lookup_insert_eq. by eexists.
      + right. eauto. }
  intros Hm. apply Hgen. right. eauto.
Qed.

(** The documents of a template are made, in order, from the steps the
    compiler keeps, with the flag text of the mode. *)
Lemma template_documents (h : Host) (rop : Node) (ps : Parm)
    (steps : list RenderStep) (jt : JobTemplate) :
  node_parms rop !! "separate_steps" = Some ps →
  _get_rop_steps h rop = Ok steps →
  _get_job_template h rop = Ok jt →
  (val_truthy (parm_eval ps) = false → steps ≠ [])
  ∧ ∃ flag,
      Forall2 (λ n sd, step_document h (id_steps_of steps) flag n = Ok sd)
        (compiled_steps (parm_eval ps) steps) (jt_steps jt).
Proof.
  intros Hps Hsteps Hjt.
  apply get_job_template_Ok in Hjt as (core & Hcore & Hov).
  apply adaptor_override_steps in Hov. rewrite Hov. clear Hov jt.
  apply job_template_core_Ok in Hcore as (ps' & steps' & Hps' & Hsteps' & _ & Hmode).
  rewrite Hps in Hps'. injection Hps' as <-.
  rewrite Hsteps in Hsteps'. injection Hsteps' as <-.
  unfold compiled_steps. destruct (val_truthy (parm_eval ps)).
  - split; [done|]. exists "true". by apply mapM_Forall2.
  - destruct Hmode as (first & sd & Hfirst & Hdoc & ->).
    destruct steps as [|n rest]; [done|]. injection Hfirst as ->.
    split; [done|]. exists "false". simpl. by repeat constructor.
Qed.

Lemma compiled_steps_subseteq (v : PyVal) (steps : list RenderStep) :
  compiled_steps v steps ⊆ steps.
Proof. unfold compiled_steps. destruct (val_truthy v); [done | apply subseteq_take]. Qed.

(** X5: a template is only returned when every dependency id of every step
    it makes a document of is the id of an extracted step. A step that
    depends on an id that gave no step, such as the id of a skipped farm
    operator, makes the compiler raise instead. *)
Theorem dangling_dependency_no_template (h : Host) (rop : Node) (ps : Parm)
    (steps : list RenderStep) (n : RenderStep) (d : string) :
  node_parms rop !! "separate_steps" = Some ps →
  _get_rop_steps h rop = Ok steps →
  n ∈ compiled_steps (parm_eval ps) steps →
  d ∈ rs_deps n →
  (∀ m, m ∈ steps → rs_id m ≠ d) →
  ∃ e, _get_job_template h rop = Err e.
Proof.
  intros Hps Hsteps Hn Hd Hnone.
  destruct (_get_job_template h rop) as [jt|e] eqn:Hjt; [|by eexists].
  exfalso.
  destruct (template_documents h rop ps steps jt Hps Hsteps Hjt) as (_ & flag & Hall).
  apply list_elem_of_lookup in Hn as [i Hi].
  destruct (Forall2_lookup_l _ _ _ _ _ Hall Hi) as (sd & _ & Hdoc).
  apply step_document_Ok in Hdoc as (_ & _ & Hdeps).
  destruct (rs_deps n) as [|d0 ds] eqn:Hds; [by apply elem_of_nil in Hd|].
  destruct Hdeps as (deps & _ & Hmap). apply mapM_Forall2 in Hmap.
  apply list_elem_of_lookup in Hd as [j Hj].
  destruct (Forall2_lookup_l _ _ _ _ _ Hmap Hj) as (dep & _ & Hdep).
  unfold dependency_of in Hdep.
  destruct (id_steps_of steps !! d) as [m|] eqn:Hm; [|discriminate].
  apply id_steps_of_lookup in Hm as [Hin Hid]. by apply (Hnone m).
Qed.

Lemma dangling_dependency_no_template_witness :
  node_parms Scene.rop_separate !! "separate_steps"
    = Some (Scene.toggle "/out/deadline_cloud1" "separate_steps" 1)
  ∧ _get_rop_steps Scene.host_chain Scene.rop_separate
    = Ok [ {| rs_id := "1"; rs_name := "/out/geo1-1"; rs_deps := [];
              rs_rop := "/out/geo1"; rs_start := 1; rs_stop := 10; rs_step := 1 |};
           {| rs_id := "3"; rs_name := "/out/mantra1-3"; rs_deps := ["2"];
              rs_rop := "/out/mantra1"; rs_start := 5; rs_stop := 5; rs_step := 1 |} ]
  ∧ _get_job_template Scene.host_chain Scene.rop_separate = Err (KeyError "2")
  ∧ ∃ e, _get_job_template Scene.host_chain Scene.rop_separate = Err e.
Proof.
  split; [vm_compute; reflexivity|]. split; [vm_compute; reflexivity|].
  split; [vm_compute; reflexivity|].
  apply (dangling_dependency_no_template Scene.host_chain Scene.rop_separate
           (Scene.toggle "/out/deadline_cloud1" "separate_steps" 1)
           [ {| rs_id := "1"; rs_name := "/out/geo1-1"; rs_deps := [];
                rs_rop := "/out/geo1"; rs_start := 1; rs_stop := 10; rs_step := 1 |};
             {| rs_id := "3"; rs_name := "/out/mantra1-3"; rs_deps := ["2"];
                rs_rop := "/out/mantra1"; rs_start := 5; rs_stop := 5; rs_step := 1 |} ]
           {| rs_id := "3"; rs_name := "/out/mantra1-3"; rs_deps := ["2"];
              rs_rop := "/out/mantra1"; rs_start := 5; rs_stop := 5; rs_step := 1 |}
           "2").
  - vm_compute; reflexivity.
  - vm_compute; reflexivity.
  - apply elem_of_cons. right. apply list_elem_of_singleton. reflexivity.
  - apply list_elem_of_singleton. reflexivity.
  - intros m Hm Hid.
    apply elem_of_cons in Hm as [->|Hm]; [discriminate Hid|].
    apply list_elem_of_singleton in Hm as ->. discriminate Hid.
Defined.

Lemma step_document_is_Ok (h : Host) (steps : list RenderStep) (flag : string)
    (n : RenderStep) :
  (∃ r, parse_frame_range h (frame_list n) = Ok r) →
  Forall (λ d, ∃ m, m ∈ steps ∧ rs_id m = d) (rs_deps n) →
  ∃ sd, step_document h (id_steps_of steps) flag n = Ok sd.
Proof.
  intros [r Hr] Hdeps. unfold step_document. rewrite Hr, bind_Ok.
  destruct (rs_deps n) as [|d ds] eqn:Hds; [by eexists|].
  destruct (mapM_is_Ok (dependency_of (id_steps_of steps)) (d :: ds)) as [deps Hmap].
  { eapply Forall_impl; [exact Hdeps|]. intros d' (m & Hm & <-).
    unfold dependency_of.
    destruct (id_steps_of_is_Some steps m Hm) as [k ->]. by eexists. }
  rewrite Hmap, bind_Ok. by eexists.
Qed.

(** X6: what suffices for a template. If the operator has its name,
    description, "separate steps" and "include adaptor wheels" parameters,
    the last one off, the queue definitions load, the extraction returns
    steps (at least one when "separate steps" is off), and for each step a
    document is made of the frame range parses and every dependency id is
    the id of an extracted step, then a template is returned, with one
    document per such step. *)
Theorem template_is_compiled (h : Host) (rop : Node) (pn pd ps pi : Parm)
    (defs : list ParamDef) (steps : list RenderStep) :
  node_parms rop !! "name" = Some pn →
  node_parms rop !! "description" = Some pd →
  node_parms rop !! "separate_steps" = Some ps →
  node_parms rop !! "include_adaptor_wheels" = Some pi →
  val_truthy (parm_eval pi) = false →
  queue_parameter_definitions h rop = Ok defs →
  _get_rop_steps h rop = Ok steps →
  (val_truthy (parm_eval ps) = false → steps ≠ []) →
  Forall (λ n,
     (∃ r, parse_frame_range h (frame_list n) = Ok r)
     ∧ Forall (λ d, ∃ m, m ∈ steps ∧ rs_id m = d) (rs_deps n))
    (compiled_steps (parm_eval ps) steps) →
  ∃ jt,
    _get_job_template h rop = Ok jt
    ∧ length (jt_steps jt) = length (compiled_steps (parm_eval ps) steps).
Proof.
  intros Hpn Hpd Hps Hpi Hoff Hdefs Hsteps Hne Hall.
  assert (∀ flag, ∃ sds,
            mapM (step_document h (id_steps_of steps) flag)
              (compiled_steps (parm_eval ps) steps) = Ok sds) as Hdocs.
  { intros flag. apply mapM_is_Ok. eapply Forall_impl; [exact Hall|].
    intros n [Hr Hd]. by apply step_document_is_Ok. }
  unfold _get_job_template, job_template_core, adaptor_override.
  rewrite (parm_lookup _ _ _ Hpn), (parm_lookup _ _ _ Hpd), (parm_lookup _ _ _ Hps).
  rewrite !fmap_Ok, !bind_Ok, Hsteps, bind_Ok, Hdefs, bind_Ok.
  unfold compiled_steps in *.
  destruct (val_truthy (parm_eval ps)); cbn [negb].
  - destruct (Hdocs "true") as [sds Hsds]. rewrite bind_Ok, Hsds, !bind_Ok.
    rewrite (parm_lookup _ _ _ Hpi), fmap_Ok, bind_Ok, Hoff.
    eexists. split; [reflexivity|]. cbn [jt_steps].
    apply mapM_Forall2 in Hsds. symmetry. by eapply Forall2_length.
  - destruct steps as [|first rest]; [by destruct Hne|].
    destruct (Hdocs "false") as [sds Hsds].
    change (Py.index (first :: rest) 0) with (Ok first).
    rewrite !bind_Ok. change (take 1 (first :: rest)) with [first] in Hsds.
    rewrite Hsds, !bind_Ok.
    rewrite (parm_lookup _ _ _ Hpi), fmap_Ok, bind_Ok, Hoff.
    eexists. split; [reflexivity|]. cbn [jt_steps].
    apply mapM_Forall2 in Hsds. symmetry. by eapply Forall2_length.
Qed.

Lemma template_is_compiled_witness :
  node_parms Scene.rop_separate !! "name"
    = Some (Scene.text "/out/deadline_cloud1" "name" "shot")
  ∧ node_parms Scene.rop_separate !! "description"
    = Some (Scene.text "/out/deadline_cloud1" "description" "")
  ∧ node_parms Scene.rop_separate !! "separate_steps"
    = Some (Scene.toggle "/out/deadline_cloud1" "separate_steps" 1)
  ∧ node_parms Scene.rop_separate !! "include_adaptor_wheels"
    = Some (Scene.toggle "/out/deadline_cloud1" "include_adaptor_wheels" 0)
  ∧ queue_parameter_definitions Scene.host_separate Scene.rop_separate = Ok []
  ∧ _get_rop_steps Scene.host_separate Scene.rop_separate = Ok Scene.graph
  ∧ ∃ jt,
      _get_job_template Scene.host_separate Scene.rop_separate = Ok jt
      ∧ length (jt_steps jt) = 2%nat.
Proof.
  do 6 (split; [vm_compute; reflexivity|]).
  apply (template_is_compiled Scene.host_separate Scene.rop_separate
           (Scene.text "/out/deadline_cloud1" "name" "shot")
           (Scene.text "/out/deadline_cloud1" "description" "")
           (Scene.toggle "/out/deadline_cloud1" "separate_steps" 1)
           (Scene.toggle "/out/deadline_cloud1" "include_adaptor_wheels" 0)
           [] Scene.graph); try (vm_compute; reflexivity).
  - discriminate.
  - repeat constructor.
    + eexists. vm_compute. reflexivity.
    + eexists. vm_compute. reflexivity.
    + exists {| rs_id := "1"; rs_name := "/out/geo1-1"; rs_deps := [];
                rs_rop := "/out/geo1"; rs_start := 1; rs_stop := 10; rs_step := 1 |}.
      split; [|reflexivity]. apply elem_of_cons. left. reflexivity.
Defined.

Lemma job_template_core_fields (h : Host) (rop : Node) (core : JobTemplate) :
  job_template_core h rop = Ok core →
  ∃ pn pd defs,
    node_parms rop !! "name" = Some pn
    ∧ node_parms rop !! "description" = Some pd
    ∧ queue_parameter_definitions h rop = Ok defs
    ∧ jt_specificationVersion core = "jobtemplate-2023-09"
    ∧ jt_name core = parm_evalAsString pn
    ∧ jt_description core =
        (if Py.truthy (parm_evalAsString pd) then Some (parm_evalAsString pd) else None)
    ∧ jt_parameterDefinitions core = defs ++ [hip_file_definition h]
    ∧ jt_jobEnvironments core = None.
Proof.
  unfold job_template_core. intros H.
  apply bind_Ok_inv in H as (job_name & Hname & H).
  apply fmap_Ok_inv in Hname as (pn & Hpn%parm_Ok_inv & ->).
  apply bind_Ok_inv in H as (job_description & Hdesc & H).
  apply fmap_Ok_inv in Hdesc as (pd & Hpd%parm_Ok_inv & ->).
  apply bind_Ok_inv in H as (sep & _ & H).
  apply bind_Ok_inv in H as (steps & _ & H).
  apply bind_Ok_inv in H as (defs & Hdefs & H).
  apply bind_Ok_inv in H as ([steps' flag] & _ & H).
  apply bind_Ok_inv in H as (sds & _ & H).
  injection H as <-. exists pn, pd, defs. done.
Qed.

Lemma adaptor_override_fields (h : Host) (rop : Node) (jt jt' : JobTemplate) :
  adaptor_override h rop jt = Ok jt' →
  jt_specificationVersion jt' = jt_specificationVersion jt
  ∧ jt_name jt' = jt_name jt
  ∧ jt_description jt' = jt_description jt
  ∧ ((jt_parameterDefinitions jt' = jt_parameterDefinitions jt
      ∧ jt_jobEnvironments jt' = jt_jobEnvironments jt)
     ∨ ∃ first others env,
         jt_parameterDefinitions jt' = jt_parameterDefinitions jt ++ first :: others
         ∧ jt_jobEnvironments jt' = Some (default [] (jt_jobEnvironments jt) ++ [env])).
Proof.
  unfold adaptor_override. intros H.
  apply bind_Ok_inv in H as (flag & _ & H).
  destruct (val_truthy flag); [|injection H as <-; by auto 6].
  apply bind_Ok_inv in H as (wheels & _ & H).
  destruct (os_path_exists h wheels); [|injection H as <-; by auto 6].
  apply bind_Ok_inv in H as (ov & _ & H).
  destruct (ov_parameterDefinitions ov) as [|first others]; [discriminate|].
  injection H as <-. cbn. repeat split. right. eauto.
Qed.

(** What the adaptor override did when it returned: nothing, the flag being
    off or the wheels path missing on disk, or the extension of the template
    by the definitions and the environment of the override file. *)
Lemma adaptor_override_cases (h : Host) (rop : Node) (jt jt' : JobTemplate) :
  adaptor_override h rop jt = Ok jt' →
  ∃ pi,
    node_parms rop !! "include_adaptor_wheels" = Some pi
    ∧ ((jt' = jt
        ∧ (val_truthy (parm_eval pi) = false
           ∨ ∃ pw, node_parms rop !! "adaptor_wheels" = Some pw
                ∧ os_path_exists h (parm_evalAsString pw) = false))
       ∨ ∃ pw ov first others,
           val_truthy (parm_eval pi) = true
           ∧ node_parms rop !! "adaptor_wheels" = Some pw
           ∧ os_path_exists h (parm_evalAsString pw) = true
           ∧ load_override_environment h = Ok ov
           ∧ ov_parameterDefinitions ov = first :: others
           ∧ jt_parameterDefinitions jt'
             = jt_parameterDefinitions jt
               ++ <["default" := JStr (parm_evalAsString pw)]> first :: others
           ∧ jt_jobEnvironments jt'
             = Some (default [] (jt_jobEnvironments jt) ++ [ov_environment ov])).
Proof.
  unfold adaptor_override. intros H.
  apply bind_Ok_inv in H as (flag & Hflag & H).
  apply fmap_Ok_inv in Hflag as (pi & Hpi%parm_Ok_inv & ->).
  exists pi. split; [done|].
  destruct (val_truthy (parm_eval pi)) eqn:Hon; [|injection H as <-; by auto].
  apply bind_Ok_inv in H as (wheels & Hwheels & H).
  apply fmap_Ok_inv in Hwheels as (pw & Hpw%parm_Ok_inv & ->).
  destruct (os_path_exists h (parm_evalAsString pw)) eqn:Hexists.
  - apply bind_Ok_inv in H as (ov & Hov & H).
    destruct (ov_parameterDefinitions ov) as [|first others] eqn:Hdefs; [discriminate|].
    injection H as <-. cbn [jt_parameterDefinitions jt_jobEnvironments].
    right. exists pw, ov, first, others. done.
  - injection H as <-. left. split; [done|]. right. by exists pw.
Qed.

(** X7: every template returned carries the specification version
    "jobtemplate-2023-09", the operator's name, its description only when
    that is not empty, and as parameter definitions the queue's
    definitions, then the [HipFile] definition with the open scene file as
    default, then an extension. The extension is empty, and there are no
    [jobEnvironments], when the wheels flag is off or the wheels path is
    not on disk; otherwise it is the list of parameter definitions of the
    override file, the first with the wheels path as its default, and
    [jobEnvironments] holds the one environment of that file. *)
Theorem template_header (h : Host) (rop : Node) (jt : JobTemplate) :
  _get_job_template h rop = Ok jt →
  ∃ pn pd pi defs extension,
    node_parms rop !! "name" = Some pn
    ∧ node_parms rop !! "description" = Some pd
    ∧ node_parms rop !! "include_adaptor_wheels" = Some pi
    ∧ queue_parameter_definitions h rop = Ok defs
    ∧ jt_specificationVersion jt = "jobtemplate-2023-09"
    ∧ jt_name jt = parm_evalAsString pn
    ∧ (jt_description jt = None ↔ parm_evalAsString pd = "")
    ∧ (∀ text, jt_description jt = Some text → text = parm_evalAsString pd)
    ∧ jt_parameterDefinitions jt = defs ++ hip_file_definition h :: extension
    ∧ hip_file_definition h !! "name" = Some (JStr "HipFile")
    ∧ hip_file_definition h !! "default" = Some (JStr (hou_hipFile_path h))
    ∧ (extension = [] ↔ jt_jobEnvironments jt = None)
    ∧ ((extension = []
        ∧ jt_jobEnvironments jt = None
        ∧ (val_truthy (parm_eval pi) = false
           ∨ ∃ pw, node_parms rop !! "adaptor_wheels" = Some pw
                ∧ os_path_exists h (parm_evalAsString pw) = false))
       ∨ ∃ pw ov first others,
           val_truthy (parm_eval pi) = true
           ∧ node_parms rop !! "adaptor_wheels" = Some pw
           ∧ os_path_exists h (parm_evalAsString pw) = true
           ∧ load_override_environment h = Ok ov
           ∧ ov_parameterDefinitions ov = first :: others
           ∧ extension = <["default" := JStr (parm_evalAsString pw)]> first :: others
           ∧ jt_jobEnvironments jt = Some [ov_environment ov]).
Proof.
  intros H. apply get_job_template_Ok in H as (core & Hcore & Hov).
  apply job_template_core_fields in Hcore
    as (pn & pd & defs & Hpn & Hpd & Hdefs & Hver & Hname & Hdesc & Hpdefs & Henv).
  pose proof (adaptor_override_fields _ _ _ _ Hov) as (Hver' & Hname' & Hdesc' & _).
  apply adaptor_override_cases in Hov as (pi & Hpi & Hcases).
  assert (∃ extension,
            jt_parameterDefinitions jt = defs ++ hip_file_definition h :: extension
            ∧ ((extension = []
                ∧ jt_jobEnvironments jt = None
                ∧ (val_truthy (parm_eval pi) = false
                   ∨ ∃ pw, node_parms rop !! "adaptor_wheels" = Some pw
                        ∧ os_path_exists h (parm_evalAsString pw) = false))
               ∨ ∃ pw ov first others,
                   val_truthy (parm_eval pi) = true
                   ∧ node_parms rop !! "adaptor_wheels" = Some pw
                   ∧ os_path_exists h (parm_evalAsString pw) = true
                   ∧ load_override_environment h = Ok ov
                   ∧ ov_parameterDefinitions ov = first :: others
                   ∧ extension
                     = <["default" := JStr (parm_evalAsString pw)]> first :: others
                   ∧ jt_jobEnvironments jt = Some [ov_environment ov]))
    as (extension & Hjt & Hext).
  { destruct Hcases as [[-> Hoff]|(pw & ov & first & others & Hon & Hpw & Hex & Hload & Hfirst & Hpd' & Henv')].
    - exists []. split; [done|]. left. done.
    - eexists. split; [by rewrite Hpd', Hpdefs, <- app_assoc|].
      right. exists pw, ov, first, others. rewrite Henv', Henv. done. }
  exists pn, pd, pi, defs, extension.
  rewrite Hver', Hname', Hdesc', Hver, Hname, Hdesc.
  repeat split; try done.
  - destruct (parm_evalAsString pd); [done | discriminate].
  - intros ->. done.
  - intros text. by destruct (parm_evalAsString pd); intros [= <-].
  - intros ->. destruct Hext as [(_ & Hnone & _)|(pw & ov & first & others & _ & _ & _ & _ & _ & Hcons & _)];
      [done | discriminate].
  - intros Hnone. destruct Hext as [(Hnil & _)|(pw & ov & first & others & _ & _ & _ & _ & _ & _ & Hsome)];
      [done | congruence].
Qed.

Lemma template_header_witness :
  _get_job_template Scene.host_wheels Scene.rop_wheels = Ok Scene.template_wheels
  ∧ ∃ pn pd pi defs extension,
      node_parms Scene.rop_wheels !! "name" = Some pn
      ∧ node_parms Scene.rop_wheels !! "description" = Some pd
      ∧ node_parms Scene.rop_wheels !! "include_adaptor_wheels" = Some pi
      ∧ queue_parameter_definitions Scene.host_wheels Scene.rop_wheels = Ok defs
      ∧ jt_specificationVersion Scene.template_wheels = "jobtemplate-2023-09"
      ∧ jt_name Scene.template_wheels = parm_evalAsString pn
      ∧ (jt_description Scene.template_wheels = None ↔ parm_evalAsString pd = "")
      ∧ (∀ text, jt_description Scene.template_wheels = Some text →
           text = parm_evalAsString pd)
      ∧ jt_parameterDefinitions Scene.template_wheels
        = defs ++ hip_file_definition Scene.host_wheels :: extension
      ∧ hip_file_definition Scene.host_wheels !! "name" = Some (JStr "HipFile")
      ∧ hip_file_definition Scene.host_wheels !! "default"
        = Some (JStr (hou_hipFile_path Scene.host_wheels))
      ∧ (extension = [] ↔ jt_jobEnvironments Scene.template_wheels = None)
      ∧ ((extension = []
          ∧ jt_jobEnvironments Scene.template_wheels = None
          ∧ (val_truthy (parm_eval pi) = false
             ∨ ∃ pw, node_parms Scene.rop_wheels !! "adaptor_wheels" = Some pw
                  ∧ os_path_exists Scene.host_wheels (parm_evalAsString pw) = false))
         ∨ ∃ pw ov first others,
             val_truthy (parm_eval pi) = true
             ∧ node_parms Scene.rop_wheels !! "adaptor_wheels" = Some pw
             ∧ os_path_exists Scene.host_wheels (parm_evalAsString pw) = true
             ∧ load_override_environment Scene.host_wheels = Ok ov
             ∧ ov_parameterDefinitions ov = first :: others
             ∧ extension = <["default" := JStr (parm_evalAsString pw)]> first :: others
             ∧ jt_jobEnvironments Scene.template_wheels = Some [ov_environment ov]).
Proof.
  split; [vm_compute; reflexivity|].
  apply (template_header Scene.host_wheels Scene.rop_wheels).
  vm_compute; reflexivity.
Defined.

Lemma step_document_fields (h : Host) (ids : gmap string RenderStep) (flag : string)
    (n : RenderStep) (sd : StepDocument) :
  step_document h ids flag n = Ok sd →
  (∃ r, parse_frame_range h (frame_list n) = Ok r
        ∧ sd_taskParameterDefinitions sd
          = [ {| tp_name := "Frame"; tp_range := r; tp_type := "INT" |} ])
  ∧ sd_embeddedFiles sd
    = [ {| ef_name := "runData"; ef_filename := "run-data.yaml"; ef_type := "TEXT";
           ef_data := run_data_text (rs_rop n) |} ]
  ∧ sd_stepEnvironments sd
    = get_houdini_environments (init_data_attachment h flag n)
  ∧ act_command (sd_onRun sd) = "HoudiniAdaptor"
  ∧ "file://{{ Task.File.runData }}" ∈ act_args (sd_onRun sd)
  ∧ act_cancelation_mode (sd_onRun sd) = "NOTIFY_THEN_TERMINATE".
Proof.
  unfold step_document. intros H.
  apply bind_Ok_inv in H as (r & Hr & H).
  assert ("file://{{ Task.File.runData }}"
          ∈ [ "daemon"; "run"; "--connection-file";
              "{{ Session.WorkingDirectory }}/connection.json";
              "--run-data"; "file://{{ Task.File.runData }}" ]) as Harg
    by (apply list_elem_of_In; simpl; tauto).
  destruct (rs_deps n) as [|d ds].
  - injection H as <-. cbn. split; [by eexists|]. done.
  - apply bind_Ok_inv in H as (deps & _ & H). injection H as <-. cbn.
    split; [by eexists|]. done.
Qed.

(** X8: in every template returned, each step document has exactly one
    task parameter, named [Frame], of type INT, whose range is what
    [parse_frame_range] gives for the text "<start>-<stop>:<step>" of its
    render step, the numbers in decimal. *)
Theorem frame_parameter_of_documents (h : Host) (rop : Node) (ps : Parm)
    (steps : list RenderStep) (jt : JobTemplate) :
  node_parms rop !! "separate_steps" = Some ps →
  _get_rop_steps h rop = Ok steps →
  _get_job_template h rop = Ok jt →
  Forall2 (λ n sd,
     ∃ r,
       parse_frame_range h
         (Py.str_of_int (rs_start n) +:+ "-" +:+ Py.str_of_int (rs_stop n)
          +:+ ":" +:+ Py.str_of_int (rs_step n)) = Ok r
       ∧ sd_taskParameterDefinitions sd
         = [ {| tp_name := "Frame"; tp_range := r; tp_type := "INT" |} ])
    (compiled_steps (parm_eval ps) steps) (jt_steps jt).
Proof.
  intros Hps Hsteps Hjt.
  destruct (template_documents h rop ps steps jt Hps Hsteps Hjt) as (_ & flag & Hall).
  eapply Forall2_impl; [exact Hall|].
  intros n sd Hdoc. by apply step_document_fields in Hdoc as (Hframe & _).
Qed.

Lemma frame_parameter_of_documents_witness :
  node_parms Scene.rop_separate !! "separate_steps"
    = Some (Scene.toggle "/out/deadline_cloud1" "separate_steps" 1)
  ∧ _get_rop_steps Scene.host_separate Scene.rop_separate = Ok Scene.graph
  ∧ _get_job_template Scene.host_separate Scene.rop_separate = Ok Scene.template_separate
  ∧ Forall2 (λ n sd,
       ∃ r,
         parse_frame_range Scene.host_separate
           (Py.str_of_int (rs_start n) +:+ "-" +:+ Py.str_of_int (rs_stop n)
            +:+ ":" +:+ Py.str_of_int (rs_step n)) = Ok r
         ∧ sd_taskParameterDefinitions sd
           = [ {| tp_name := "Frame"; tp_range := r; tp_type := "INT" |} ])
      Scene.graph (jt_steps Scene.template_separate).
Proof.
  do 3 (split; [vm_compute; reflexivity|]).
  apply (frame_parameter_of_documents Scene.host_separate Scene.rop_separate
           (Scene.toggle "/out/deadline_cloud1" "separate_steps" 1));
    vm_compute; reflexivity.
Defined.

(** X9: in every template returned, whatever the mode, the run data of
    each step document names the render node of its step, the [Frame] task
    parameter and "ignore_input_nodes: true"; the document's run action and
    the two actions of its single environment, named "Houdini", run
    [HoudiniAdaptor] and are cancelled by notify-then-terminate; and the
    file references in their arguments name files that are embedded:
    [runData] in the step, [initData] in the environment. *)
Theorem run_data_of_documents (h : Host) (rop : Node) (ps : Parm)
    (steps : list RenderStep) (jt : JobTemplate) :
  node_parms rop !! "separate_steps" = Some ps →
  _get_rop_steps h rop = Ok steps →
  _get_job_template h rop = Ok jt →
  Forall2 (λ n sd,
     List.map ef_name (sd_embeddedFiles sd) = ["runData"]
     ∧ List.map ef_data (sd_embeddedFiles sd) = [run_data_text (rs_rop n)]
     ∧ "file://{{ Task.File.runData }}" ∈ act_args (sd_onRun sd)
     ∧ ∃ env,
         sd_stepEnvironments sd = [env]
         ∧ env_name env = "Houdini"
         ∧ List.map ef_name (env_embeddedFiles env) = ["initData"]
         ∧ "file://{{ Env.File.initData }}" ∈ act_args (env_onEnter env)
         ∧ Forall (λ a, act_command a = "HoudiniAdaptor"
                        ∧ act_cancelation_mode a = "NOTIFY_THEN_TERMINATE")
             [sd_onRun sd; env_onEnter env; env_onExit env])
    (compiled_steps (parm_eval ps) steps) (jt_steps jt).
Proof.
  intros Hps Hsteps Hjt.
  destruct (template_documents h rop ps steps jt Hps Hsteps Hjt) as (_ & flag & Hall).
  eapply Forall2_impl; [exact Hall|].
  intros n sd Hdoc.
  apply step_document_fields in Hdoc as (_ & -> & -> & Hcmd & Harg & Hcancel).
  repeat split; try done.
  eexists. split; [reflexivity|]. cbn.
  repeat split; try done.
  - apply list_elem_of_In; simpl; tauto.
  - repeat constructor; done.
Qed.

Lemma run_data_of_documents_witness :
  node_parms Scene.rop_single !! "separate_steps"
    = Some (Scene.toggle "/out/deadline_cloud1" "separate_steps" 0)
  ∧ _get_rop_steps Scene.host_single Scene.rop_single = Ok Scene.graph
  ∧ _get_job_template Scene.host_single Scene.rop_single = Ok Scene.template_single
  ∧ Forall2 (λ n sd,
       List.map ef_name (sd_embeddedFiles sd) = ["runData"]
       ∧ List.map ef_data (sd_embeddedFiles sd) = [run_data_text (rs_rop n)]
       ∧ "file://{{ Task.File.runData }}" ∈ act_args (sd_onRun sd)
       ∧ ∃ env,
           sd_stepEnvironments sd = [env]
           ∧ env_name env = "Houdini"
           ∧ List.map ef_name (env_embeddedFiles env) = ["initData"]
           ∧ "file://{{ Env.File.initData }}" ∈ act_args (env_onEnter env)
           ∧ Forall (λ a, act_command a = "HoudiniAdaptor"
                          ∧ act_cancelation_mode a = "NOTIFY_THEN_TERMINATE")
               [sd_onRun sd; env_onEnter env; env_onExit env])
      (take 1 Scene.graph) (jt_steps Scene.template_single).
Proof.
  do 3 (split; [vm_compute; reflexivity|]).
  apply (run_data_of_documents Scene.host_single Scene.rop_single
           (Scene.toggle "/out/deadline_cloud1" "separate_steps" 0));
    vm_compute; reflexivity.
Defined.

(** X10: with "separate steps" off, the single document keeps the
    dependencies of the first step: it carries a [dependencies] field
    exactly when that step has dependency ids, and each [dependsOn] is the
    name of the step of the whole graph that carries the id, whether or not
    the template has a document for it. *)
Theorem single_mode_dependencies (h : Host) (rop : Node) (ps : Parm)
    (steps : list RenderStep) (jt : JobTemplate) :
  node_parms rop !! "separate_steps" = Some ps →
  val_truthy (parm_eval ps) = false →
  _get_rop_steps h rop = Ok steps →
  _get_job_template h rop = Ok jt →
  ∃ first sd,
    head steps = Some first
    ∧ jt_steps jt = [sd]
    ∧ has_dependencies sd = has_deps first
    ∧ ∀ deps, sd_dependencies sd = Some deps →
        Forall2 (λ d dep, ∃ m, m ∈ steps ∧ rs_id m = d ∧ dependsOn dep = rs_name m)
          (rs_deps first) deps.
Proof.
  intros Hps Hsep Hsteps Hjt.
  destruct (template_documents h rop ps steps jt Hps Hsteps Hjt) as (Hne & flag & Hall).
  unfold compiled_steps in Hall. rewrite Hsep in Hall.
  destruct steps as [|first rest]; [by destruct Hne|].
  apply Forall2_cons_inv_l in Hall as (sd & sds & Hdoc & Hnil & ->).
  apply Forall2_nil_inv_l in Hnil as ->.
  apply step_document_Ok in Hdoc as (_ & _ & Hdeps).
  exists first, sd. split; [done|]. split; [done|].
  unfold has_dependencies, has_deps.
  destruct (rs_deps first) as [|d ds].
  - rewrite Hdeps. split; [done|]. intros deps [=].
  - destruct Hdeps as (deps & -> & Hmap). split; [done|].
    intros deps' [= <-]. apply mapM_Forall2 in Hmap.
    eapply Forall2_impl; [exact Hmap|]. intros d' dep Hdep.
    unfold dependency_of in Hdep.
    destruct (id_steps_of (first :: rest) !! d') as [m|] eqn:Hm; [|discriminate].
    injection Hdep as <-. apply id_steps_of_lookup in Hm as [Hin Hid].
    exists m. done.
Qed.

Lemma single_mode_dependencies_witness :
  node_parms Scene.rop_single !! "separate_steps"
    = Some (Scene.toggle "/out/deadline_cloud1" "separate_steps" 0)
  ∧ _get_job_template Scene.host_dependent_first Scene.rop_single
    = Ok (Scene.template [Scene.mantra1_doc "false"] [] None)
  ∧ List.map sd_name (jt_steps (Scene.template [Scene.mantra1_doc "false"] [] None))
    = ["/out/mantra1-2"]
  ∧ sd_dependencies (Scene.mantra1_doc "false") = Some [ {| dependsOn := "/out/geo1-1" |} ]
  ∧ ∃ first sd,
      head [ {| rs_id := "2"; rs_name := "/out/mantra1-2"; rs_deps := ["1"];
                rs_rop := "/out/mantra1"; rs_start := 5; rs_stop := 5; rs_step := 1 |};
             {| rs_id := "1"; rs_name := "/out/geo1-1"; rs_deps := [];
                rs_rop := "/out/geo1"; rs_start := 1; rs_stop := 10; rs_step := 1 |} ]
        = Some first
      ∧ jt_steps (Scene.template [Scene.mantra1_doc "false"] [] None) = [sd]
      ∧ has_dependencies sd = has_deps first
      ∧ ∀ deps, sd_dependencies sd = Some deps →
          Forall2 (λ d dep,
             ∃ m, m ∈ [ {| rs_id := "2"; rs_name := "/out/mantra1-2"; rs_deps := ["1"];
                           rs_rop := "/out/mantra1"; rs_start := 5; rs_stop := 5;
                           rs_step := 1 |};
                        {| rs_id := "1"; rs_name := "/out/geo1-1"; rs_deps := [];
                           rs_rop := "/out/geo1"; rs_start := 1; rs_stop := 10;
                           rs_step := 1 |} ]
                  ∧ rs_id m = d ∧ dependsOn dep = rs_name m)
            (rs_deps first) deps.
Proof.
  split; [vm_compute; reflexivity|]. split; [vm_compute; reflexivity|].
  split; [reflexivity|]. split; [reflexivity|].
  apply (single_mode_dependencies Scene.host_dependent_first Scene.rop_single
           (Scene.toggle "/out/deadline_cloud1" "separate_steps" 0));
    vm_compute; reflexivity.
Defined.

(** ** More on scene-scan mode *)

(** X11: scene-scan mode keeps every file reference that is not a
    directory and either has no owning parameter or is owned by a
    parameter of another node, with a name off the denylist, and has a
    value that starts with none of the ignored prefixes. *)
Theorem scene_scan_keeps_references (h : Host) (rop : Node) (refs : AssetReferences)
    (n : option Parm * string) :
  _get_scene_asset_references h rop = Ok refs →
  n ∈ hou_fileReferences h →
  os_path_isdir h n.2 = false →
  (∀ p, n.1 = Some p →
     parm_node p ≠ node_path rop
     ∧ Py.startswith IGNORE_REF_VALUES n.2 = false
     ∧ Py.str_in (parm_name p) IGNORE_REF_PARMS = false) →
  n.2 ∈ input_filenames refs.
Proof.
  intros H Hn Hdir Hown. apply scene_asset_references_Ok in H as [-> _].
  apply elem_of_union_r, elem_of_list_to_set, list_elem_of_In, in_map_iff.
  exists n. split; [done|]. apply filter_In. split; [by apply list_elem_of_In|].
  unfold keeps_reference. destruct n as [[p|] f]; cbn [fst snd] in *.
  - destruct (Hown p eq_refl) as (Hnode & -> & ->).
    apply String.eqb_neq in Hnode. rewrite Hnode. by rewrite Hdir.
  - by rewrite Hdir.
Qed.

Lemma scene_scan_keeps_references_witness :
  _get_scene_asset_references Scene.host_references Scene.rop_separate = Ok Scene.scanned
  ∧ "/proj/tex/wood.png" ∈ input_filenames Scene.scanned.
Proof.
  split; [vm_compute; reflexivity|].
  apply (scene_scan_keeps_references Scene.host_references Scene.rop_separate Scene.scanned
           (Some (Scene.text "/obj/geo1/file1" "file" "/proj/tex/wood.png"),
            "/proj/tex/wood.png")).
  - vm_compute; reflexivity.
  - apply elem_of_cons. left. reflexivity.
  - reflexivity.
  - intros p [= <-]. repeat split; [discriminate | reflexivity..].
Defined.

Lemma output_directory_of_Some (h : Host) (n : RenderStep) (d : string) :
  output_directory_of h n = Ok (Some d) ↔
  ∃ nd out_parm p path,
    hou_node h (rs_rop n) = Some nd
    ∧ rop_dir_map !! node_type_nameWithCategory nd = Some out_parm
    ∧ node_parms nd !! out_parm = Some p
    ∧ parm_eval p = PStr path
    ∧ path ≠ ""
    ∧ d = os_path_dirname h path.
Proof.
  unfold output_directory_of. split.
  - intros H. apply bind_Ok_inv in H as (nd & Hnd%deref_Ok_inv & H).
    destruct (rop_dir_map !! node_type_nameWithCategory nd) as [out_parm|] eqn:Hmap;
      [|discriminate].
    apply bind_Ok_inv in H as (p & Hp%parm_Ok_inv & H).
    destruct (parm_eval p) as [k|path] eqn:Hval.
    + destruct (negb (k =? 0)); discriminate.
    + destruct path as [|a path]; [discriminate|]. injection H as <-.
      exists nd, out_parm, p, (String a path). done.
  - intros (nd & out_parm & p & path & Hnd & Hmap & Hp & Hval & Hne & ->).
    rewrite Hnd. unfold deref. rewrite bind_Ok, Hmap.
    rewrite (parm_lookup _ _ _ Hp), bind_Ok, Hval.
    by destruct path.
Qed.

Lemma output_directories_of_elem (h : Host) (steps : list RenderStep) (ds : gset string) :
  output_directories_of h steps = Ok ds →
  ∀ d, d ∈ ds ↔ ∃ n, n ∈ steps ∧ output_directory_of h n = Ok (Some d).
Proof.
  revert ds. induction steps as [|n rest IH]; simpl; intros ds H d.
  - injection H as <-. split; [by intros ?%not_elem_of_empty|].
    intros (m & Hm & _). by apply elem_of_nil in Hm.
  - apply bind_Ok_inv in H as (o & Ho & H).
    apply bind_Ok_inv in H as (ds' & Hds' & H). injection H as <-.
    specialize (IH _ Hds' d). split.
    + destruct o as [d0|].
      * intros [->%elem_of_singleton|Hd]%elem_of_union.
        -- exists n. split; [by left | done].
        -- apply IH in Hd as (m & Hm & Hmd). exists m. split; [by right | done].
      * intros Hd. apply IH in Hd as (m & Hm & Hmd). exists m. split; [by right | done].
    + intros (m & [->|Hm]%elem_of_cons & Hmd).
      * rewrite Hmd in Ho. injection Ho as <-.
        by apply elem_of_union_l, elem_of_singleton.
      * assert (d ∈ ds') as Hd by (apply IH; eauto).
        destruct o; [by apply elem_of_union_r | done].
Qed.

(** X12: the output directories of scene-scan mode are exactly the parent
    directories of the non-empty output paths of the extracted steps whose
    operator type is in the table of output parameters; a step of another
    type adds nothing. *)
Theorem scene_scan_output_directories (h : Host) (rop : Node) (refs : AssetReferences) :
  _get_scene_asset_references h rop = Ok refs →
  ∃ steps,
    _get_rop_steps h rop = Ok steps
    ∧ ∀ d, d ∈ output_directories refs ↔
        ∃ n nd out_parm p path,
          n ∈ steps
          ∧ hou_node h (rs_rop n) = Some nd
          ∧ rop_dir_map !! node_type_nameWithCategory nd = Some out_parm
          ∧ node_parms nd !! out_parm = Some p
          ∧ parm_eval p = PStr path
          ∧ path ≠ ""
          ∧ d = os_path_dirname h path.
Proof.
  unfold _get_scene_asset_references. intros H.
  apply bind_Ok_inv in H as (steps & Hsteps & H).
  apply bind_Ok_inv in H as (dirs & Hdirs & H).
  injection H as H. subst refs. cbn [output_directories].
  exists steps. split; [done|]. intros d.
  rewrite (output_directories_of_elem h steps dirs Hdirs d). split.
  - intros (n & Hn & Hd). apply output_directory_of_Some in Hd
      as (nd & out_parm & p & path & ?). exists n, nd, out_parm, p, path. tauto.
  - intros (n & nd & out_parm & p & path & Hn & Hrest).
    exists n. split; [done|]. apply output_directory_of_Some.
    exists nd, out_parm, p, path. done.
Qed.

Lemma scene_scan_output_directories_witness :
  _get_scene_asset_references Scene.host_references Scene.rop_separate = Ok Scene.scanned
  ∧ ∃ steps,
      _get_rop_steps Scene.host_references Scene.rop_separate = Ok steps
      ∧ ∀ d, d ∈ output_directories Scene.scanned ↔
          ∃ n nd out_parm p path,
            n ∈ steps
            ∧ hou_node Scene.host_references (rs_rop n) = Some nd
            ∧ rop_dir_map !! node_type_nameWithCategory nd = Some out_parm
            ∧ node_parms nd !! out_parm = Some p
            ∧ parm_eval p = PStr path
            ∧ path ≠ ""
            ∧ d = os_path_dirname Scene.host_references path.
Proof.
  split; [vm_compute; reflexivity|].
  apply (scene_scan_output_directories Scene.host_references Scene.rop_separate).
  vm_compute; reflexivity.
Defined.

(** ** Parameter values and the bundle writer *)

(** X13: what the bundle writer never does. Whatever happens, it creates
    no directory and changes no file other than the three of the bundle in
    the destination directory. The template and the parameter values are
    compiled, in this order, before the first file is opened: when one of
    them raises, the file system is exactly as before and that exception
    escapes; and when the destination directory is missing, the file system
    is exactly as before too. *)
Theorem bundle_writer_frame (h : Host) (fs : FileSystem) (rop : Node)
    (dir : string) (refs : AssetReferences) :
  let result := _create_job_bundle h fs rop dir refs in
  fs_dirs result.1 = fs_dirs fs
  ∧ (∀ d name, ¬ (d = dir ∧ name ∈ BUNDLE_FILES) →
       fs_files result.1 !! (d, name) = fs_files fs !! (d, name))
  ∧ (∀ e, _get_job_template h rop = Err e → result = (fs, Some e))
  ∧ (∀ jt e, _get_job_template h rop = Ok jt →
       _get_parameter_values h rop = Err e → result = (fs, Some e))
  ∧ (dir ∉ fs_dirs fs → result.1 = fs).
Proof.
  cbv zeta. unfold _create_job_bundle.
  destruct (_get_job_template h rop) as [jt|e].
  2: { repeat split; try done. by intros e' [= ->]. }
  destruct (_get_parameter_values h rop) as [values|e].
  2: { repeat split; try done. by intros jt' e' _ [= ->]. }
  destruct (decide (dir ∈ fs_dirs fs)) as [Hdir|Hdir].
  - rewrite write_file_in by done. rewrite write_file_in by done.
    rewrite write_file_in by done. cbn [fst snd fs_dirs fs_files].
    split; [done|]. split; [|done].
    intros d name Hother. unfold BUNDLE_FILES in Hother.
    rewrite !lookup_insert_ne; [done|..];
      intros [= <- <-]; apply Hother; (split; [done|]);
      apply list_elem_of_In; simpl; tauto.
  - by rewrite write_file_not_in.
Qed.

(** X14: writing the bundle again gives the same file system: the three
    files are overwritten with the same text. *)
Theorem bundle_writer_idempotent (h : Host) (fs fs' : FileSystem) (rop : Node)
    (dir : string) (refs : AssetReferences) :
  _create_job_bundle h fs rop dir refs = (fs', None) →
  _create_job_bundle h fs' rop dir refs = (fs', None).
Proof.
  unfold _create_job_bundle.
  destruct (_get_job_template h rop) as [jt|e]; [|discriminate].
  destruct (_get_parameter_values h rop) as [values|e]; [|discriminate].
  destruct (decide (dir ∈ fs_dirs fs)) as [Hdir|Hdir].
  - rewrite !write_file_in by done. intros [= <-]. cbn [fs_dirs fs_files].
    rewrite !write_file_in by done. cbn [fs_dirs fs_files].
    f_equal. f_equal. apply map_eq. intros k.
    rewrite !lookup_insert. repeat case_decide; done.
  - rewrite write_file_not_in by done. discriminate.
Qed.

Lemma bundle_writer_idempotent_witness :
  ∃ fs',
    _create_job_bundle Scene.host_separate Scene.fs_with_dir Scene.rop_separate
      "/bundle" AssetReferences_new = (fs', None)
    ∧ _create_job_bundle Scene.host_separate fs' Scene.rop_separate
        "/bundle" AssetReferences_new = (fs', None).
Proof.
  eexists. split; [vm_compute; reflexivity|].
  apply (bundle_writer_idempotent Scene.host_separate Scene.fs_with_dir).
  vm_compute; reflexivity.
Defined.

(** ** Node-list mode *)

Lemma bind_Err {A B : Type} (e : PyExc) (k : A → Result B) : Err e ≫= k = Err e.
Proof. reflexivity. Qed.

(** X15: node-list mode takes the three path lists of the operator as they
    are: each set of the result holds exactly the values of the instances of
    the list of the same name, with no filtering; and it raises
    [AttributeError], and nothing else, when one of the three lists is
    missing on the operator. *)
Theorem node_lists_verbatim (s : Session) (mp : MultiParms) :
  match _get_asset_references s mp with
  | Ok refs =>
      ∃ files directories outputs,
        mp !! "input_filenames" = Some files
        ∧ mp !! "input_directories" = Some directories
        ∧ mp !! "output_directories" = Some outputs
        ∧ (∀ x, x ∈ input_filenames refs ↔ ∃ t, t ∈ files ∧ x = parm_eval_string s t)
        ∧ (∀ x, x ∈ input_directories refs ↔ ∃ t, t ∈ directories ∧ x = parm_eval_string s t)
        ∧ (∀ x, x ∈ output_directories refs ↔ ∃ t, t ∈ outputs ∧ x = parm_eval_string s t)
  | Err e =>
      e = AttributeError
      ∧ (mp !! "input_filenames" = None
         ∨ mp !! "input_directories" = None
         ∨ mp !! "output_directories" = None)
  end.
Proof.
  assert (∀ (l : list string) (x : string),
            x ∈ (∅ : gset string) ∪ list_to_set (parm_eval_string s <$> l)
            ↔ ∃ t, t ∈ l ∧ x = parm_eval_string s t) as Helem.
  { intros l x. rewrite elem_of_union, elem_of_list_to_set, list_elem_of_fmap.
    split; [intros [?%not_elem_of_empty|(t & -> & ?)]; [done | eauto] |].
    intros (t & ? & ->). right. eauto. }
  unfold _get_asset_references, multiparm_values.
  destruct (mp !! "input_filenames") as [files|]; [|rewrite bind_Err; by auto].
  destruct (mp !! "input_directories") as [directories|];
    [|rewrite bind_Ok, bind_Err; by auto].
  destruct (mp !! "output_directories") as [outputs|];
    [|rewrite !bind_Ok, bind_Err; by auto].
  rewrite !bind_Ok. exists files, directories, outputs.
  cbn [input_filenames input_directories output_directories AssetReferences_new].
  auto 10.
Qed.

(** ** The "parse files" callback *)

Lemma remove_instances_nil (instances : list string) : remove_instances instances = [].
Proof. induction instances; done. Qed.

(** The loop that sets the instances writes the paths, in order, when there
    are as many instances as paths. *)
Lemma set_instances_fill (paths : list string) (todo i : nat) (instances : list string) :
  (i + todo = length paths)%nat →
  length instances = length paths →
  take i instances = take i paths →
  set_instances paths i todo instances = (paths, None).
Proof.
  revert i instances. induction todo as [|todo IH]; intros i instances Hi Hlen Htake.
  - simpl. rewrite Nat.add_0_r in Hi. subst i.
    rewrite <- Hlen in Htake at 1. rewrite !firstn_all in Htake. by subst.
  - simpl. destruct (lookup_lt_is_Some_2 paths i) as [path Hpath]; [lia|].
    rewrite (index_lookup _ _ _ Hpath). apply IH.
    + lia.
    + by rewrite length_insert.
    + rewrite (take_S_r paths i path) by done.
      rewrite (take_S_r _ i path) by (apply list_lookup_insert_eq; lia).
      by rewrite take_insert_ge, Htake by lia.
Qed.

Lemma fill_multiparm_paths (s : Session) (paths : gset string) (instances : list string) :
  fill_multiparm s paths instances = (sorted_paths paths, None).
Proof.
  unfold fill_multiparm. rewrite remove_instances_nil, resize_nil, length_replicate.
  apply set_instances_fill; [done | apply length_replicate | done].
Qed.

(** What [sorted(list(paths))] is: the paths of the set, each once, in
    order. *)
Lemma sorted_paths_spec (paths : gset string) :
  Sorted String.le (sorted_paths paths)
  ∧ NoDup (sorted_paths paths)
  ∧ (∀ x, x ∈ sorted_paths paths ↔ x ∈ paths)
  ∧ (list_to_set (sorted_paths paths) : gset string) = paths.
Proof.
  unfold sorted_paths.
  pose proof (merge_sort_Permutation String.le (elements paths)) as Hperm.
  split; [apply (Sorted_merge_sort String.le)|].
  split; [rewrite Hperm; apply NoDup_elements|].
  split; [intros x; rewrite Hperm; apply elem_of_elements|].
  rewrite Hperm. apply list_to_set_elements_L.
Qed.

Lemma path_lists_lookup (mp : MultiParms) (files directories outputs : list string) :
  let mp' := <["output_directories" := outputs]>
               (<["input_directories" := directories]>
                  (<["input_filenames" := files]> mp)) in
  mp' !! "input_filenames" = Some files
  ∧ mp' !! "input_directories" = Some directories
  ∧ mp' !! "output_directories" = Some outputs.
Proof.
  cbv zeta. split; [|split].
  - rewrite lookup_insert_ne by discriminate.
    rewrite lookup_insert_ne by discriminate. apply lookup_insert_eq.
  - rewrite lookup_insert_ne by discriminate. apply lookup_insert_eq.
  - apply lookup_insert_eq.
Qed.

Lemma sorted_paths_empty : sorted_paths ∅ = [].
Proof. unfold sorted_paths. by rewrite elements_empty. Qed.

(** X16: when the scan succeeds and the operator has its three path lists,
    "parse files" replaces the instances of each list, whatever they were,
    by the scanned paths of that set, each once and in the order of
    [sorted]; the list of input directories is always left empty, since
    the scan finds none. If the host evaluates these paths to themselves,
    node-list mode then returns exactly what the scan found. *)
Theorem parse_files_fills_lists (h : Host) (s : Session) (node : Node)
    (mp : MultiParms) (scanned : AssetReferences) :
  _get_scene_asset_references h node = Ok scanned →
  is_Some (mp !! "input_filenames") →
  is_Some (mp !! "input_directories") →
  is_Some (mp !! "output_directories") →
  ∃ files outputs,
    p_parse_files h s node mp
    = (<["output_directories" := outputs]>
         (<["input_directories" := []]>
            (<["input_filenames" := files]> mp)), None)
    ∧ Sorted String.le files ∧ NoDup files
    ∧ (∀ x, x ∈ files ↔ x ∈ input_filenames scanned)
    ∧ Sorted String.le outputs ∧ NoDup outputs
    ∧ (∀ x, x ∈ outputs ↔ x ∈ output_directories scanned)
    ∧ ((∀ x, x ∈ files ++ outputs → parm_eval_string s x = x) →
       _get_asset_references s
         (<["output_directories" := outputs]>
            (<["input_directories" := []]>
               (<["input_filenames" := files]> mp)))
       = Ok scanned).
Proof.
  intros Hscan [l1 H1] [l2 H2] [l3 H3].
  pose proof (scene_asset_references_Ok h node scanned Hscan) as [_ Hempty].
  destruct (sorted_paths_spec (input_filenames scanned)) as (Hs1 & Hn1 & He1 & Hset1).
  destruct (sorted_paths_spec (output_directories scanned)) as (Hs3 & Hn3 & He3 & Hset3).
  exists (sorted_paths (input_filenames scanned)),
         (sorted_paths (output_directories scanned)).
  split; [|repeat split; try done; try apply He1; try apply He3].
  - unfold p_parse_files. rewrite Hscan. cbn [parse_refs].
    rewrite H1, fill_multiparm_paths.
    rewrite lookup_insert_ne, H2, fill_multiparm_paths by done.
    rewrite !lookup_insert_ne, H3, fill_multiparm_paths by done.
    rewrite Hempty, sorted_paths_empty. reflexivity.
  - intros Heval. unfold _get_asset_references, multiparm_values.
    destruct (path_lists_lookup mp (sorted_paths (input_filenames scanned)) []
                (sorted_paths (output_directories scanned))) as (-> & -> & ->).
    rewrite !bind_Ok.
    assert (∀ l : list string, (∀ x, x ∈ l → parm_eval_string s x = x) →
              parm_eval_string s <$> l = l) as Hid.
    { intros l Hl. induction l as [|x l IH]; [done|].
      rewrite fmap_cons, Hl, IH; [done| |by left].
      intros y Hy. apply Hl. by right. }
    rewrite (Hid (sorted_paths (input_filenames scanned)))
      by (intros x Hx; apply Heval, elem_of_app; by left).
    rewrite (Hid (sorted_paths (output_directories scanned)))
      by (intros x Hx; apply Heval, elem_of_app; by right).
    rewrite fmap_nil, list_to_set_nil.
    cbn [input_filenames input_directories output_directories AssetReferences_new].
    rewrite Hset1, Hset3. destruct scanned as [a b c]. cbn in *. subst b.
    f_equal. f_equal; apply (left_id_L ∅ (∪)).
Qed.

Lemma parse_files_fills_lists_witness :
  _get_scene_asset_references Scene.host_references Scene.rop_separate = Ok Scene.scanned
  ∧ Scene.lists !! "input_filenames" = Some ["old.hip"]
  ∧ Scene.lists !! "input_directories" = Some ["/proj/cache"]
  ∧ Scene.lists !! "output_directories" = Some []
  ∧ p_parse_files Scene.host_references Scene.session Scene.rop_separate Scene.lists
    = (<["output_directories" := ["/proj/geo"; "/proj/render"]]>
         (<["input_directories" := []]>
            (<["input_filenames" :=
                 ["/proj/shot.hip"; "/proj/tex/wood.png"; "opdef:/Object/geo?icon.svg"]]>
               Scene.lists)), None)
  ∧ ∃ files outputs,
      p_parse_files Scene.host_references Scene.session Scene.rop_separate Scene.lists
      = (<["output_directories" := outputs]>
           (<["input_directories" := []]>
              (<["input_filenames" := files]> Scene.lists)), None)
      ∧ Sorted String.le files ∧ NoDup files
      ∧ (∀ x, x ∈ files ↔ x ∈ input_filenames Scene.scanned)
      ∧ Sorted String.le outputs ∧ NoDup outputs
      ∧ (∀ x, x ∈ outputs ↔ x ∈ output_directories Scene.scanned)
      ∧ ((∀ x, x ∈ files ++ outputs → parm_eval_string Scene.session x = x) →
         _get_asset_references Scene.session
           (<["output_directories" := outputs]>
              (<["input_directories" := []]>
                 (<["input_filenames" := files]> Scene.lists)))
         = Ok Scene.scanned).
Proof.
  do 5 (split; [vm_compute; reflexivity|]).
  apply (parse_files_fills_lists Scene.host_references Scene.session Scene.rop_separate
           Scene.lists Scene.scanned).
  - vm_compute; reflexivity.
  - exists ["old.hip"]. vm_compute; reflexivity.
  - exists ["/proj/cache"]. vm_compute; reflexivity.
  - exists []. vm_compute; reflexivity.
Defined.

(** X17: "parse files" has no exception handler. When the scan raises, the
    exception escapes and the lists are as before. When a list is missing
    on the operator, [AttributeError] escapes, and the lists that come
    before it in the loop have already been rewritten: here, without
    [input_directories], the input files are replaced all the same. *)
Theorem parse_files_failures (h : Host) (s : Session) (node : Node) (mp : MultiParms) :
  (∀ e, _get_scene_asset_references h node = Err e →
        p_parse_files h s node mp = (mp, Some e))
  ∧ (∀ scanned old,
       _get_scene_asset_references h node = Ok scanned →
       mp !! "input_filenames" = Some old →
       mp !! "input_directories" = None →
       p_parse_files h s node mp
       = (<["input_filenames" := sorted_paths (input_filenames scanned)]> mp,
          Some AttributeError)).
Proof.
  unfold p_parse_files. split.
  - by intros e ->.
  - intros scanned old -> Hfiles Hdirs. cbn [parse_refs].
    rewrite Hfiles, fill_multiparm_paths.
    rewrite lookup_insert_ne by discriminate. by rewrite Hdirs.
Qed.

Lemma parse_files_failures_witness :
  _get_scene_asset_references Scene.host_references Scene.rop_separate = Ok Scene.scanned
  ∧ Scene.lists_without_directories !! "input_filenames" = Some ["old.hip"]
  ∧ Scene.lists_without_directories !! "input_directories" = None
  ∧ p_parse_files Scene.host_references Scene.session Scene.rop_separate
      Scene.lists_without_directories
    = (<["input_filenames" := sorted_paths (input_filenames Scene.scanned)]>
         Scene.lists_without_directories,
       Some AttributeError).
Proof.
  do 3 (split; [vm_compute; reflexivity|]).
  apply (proj2 (parse_files_failures Scene.host_references Scene.session
                  Scene.rop_separate Scene.lists_without_directories)
           Scene.scanned ["old.hip"]);
    vm_compute; reflexivity.
Defined.

(** ** The "save bundle" callback *)

Lemma create_job_bundle_written (h : Host) (fs : FileSystem) (rop : Node)
    (dir : string) (refs : AssetReferences)
    (jt : JobTemplate) (values : list ParameterValue) :
  _get_job_template h rop = Ok jt →
  _get_parameter_values h rop = Ok values →
  dir ∈ fs_dirs fs →
  _create_job_bundle h fs rop dir refs =
    ({| fs_dirs := fs_dirs fs;
        fs_files :=
          <[(dir, "asset_references.yaml") := deadline_yaml_dump h (DocAssetReferences refs)]>
            (<[(dir, "parameter_values.yaml") := deadline_yaml_dump h (DocParameterValues values)]>
               (<[(dir, "template.yaml") := deadline_yaml_dump h (DocTemplate jt)]>
                  (fs_files fs))) |}, None).
Proof.
  intros Hjt Hvalues Hdir. unfold _create_job_bundle. rewrite Hjt, Hvalues.
  rewrite write_file_in by done. rewrite write_file_in by done.
  by rewrite write_file_in by done.
Qed.

(** X18: a successful save. When the operator has a name and its three
    path lists, the job-history helper returns a directory that exists, and
    the template and the parameter values compile, "save bundle" writes the
    three files into that directory, the asset references being those of
    the operator's lists and not of a new scan; nothing escapes; and the
    user sees the two printed lines, the directory opened on Windows only,
    and last one message naming the directory. *)
Theorem save_bundle_writes (h : Host) (s : Session) (mp : MultiParms)
    (fs fs1 : FileSystem) (node : Node) (pn : Parm) (refs : AssetReferences)
    (dir : string) (jt : JobTemplate) (values : list ParameterValue) :
  node_parms node !! "name" = Some pn →
  _get_asset_references s mp = Ok refs →
  create_job_history_bundle_dir s fs "houdini" (parm_evalAsString pn) = (fs1, Ok dir) →
  dir ∈ fs_dirs fs1 →
  _get_job_template h node = Ok jt →
  _get_parameter_values h node = Ok values →
  ∃ fs2,
    p_save_bundle h s mp fs node
    = (fs2,
       [ Print "Saved the submission as a job bundle:"; Print dir ]
       ++ (if String.eqb (sys_platform s) "win32" then [ StartFile dir ] else [])
       ++ [ DisplayMessage ("Saved the submission as a job bundle: " +:+ dir)
              "Houdini Job Submission" ],
       None)
    ∧ fs_dirs fs2 = fs_dirs fs1
    ∧ fs_files fs2 !! (dir, "template.yaml")
      = Some (deadline_yaml_dump h (DocTemplate jt))
    ∧ fs_files fs2 !! (dir, "parameter_values.yaml")
      = Some (deadline_yaml_dump h (DocParameterValues values))
    ∧ fs_files fs2 !! (dir, "asset_references.yaml")
      = Some (deadline_yaml_dump h (DocAssetReferences refs))
    ∧ ∀ d name, ¬ (d = dir ∧ name ∈ BUNDLE_FILES) →
        fs_files fs2 !! (d, name) = fs_files fs1 !! (d, name).
Proof.
  intros Hpn Hrefs Hdir Hin Hjt Hvalues.
  eexists. split.
  - unfold p_save_bundle. rewrite (parm_lookup _ _ _ Hpn), fmap_Ok, Hrefs, Hdir.
    rewrite (create_job_bundle_written h fs1 node dir refs jt values Hjt Hvalues Hin).
    reflexivity.
  - cbn [fs_dirs fs_files]. split; [done|].
    split; [by rewrite !lookup_insert_ne, lookup_insert_eq by congruence|].
    split; [by rewrite lookup_insert_ne, lookup_insert_eq by congruence|].
    split; [by rewrite lookup_insert_eq|].
    intros d name Hother. unfold BUNDLE_FILES in Hother.
    rewrite !lookup_insert_ne; [done|..];
      intros [= <- <-]; apply Hother; (split; [done|]);
      apply list_elem_of_In; simpl; tauto.
Qed.

Lemma save_bundle_writes_witness :
  node_parms Scene.rop_separate !! "name"
    = Some (Scene.text "/out/deadline_cloud1" "name" "shot")
  ∧ _get_job_template Scene.host_separate Scene.rop_separate = Ok Scene.template_separate
  ∧ ∃ fs2,
      p_save_bundle Scene.host_separate Scene.session Scene.lists Scene.fs_without_dir
        Scene.rop_separate
      = (fs2,
         [ Print "Saved the submission as a job bundle:"; Print "/history/shot";
           DisplayMessage "Saved the submission as a job bundle: /history/shot"
             "Houdini Job Submission" ],
         None)
      ∧ fs_files fs2 !! ("/history/shot", "template.yaml") = Some "template: shot".
Proof.
  split; [vm_compute; reflexivity|]. split; [vm_compute; reflexivity|].
  destruct (save_bundle_writes Scene.host_separate Scene.session Scene.lists
              Scene.fs_without_dir
              {| fs_dirs := {[ "/history/shot" ]} ∪ ∅; fs_files := ∅ |}
              Scene.rop_separate
              (Scene.text "/out/deadline_cloud1" "name" "shot")
              {| input_filenames := ∅ ∪ list_to_set ["old.hip"];
                 input_directories := ∅ ∪ list_to_set ["/proj/cache"];
                 output_directories := ∅ ∪ list_to_set [] |}
              "/history/shot" Scene.template_separate
              [ {| pv_name := "deadline:priority"; pv_value := PInt 50 |};
                {| pv_name := "deadline:targetTaskRunStatus"; pv_value := PStr "READY" |};
                {| pv_name := "deadline:maxFailedTasksCount"; pv_value := PInt 20 |};
                {| pv_name := "deadline:maxRetriesPerTask"; pv_value := PInt 5 |} ])
    as (fs2 & Hsave & _ & Htemplate & _); try (vm_compute; reflexivity).
  exists fs2. split; [exact Hsave | exact Htemplate].
Defined.

(** X19: a failed save. When the operator has a name and its three path
    lists, no exception escapes from "save bundle": whatever the helper, the
    template compiler or the writer raise is shown to the user in one
    warning, after the line "Error saving bundle", and the file system is
    left as the helper and the writer left it; so, when the template or
    the parameter values do not compile, the directory the helper made
    stays, without any file written by the writer. In every case the user
    sees exactly one dialog, as the last thing. *)
Theorem save_bundle_reports (h : Host) (s : Session) (mp : MultiParms)
    (fs : FileSystem) (node : Node) (pn : Parm) (refs : AssetReferences) :
  node_parms node !! "name" = Some pn →
  _get_asset_references s mp = Ok refs →
  let result := p_save_bundle h s mp fs node in
  result.2 = None
  ∧ (∃ before dialog,
       result.1.2 = before ++ [dialog]
       ∧ is_dialog dialog = true
       ∧ Forall (λ e, is_dialog e = false) before)
  ∧ ∀ fs1 dir exc,
      create_job_history_bundle_dir s fs "houdini" (parm_evalAsString pn) = (fs1, Ok dir) →
      (_get_job_template h node = Err exc
       ∨ (∃ jt, _get_job_template h node = Ok jt)
         ∧ _get_parameter_values h node = Err exc) →
      result = (fs1, [ Print "Error saving bundle";
                       DisplayWarning exc "Houdini Job Submission" ], None).
Proof.
  intros Hpn Hrefs. cbv zeta. unfold p_save_bundle.
  rewrite (parm_lookup _ _ _ Hpn), fmap_Ok, Hrefs.
  destruct (create_job_history_bundle_dir s fs "houdini" (parm_evalAsString pn))
    as [fs1 [dir|exc]] eqn:Hdir.
  - destruct (_create_job_bundle h fs1 node dir refs) as [fs2 [exc|]] eqn:Hbundle.
    + split; [done|]. split.
      * exists [Print "Error saving bundle"], (DisplayWarning exc DIALOG_TITLE).
        repeat split; repeat constructor.
      * intros fs1' dir' exc' [= <- <-] Hfail.
        unfold _create_job_bundle in Hbundle.
        destruct Hfail as [Hjt|[[jt Hjt] Hvalues]]; rewrite Hjt in Hbundle.
        -- by injection Hbundle as <- <-.
        -- rewrite Hvalues in Hbundle. by injection Hbundle as <- <-.
    + split; [done|]. split.
      * exists ([ Print "Saved the submission as a job bundle:"; Print dir ]
                ++ (if String.eqb (sys_platform s) "win32" then [ StartFile dir ] else [])),
               (DisplayMessage ("Saved the submission as a job bundle: " +:+ dir)
                  DIALOG_TITLE).
        cbn [fst snd]. split; [by rewrite <- app_assoc|]. split; [done|].
        destruct (String.eqb (sys_platform s) "win32"); repeat constructor.
      * intros fs1' dir' exc' [= <- <-] Hfail.
        unfold _create_job_bundle in Hbundle.
        destruct Hfail as [Hjt|[[jt Hjt] Hvalues]]; rewrite Hjt in Hbundle.
        -- discriminate.
        -- rewrite Hvalues in Hbundle. discriminate.
  - split; [done|]. split.
    + exists [Print "Error saving bundle"], (DisplayWarning exc DIALOG_TITLE).
      repeat split; repeat constructor.
    + intros fs1' dir' exc' [=].
Qed.

Lemma save_bundle_reports_witness :
  node_parms Scene.rop_separate !! "name"
    = Some (Scene.text "/out/deadline_cloud1" "name" "shot")
  ∧ _get_job_template Scene.host_chain Scene.rop_separate = Err (KeyError "2")
  ∧ p_save_bundle Scene.host_chain Scene.session Scene.lists Scene.fs_without_dir
      Scene.rop_separate
    = ({| fs_dirs := {[ "/history/shot" ]} ∪ ∅; fs_files := ∅ |},
       [ Print "Error saving bundle";
         DisplayWarning (KeyError "2") "Houdini Job Submission" ], None).
Proof.
  split; [vm_compute; reflexivity|]. split; [vm_compute; reflexivity|].
  refine (proj2 (proj2 (save_bundle_reports Scene.host_chain Scene.session Scene.lists
                          Scene.fs_without_dir Scene.rop_separate
                          (Scene.text "/out/deadline_cloud1" "name" "shot")
                          {| input_filenames := ∅ ∪ list_to_set ["old.hip"];
                             input_directories := ∅ ∪ list_to_set ["/proj/cache"];
                             output_directories := ∅ ∪ list_to_set [] |}
                          _ _))
            {| fs_dirs := {[ "/history/shot" ]} ∪ ∅; fs_files := ∅ |}
            "/history/shot" (KeyError "2") _ _).
  - vm_compute; reflexivity.
  - vm_compute; reflexivity.
  - vm_compute; reflexivity.
  - left. vm_compute; reflexivity.
Defined.

(** ** The "submit" callback *)

Lemma traced_bind_calls {A B : Type} (c : Traced A) (k : A → Traced B) :
  Forall (λ e, is_farm_call e = true) c.1 →
  (∀ a, Forall (λ e, is_farm_call e = true) (k a).1) →
  Forall (λ e, is_farm_call e = true) (traced_bind c k).1.
Proof.
  intros Hc Hk. destruct c as [events [a|e]]; simpl; [|done].
  specialize (Hk a). destruct (k a) as [events' r]. simpl in *.
  by apply Forall_app.
Qed.

(** What follows the writing of the bundle only logs calls to the farm. *)
Lemma submit_bundle_calls (farm : Farm) (deadline dir : string) (parameters : list Json) :
  Forall (λ e, is_farm_call e = true) (submit_bundle farm deadline dir parameters).1.
Proof.
  unfold submit_bundle.
  repeat (apply traced_bind_calls; [by repeat constructor|]; intros ?).
  by repeat constructor.
Qed.

Lemma traced_bind_elem {A B : Type} (c : Traced A) (k : A → Traced B) (e : Event) :
  e ∈ (traced_bind c k).1 → e ∈ c.1 ∨ ∃ a, c.2 = Ok a ∧ e ∈ (k a).1.
Proof.
  destruct c as [events [a|exc]]; simpl; [|by left].
  destruct (k a) as [events' r] eqn:Hk. simpl.
  intros [?|?]%elem_of_app; [by left|]. right. exists a. by rewrite Hk.
Qed.

(** The submission is started with the arguments [p_submit] prepared. *)
Lemma submit_bundle_start (farm : Farm) (deadline dir : string) (parameters : list Json)
    (f q p d : string) (qp : list Json) (a : bool) :
  StartSubmission f q p d qp a ∈ (submit_bundle farm deadline dir parameters).1 →
  f = get_setting farm "defaults.farm_id"
  ∧ q = get_setting farm "defaults.queue_id"
  ∧ p = get_setting farm "settings.storage_profile_id"
  ∧ d = dir
  ∧ qp = parameters
  ∧ str2bool farm (get_setting farm "settings.auto_accept") = Ok a.
Proof.
  unfold submit_bundle. intros H.
  apply traced_bind_elem in H as [H|(queue & _ & H)];
    [by apply list_elem_of_singleton in H|].
  apply traced_bind_elem in H as [H|(display & _ & H)]; [by apply elem_of_nil in H|].
  apply traced_bind_elem in H as [H|(session & _ & H)];
    [by apply list_elem_of_singleton in H|].
  apply traced_bind_elem in H as [H|(settings & _ & H)]; [by apply elem_of_nil in H|].
  apply traced_bind_elem in H as [H|(js & _ & H)]; [by apply elem_of_nil in H|].
  apply traced_bind_elem in H as [H|(manager & _ & H)]; [by apply elem_of_nil in H|].
  apply traced_bind_elem in H as [H|(dialog & _ & H)]; [by apply elem_of_nil in H|].
  apply traced_bind_elem in H as [H|(auto & Hauto & H)]; [by apply elem_of_nil in H|].
  apply list_elem_of_singleton in H. injection H as -> -> -> -> -> ->. done.
Qed.

Lemma create_job_bundle_None (h : Host) (fs fs2 : FileSystem) (rop : Node)
    (dir : string) (refs : AssetReferences) :
  _create_job_bundle h fs rop dir refs = (fs2, None) →
  ∃ jt values,
    _get_job_template h rop = Ok jt
    ∧ _get_parameter_values h rop = Ok values
    ∧ dir ∈ fs_dirs fs
    ∧ fs_files fs2 !! (dir, "template.yaml")
      = Some (deadline_yaml_dump h (DocTemplate jt))
    ∧ fs_files fs2 !! (dir, "parameter_values.yaml")
      = Some (deadline_yaml_dump h (DocParameterValues values))
    ∧ fs_files fs2 !! (dir, "asset_references.yaml")
      = Some (deadline_yaml_dump h (DocAssetReferences refs)).
Proof.
  intros H.
  destruct (_get_job_template h rop) as [jt|e] eqn:Hjt;
    [|unfold _create_job_bundle in H; rewrite Hjt in H; discriminate].
  destruct (_get_parameter_values h rop) as [values|e] eqn:Hvalues;
    [|unfold _create_job_bundle in H; rewrite Hjt, Hvalues in H; discriminate].
  destruct (decide (dir ∈ fs_dirs fs)) as [Hdir|Hdir].
  - rewrite (create_job_bundle_written h fs rop dir refs jt values Hjt Hvalues Hdir) in H.
    injection H as <-. exists jt, values. cbn [fs_files].
    split; [done|]. split; [done|]. split; [done|].
    split; [by rewrite !lookup_insert_ne, lookup_insert_eq by congruence|].
    split; [by rewrite lookup_insert_ne, lookup_insert_eq by congruence|].
    by rewrite lookup_insert_eq.
  - unfold _create_job_bundle in H. rewrite Hjt, Hvalues in H.
    rewrite write_file_not_in in H by done. discriminate.
Qed.

(** X20: when the operator has a name and its three path lists, no
    exception escapes from "submit". What can be observed is a run of calls
    to the farm, followed, when something was raised, by that exception
    printed and shown in one warning. A call to the farm is only made once
    the bundle is written: if there is any, the farm client was made, the
    job-history helper returned a directory, and the writer wrote the
    bundle there without raising; the file system returned is the one the
    writer left, whatever the farm did. *)
Theorem submit_reports (h : Host) (s : Session) (farm : Farm) (mp : MultiParms)
    (fs : FileSystem) (node : Node) (pn : Parm) (refs : AssetReferences) :
  node_parms node !! "name" = Some pn →
  _get_asset_references s mp = Ok refs →
  let result := p_submit h s farm mp fs node in
  result.2 = None
  ∧ ∃ calls,
      Forall (λ e, is_farm_call e = true) calls
      ∧ (result.1.2 = calls
         ∨ ∃ exc, result.1.2
                  = calls ++ [ PrintException exc;
                               DisplayWarning exc "Houdini Job Submission" ])
      ∧ (calls ≠ [] →
         ∃ deadline fs1 dir,
           get_boto3_client farm "deadline" = Ok deadline
           ∧ create_job_history_bundle_dir s fs "houdini" (parm_evalAsString pn)
             = (fs1, Ok dir)
           ∧ _create_job_bundle h fs1 node dir refs = (result.1.1, None)).
Proof.
  intros Hpn Hrefs. cbv zeta. unfold p_submit.
  rewrite (parm_lookup _ _ _ Hpn), fmap_Ok, Hrefs.
  destruct (get_boto3_client farm "deadline") as [deadline|exc].
  2: { split; [done|]. exists []. split; [done|]. split; [right; by eexists | done]. }
  destruct (create_job_history_bundle_dir s fs "houdini" (parm_evalAsString pn))
    as [fs1 [dir|exc]].
  2: { split; [done|]. exists []. split; [done|]. split; [right; by eexists | done]. }
  destruct (_create_job_bundle h fs1 node dir refs) as [fs2 [exc|]] eqn:Hbundle.
  { split; [done|]. exists []. split; [done|]. split; [right; by eexists | done]. }
  pose proof (submit_bundle_calls farm deadline dir []) as Hcalls.
  destruct (submit_bundle farm deadline dir []) as [events [[]|exc]]; cbn [fst snd] in *.
  - split; [done|]. exists events. split; [done|]. split; [by left|].
    intros _. exists deadline, fs1, dir. done.
  - split; [done|]. exists events. split; [done|]. split; [right; by eexists|].
    intros _. exists deadline, fs1, dir. done.
Qed.

Lemma submit_reports_witness :
  node_parms Scene.rop_separate !! "name"
    = Some (Scene.text "/out/deadline_cloud1" "name" "shot")
  ∧ (p_submit Scene.host_separate Scene.session (Scene.farm false) Scene.lists
       Scene.fs_without_dir Scene.rop_separate).1.2
    = [ GetQueue "farm-1" "queue-1";
        PrintException (Exception "ResourceNotFoundException");
        DisplayWarning (Exception "ResourceNotFoundException") "Houdini Job Submission" ]
  ∧ (p_submit Scene.host_separate Scene.session (Scene.farm false) Scene.lists
       Scene.fs_without_dir Scene.rop_separate).2 = None.
Proof.
  split; [vm_compute; reflexivity|]. split; [vm_compute; reflexivity|].
  refine (proj1 (submit_reports Scene.host_separate Scene.session (Scene.farm false)
                   Scene.lists Scene.fs_without_dir Scene.rop_separate
                   (Scene.text "/out/deadline_cloud1" "name" "shot")
                   {| input_filenames := ∅ ∪ list_to_set ["old.hip"];
                      input_directories := ∅ ∪ list_to_set ["/proj/cache"];
                      output_directories := ∅ ∪ list_to_set [] |} _ _)).
  - vm_compute; reflexivity.
  - vm_compute; reflexivity.
Defined.

(** X21: whenever "submit" starts a submission, it passes the farm, queue
    and storage profile of the settings, the directory the job-history
    helper returned, an empty list of queue parameters, and the
    auto-accept setting as [str2bool] reads it; and at that time the three
    files of the bundle, compiled from the operator, are in that
    directory. *)
Theorem submission_arguments (h : Host) (s : Session) (farm : Farm) (mp : MultiParms)
    (fs : FileSystem) (node : Node) (pn : Parm) (refs : AssetReferences)
    (f q p d : string) (qp : list Json) (a : bool) :
  node_parms node !! "name" = Some pn →
  _get_asset_references s mp = Ok refs →
  StartSubmission f q p d qp a ∈ (p_submit h s farm mp fs node).1.2 →
  f = get_setting farm "defaults.farm_id"
  ∧ q = get_setting farm "defaults.queue_id"
  ∧ p = get_setting farm "settings.storage_profile_id"
  ∧ qp = []
  ∧ str2bool farm (get_setting farm "settings.auto_accept") = Ok a
  ∧ ∃ fs1 jt values,
      create_job_history_bundle_dir s fs "houdini" (parm_evalAsString pn) = (fs1, Ok d)
      ∧ _get_job_template h node = Ok jt
      ∧ _get_parameter_values h node = Ok values
      ∧ let files := fs_files (p_submit h s farm mp fs node).1.1 in
        files !! (d, "template.yaml") = Some (deadline_yaml_dump h (DocTemplate jt))
        ∧ files !! (d, "parameter_values.yaml")
          = Some (deadline_yaml_dump h (DocParameterValues values))
        ∧ files !! (d, "asset_references.yaml")
          = Some (deadline_yaml_dump h (DocAssetReferences refs)).
Proof.
  intros Hpn Hrefs. cbv zeta. unfold p_submit.
  rewrite (parm_lookup _ _ _ Hpn), fmap_Ok, Hrefs.
  assert (∀ exc, StartSubmission f q p d qp a
                 ∈ [PrintException exc; DisplayWarning exc DIALOG_TITLE] → False) as Hno.
  { intros exc H. apply elem_of_cons in H as [H|H]; [discriminate|].
    apply elem_of_cons in H as [H|H]; [discriminate|]. by apply elem_of_nil in H. }
  destruct (get_boto3_client farm "deadline") as [deadline|exc];
    [|intros H; by destruct (Hno exc)].
  destruct (create_job_history_bundle_dir s fs "houdini" (parm_evalAsString pn))
    as [fs1 [dir|exc]]; [|intros H; by destruct (Hno exc)].
  destruct (_create_job_bundle h fs1 node dir refs) as [fs2 [exc|]] eqn:Hbundle;
    [intros H; by destruct (Hno exc)|].
  pose proof (submit_bundle_start farm deadline dir [] f q p d qp a) as Hstart.
  apply create_job_bundle_None in Hbundle as (jt & values & Hjt & Hvalues & _ & Hfiles).
  destruct (submit_bundle farm deadline dir []) as [events [[]|exc]]; cbn [fst snd] in *.
  - intros H. destruct (Hstart H) as (-> & -> & -> & -> & -> & Hauto).
    repeat split; try done. exists fs1, jt, values. done.
  - intros [H|H]%elem_of_app; [|by destruct (Hno exc)].
    destruct (Hstart H) as (-> & -> & -> & -> & -> & Hauto).
    repeat split; try done. exists fs1, jt, values. done.
Qed.

Lemma submission_arguments_witness :
  node_parms Scene.rop_separate !! "name"
    = Some (Scene.text "/out/deadline_cloud1" "name" "shot")
  ∧ (p_submit Scene.host_separate Scene.session (Scene.farm true) Scene.lists
       Scene.fs_without_dir Scene.rop_separate).1.2
    = [ GetQueue "farm-1" "queue-1";
        GetQueueSession "farm-1" "queue-1" (JStr "Render");
        StartSubmission "farm-1" "queue-1" "sp-1" "/history/shot" [] true ]
  ∧ "farm-1" = get_setting (Scene.farm true) "defaults.farm_id"
  ∧ "queue-1" = get_setting (Scene.farm true) "defaults.queue_id".
Proof.
  split; [vm_compute; reflexivity|]. split; [vm_compute; reflexivity|].
  destruct (submission_arguments Scene.host_separate Scene.session (Scene.farm true)
              Scene.lists Scene.fs_without_dir Scene.rop_separate
              (Scene.text "/out/deadline_cloud1" "name" "shot")
              {| input_filenames := ∅ ∪ list_to_set ["old.hip"];
                 input_directories := ∅ ∪ list_to_set ["/proj/cache"];
                 output_directories := ∅ ∪ list_to_set [] |}
              "farm-1" "queue-1" "sp-1" "/history/shot" [] true)
    as (Hf & Hq & _).
  - vm_compute; reflexivity.
  - vm_compute; reflexivity.
  - apply list_elem_of_In. vm_compute. right. right. left. reflexivity.
  - split; [exact Hf | exact Hq].
Defined.
